(** * mymicrops: a shallow embedding of the TCP engine and its plumbing

    The development follows the C sources:
    - [Timeval]  : struct timeval with the libc macros timersub / timercmp
                   and the repository macro timeval_add_usec;
    - [Sched]    : platform/linux/sched.c (scheduling contexts);
    - [Net]      : net.c (timers, protocols and their queues, devices
                   and interfaces);
    - [Loopback] : driver/loopback.c;
    - [Cksum]    : the 16-bit one's complement checksum used by tcp.c
                   and ip.c;
    - [Tcp]      : tcp.c (PCB table, output, retransmission, segment
                   arrival, timeouts, user commands);
    - [Ip]       : ip.c (routes, input, output).

    Integers of the C code are carried as [Z]; every place where the C type
    wraps around has the reduction written out. *)

From Stdlib Require Import ZArith NArith List Bool Lia String.
From Stdlib.Strings Require Import Byte.
From stdpp Require Import base list.

Open Scope Z_scope.

(* ===================================================================== *)
(** ** struct timeval                                                     *)
(* ===================================================================== *)

Module Timeval.

Record timeval := Tv { tv_sec : Z; tv_usec : Z }.

(** libc: timersub(a, b, result). *)
Definition timersub (a b : timeval) : timeval :=
  let sec := tv_sec a - tv_sec b in
  let usec := tv_usec a - tv_usec b in
  if usec <? 0 then Tv (sec - 1) (usec + 1000000) else Tv sec usec.

(** libc: timercmp(a, b, <). *)
Definition timercmp_lt (a b : timeval) : bool :=
  if tv_sec a =? tv_sec b then tv_usec a <? tv_usec b
  else tv_sec a <? tv_sec b.

(** libc: timercmp(a, b, >). *)
Definition timercmp_gt (a b : timeval) : bool :=
  if tv_sec a =? tv_sec b then tv_usec a >? tv_usec b
  else tv_sec a >? tv_sec b.

(** Modelled from the spec: the macro timeval_add_usec of util.h is not
    among the sources.  The spec reads the retransmission test as
    "now against last + rto" with rto in microseconds, so the macro adds
    [y] microseconds to [x] and keeps tv_usec below one second. *)
Definition timeval_add_usec (x : timeval) (y : Z) : timeval :=
  let sec := tv_sec x + y / 1000000 in
  let usec := tv_usec x + y mod 1000000 in
  if usec >=? 1000000 then Tv (sec + 1) (usec - 1000000) else Tv sec usec.

(** A reading of the clock as a number of microseconds. *)
Definition usec_of (t : timeval) : Z := tv_sec t * 1000000 + tv_usec t.

(** gettimeofday always yields 0 <= tv_usec < 1000000. *)
Definition normal (t : timeval) : Prop := 0 <= tv_usec t < 1000000.

End Timeval.

(* ===================================================================== *)
(** ** platform/linux/sched.c                                             *)
(* ===================================================================== *)

Module Sched.

(** struct sched_ctx: the condition variable itself is represented by the
    status of the tasks that wait on it (see [system] below). *)
Record sched_ctx := Ctx { interrupted : Z; wc : Z }.

Definition sched_ctx_init (_ : sched_ctx) : sched_ctx := Ctx 0 0.

(** sched_sleep up to the call of pthread_cond_wait: [inl r] is the early
    return (errno = EINTR), [inr ctx'] means the caller is now waiting on
    the condition variable with the mutex released. *)
Definition sched_sleep_enter (ctx : sched_ctx) : Z + sched_ctx :=
  if negb (interrupted ctx =? 0) then inl (-1)
  else inr (Ctx (interrupted ctx) (wc ctx + 1)).

(** sched_sleep from the return of pthread_cond_wait (value [ret], mutex
    held again) to the end: the result and the context left behind. *)
Definition sched_sleep_resume (ret : Z) (ctx : sched_ctx) : Z * sched_ctx :=
  let ctx1 := Ctx (interrupted ctx) (wc ctx - 1) in
  if negb (interrupted ctx1 =? 0) then
    (-1, if wc ctx1 =? 0 then Ctx 0 (wc ctx1) else ctx1)
  else (ret, ctx1).

(** A task with respect to one context. [Parked]: blocked inside
    pthread_cond_wait; [Woken]: released by a broadcast, not yet running
    (it still has to take the mutex); [Returned r]: sched_sleep gave [r]. *)
Inductive status := Running | Parked | Woken | Returned (r : Z).

Definition waiting (t : status) : bool :=
  match t with Parked | Woken => true | _ => false end.

(** pthread_cond_broadcast. *)
Definition broadcast (ts : list status) : list status :=
  map (fun t => match t with Parked => Woken | _ => t end) ts.

Record system := Sys { ctx : sched_ctx; tasks : list status }.

Definition sched_wakeup (s : system) : system :=
  Sys (ctx s) (broadcast (tasks s)).

Definition sched_interrupt (s : system) : system :=
  Sys (Ctx 1 (wc (ctx s))) (broadcast (tasks s)).

(** Task [i] calls sched_sleep. *)
Definition call_sleep (i : nat) (s : system) : system :=
  match sched_sleep_enter (ctx s) with
  | inl r => Sys (ctx s) (<[i := Returned r]> (tasks s))
  | inr c => Sys c (<[i := Parked]> (tasks s))
  end.

(** Task [i] comes back from pthread_cond_wait with value [ret]. *)
Definition resume (i : nat) (ret : Z) (s : system) : system :=
  let '(r, c) := sched_sleep_resume ret (ctx s) in
  Sys c (<[i := Returned r]> (tasks s)).

(** Every function of sched.c runs with the caller's mutex held, so the
    moves of the tasks interleave as atomic steps.  A waiting task may come
    back at any time (broadcast, deadline of the timed wait, or a spurious
    return of the wait). *)
Inductive step : system -> system -> Prop :=
| step_sleep i s :
    tasks s !! i = Some Running -> step s (call_sleep i s)
| step_resume i ret s t :
    tasks s !! i = Some t -> waiting t = true -> step s (resume i ret s)
| step_wakeup s : step s (sched_wakeup s)
| step_interrupt s : step s (sched_interrupt s).

Inductive steps : system -> system -> Prop :=
| steps_refl s : steps s s
| steps_cons s1 s2 s3 : step s1 s2 -> steps s2 s3 -> steps s1 s3.

Fixpoint nwaiting (ts : list status) : Z :=
  match ts with
  | [] => 0
  | t :: ts' => (if waiting t then 1 else 0) + nwaiting ts'
  end.

(** The wait count is the number of tasks inside the wait. *)
Definition wc_ok (s : system) : Prop := wc (ctx s) = nwaiting (tasks s).

Definition initial (n : nat) : system :=
  Sys (sched_ctx_init (Ctx 0 0)) (replicate n Running).

(** What holds of a task that was waiting when the context was
    interrupted, from then on. *)
Definition interrupted_or_back (i : nat) (s : system) : Prop :=
  wc_ok s
  /\ ((tasks s !! i = Some Woken /\ interrupted (ctx s) = 1)
      \/ tasks s !! i = Some (Returned (-1))).

End Sched.

(* ===================================================================== *)
(** ** net.c: timers                                                      *)
(* ===================================================================== *)

Module Net.
Import Timeval.

(** struct net_timer; the list is the chain of [next] pointers starting at
    the global [timers].  A handler is a function pointer, kept as a
    number. *)
Record net_timer := Timer { interval : timeval; last : timeval; handler : nat }.

(** net_timer_register: [alloc] tells whether memory_alloc succeeded and
    [now] is the reading of gettimeofday. *)
Definition net_timer_register (alloc : bool) (now : timeval)
    (itv : timeval) (h : nat) (timers : list net_timer) : Z * list net_timer :=
  if negb alloc then (-1, timers)
  else (0, Timer itv now h :: timers).

(** The body of the loop of net_timer_handler for one timer: the timer
    left behind and whether its handler was called. *)
Definition timer_fire (now : timeval) (t : net_timer) : net_timer * bool :=
  let diff := timersub now (last t) in
  if timercmp_lt (interval t) diff then (Timer (interval t) now (handler t), true)
  else (t, false).

(** net_timer_handler: the clock is read once per timer; [clock k] is the
    k-th reading.  The result is the list of timers and the handlers that
    were called, in the order of the calls. *)
Fixpoint net_timer_handler (clock : nat -> timeval) (k : nat)
    (timers : list net_timer) : list net_timer * list nat :=
  match timers with
  | [] => ([], [])
  | t :: rest =>
      let '(t', fired) := timer_fire (clock k) t in
      let '(rest', calls) := net_timer_handler clock (S k) rest in
      (t' :: rest', if fired then handler t :: calls else calls)
  end.

(** A sequence of successful registrations (interval, handler), the first
    of the list registered first, each at time [now]. *)
Definition register_all (now : timeval) (regs : list (timeval * nat))
    : list net_timer :=
  fold_left (fun ts r => snd (net_timer_register true now (fst r) (snd r) ts))
            regs [].

(** The time gone by since the timer fired last, in microseconds. *)
Definition elapsed (now : timeval) (t : net_timer) : Z :=
  usec_of now - usec_of (last t).

(** The test of the tick on that time: the interval is lower than the
    elapsed time, the whole seconds compared first and the microseconds
    only when the seconds are equal. *)
Definition timer_due (now : timeval) (t : net_timer) : bool :=
  let e := elapsed now t in
  if tv_sec (interval t) =? e / 1000000
  then tv_usec (interval t) <? e mod 1000000
  else tv_sec (interval t) <? e / 1000000.

(** The handlers of the timers that are due, in list order. *)
Fixpoint due_handlers (clock : nat -> timeval) (k : nat)
    (timers : list net_timer) : list nat :=
  match timers with
  | [] => []
  | t :: rest =>
      if timer_due (clock k) t
      then handler t :: due_handlers clock (S k) rest
      else due_handlers clock (S k) rest
  end.

(** *** Protocols *)

(** struct net_protocol_queue_entry: the device and the [len] bytes of
    [data]. *)
Record net_protocol_queue_entry :=
  QEntry { entry_dev : nat; entry_data : list byte }.

(** struct net_protocol; the list is the chain of [next] pointers starting
    at the global [protocols], the queue holds its entries from the head. *)
Record net_protocol := Proto {
  proto_type : Z;
  proto_queue : list net_protocol_queue_entry;
  proto_handler : nat }.

(** net_protocol_register; [alloc] tells whether memory_alloc succeeded.
    Modelled from the spec: memory_alloc (platform.h) is not among the
    sources; the queue of the new entry is never initialised by net.c, so
    the memory it returns is taken to be zeroed, which is the empty queue. *)
Definition net_protocol_register (alloc : bool) (type : Z) (h : nat)
    (protocols : list net_protocol) : Z * list net_protocol :=
  if existsb (fun proto => type =? proto_type proto) protocols
  then (-1, protocols)
  else if negb alloc then (-1, protocols)
  else (0, Proto type [] h :: protocols).

(** net_input_handler for the [len] bytes [data]: the result, the
    protocols afterwards and whether the software interrupt was raised.
    [alloc] and [pushed] tell whether memory_alloc and queue_push
    succeeded; the result of queue_push is not looked at.
    Modelled from the spec: queue_push and queue_pop of util.c are not
    among the sources; the spec makes the queue of a protocol a FIFO, so
    queue_push appends at the tail and queue_pop takes from the head. *)
Fixpoint net_input_handler (alloc pushed : bool) (type : Z)
    (data : list byte) (dev : nat) (protocols : list net_protocol)
    : Z * list net_protocol * bool :=
  match protocols with
  | [] => (0, [], false)
  | proto :: rest =>
      if proto_type proto =? type then
        if negb alloc then (-1, protocols, false)
        else
          let entry := QEntry dev data in
          let q := if pushed then proto_queue proto ++ [entry]
                   else proto_queue proto in
          (0, Proto (proto_type proto) q (proto_handler proto) :: rest, true)
      else
        let '(r, rest', raised) :=
          net_input_handler alloc pushed type data dev rest in
        (r, proto :: rest', raised)
  end.

(** A call proto->handler(data, len, dev): the handler, the bytes, the
    device. *)
Definition handler_call : Type := nat * list byte * nat.

(** The inner loop of net_softirq_handler: queue_pop until the queue is
    empty. *)
Fixpoint softirq_drain (h : nat) (q : list net_protocol_queue_entry)
    : list handler_call :=
  match q with
  | [] => []
  | entry :: rest => (h, entry_data entry, entry_dev entry) :: softirq_drain h rest
  end.

(** net_softirq_handler: the protocols afterwards and the calls made, in
    order. *)
Fixpoint net_softirq_handler (protocols : list net_protocol)
    : list net_protocol * list handler_call :=
  match protocols with
  | [] => ([], [])
  | proto :: rest =>
      let calls := softirq_drain (proto_handler proto) (proto_queue proto) in
      let '(rest', calls') := net_softirq_handler rest in
      (Proto (proto_type proto) [] (proto_handler proto) :: rest',
       calls ++ calls')
  end.

(** A frame given to net_input_handler: type, bytes, device. *)
Definition frame : Type := Z * list byte * nat.

(** A run of calls of net_input_handler in which memory never runs out. *)
Fixpoint net_input_all (frames : list frame) (protocols : list net_protocol)
    : list net_protocol :=
  match frames with
  | [] => protocols
  | (type, data, dev) :: rest =>
      net_input_all rest
        (snd (fst (net_input_handler true true type data dev protocols)))
  end.

(** *** Devices and interfaces *)

(** struct net_iface and struct net_device.  Modelled from the spec: net.h
    is not among the sources; the members are those net.c reads and
    writes, and [iface_id] stands for the rest of the interface. *)
Record net_iface := Iface {
  family : Z;
  iface_dev : option Z;   (* the index of the device, NULL before the add *)
  iface_id : nat }.

Record net_device := Device {
  index : Z; flags : Z; mtu : Z; ifaces : list net_iface }.

Definition net_device_add_iface (dev : net_device) (iface : net_iface)
    : Z * net_device :=
  if existsb (fun entry => family entry =? family iface) (ifaces dev)
  then (-1, dev)
  else (0, Device (index dev) (flags dev) (mtu dev)
             (Iface (family iface) (Some (index dev)) (iface_id iface)
              :: ifaces dev)).

Fixpoint iface_search (l : list net_iface) (fam : Z) : option net_iface :=
  match l with
  | [] => None
  | iface :: rest =>
      if family iface =? fam then Some iface else iface_search rest fam
  end.

Definition net_device_get_iface (dev : net_device) (fam : Z)
    : option net_iface :=
  iface_search (ifaces dev) fam.

Section Flags.

(** Modelled from the spec: NET_DEVICE_FLAG_UP and NET_DEVICE_IS_UP are
    macros of net.h; the spec names UP as one of the flags of a device, so
    the flag is a mask [up] whose value is left open and the test is
    flags & up. *)
Variable NET_DEVICE_FLAG_UP : Z.

Definition NET_DEVICE_IS_UP (dev : net_device) : bool :=
  negb (Z.land (flags dev) NET_DEVICE_FLAG_UP =? 0).

(** net_device_open; [ops_open] is [None] when the driver sets no open
    function and otherwise the result of calling it.  The second
    component tells whether the driver was called. *)
Definition net_device_open (ops_open : option Z) (dev : net_device)
    : Z * net_device * bool :=
  if NET_DEVICE_IS_UP dev then (-1, dev, false)
  else
    match ops_open with
    | Some r =>
        if r =? -1 then (-1, dev, true)
        else (0, Device (index dev) (Z.lor (flags dev) NET_DEVICE_FLAG_UP)
                   (mtu dev) (ifaces dev), true)
    | None =>
        (0, Device (index dev) (Z.lor (flags dev) NET_DEVICE_FLAG_UP)
              (mtu dev) (ifaces dev), false)
    end.

Definition net_device_close (ops_close : option Z) (dev : net_device)
    : Z * net_device * bool :=
  if negb (NET_DEVICE_IS_UP dev) then (-1, dev, false)
  else
    match ops_close with
    | Some r =>
        if r =? -1 then (-1, dev, true)
        else (0, Device (index dev)
                   (Z.land (flags dev) (Z.lnot NET_DEVICE_FLAG_UP))
                   (mtu dev) (ifaces dev), true)
    | None =>
        (0, Device (index dev)
              (Z.land (flags dev) (Z.lnot NET_DEVICE_FLAG_UP))
              (mtu dev) (ifaces dev), false)
    end.

(** net_device_output; [transmit] is the function dev->ops->transmit
    acting on the state [st] of the driver. *)
Definition net_device_output {S : Type}
    (transmit : Z -> list byte -> S -> Z * S)
    (dev : net_device) (type : Z) (data : list byte) (st : S) : Z * S :=
  if negb (NET_DEVICE_IS_UP dev) then (-1, st)
  else if Z.of_nat (length data) >? mtu dev then (-1, st)
  else
    let '(r, st') := transmit type data st in
    if r =? -1 then (-1, st') else (0, st').

End Flags.

End Net.

(* ===================================================================== *)
(** ** driver/loopback.c                                                  *)
(* ===================================================================== *)

Module Loopback.
Import Net.

Definition LOOPBACK_QUEUE_LIMIT : Z := 16.

(** struct loopback_queue_entry. *)
Record loopback_queue_entry := LEntry { l_type : Z; l_data : list byte }.

(** The private data of the device: the queue (its member [num] is the
    number of entries), and the number of calls of intr_raise_irq made
    by the driver so far. *)
Record loopback := Lo { queue : list loopback_queue_entry; irqs : nat }.

(** loopback_transmit; [alloc] and [pushed] tell whether memory_alloc
    and queue_push succeeded; the result of queue_push is not looked at. *)
Definition loopback_transmit (alloc pushed : bool) (type : Z)
    (data : list byte) (lo : loopback) : Z * loopback :=
  if Z.of_nat (length (queue lo)) >=? LOOPBACK_QUEUE_LIMIT then (-1, lo)
  else if negb alloc then (-1, lo)
  else
    let entry := LEntry type data in
    let q := if pushed then queue lo ++ [entry] else queue lo in
    (0, Lo q (S (irqs lo))).

(** loopback_isr: every entry of the queue is given to net_input_handler,
    from the head; [alloc k] and [alloc (k + 1)] are the answers of
    memory_alloc and queue_push for the first entry. *)
Fixpoint loopback_isr (alloc : nat -> bool) (k : nat) (dev : nat)
    (q : list loopback_queue_entry) (protocols : list net_protocol)
    : list net_protocol :=
  match q with
  | [] => protocols
  | entry :: rest =>
      let '(_, protocols', _) :=
        net_input_handler (alloc k) (alloc (S k)) (l_type entry)
          (l_data entry) dev protocols in
      loopback_isr alloc (S (S k)) dev rest protocols'
  end.

(** A run of calls of net_device_output on the loopback device, with the
    answers of memory_alloc and queue_push read from [alloc]: the results
    and the private data afterwards. *)
Fixpoint output_all (up : Z) (alloc : nat -> bool) (k : nat)
    (dev : net_device) (frames : list (Z * list byte)) (lo : loopback)
    : list Z * loopback :=
  match frames with
  | [] => ([], lo)
  | (type, data) :: rest =>
      let '(r, lo') :=
        net_device_output up (loopback_transmit (alloc k) (alloc (S k)))
          dev type data lo in
      let '(rs, lo'') := output_all up alloc (S (S k)) dev rest lo' in
      (r :: rs, lo'')
  end.

End Loopback.

(* ===================================================================== *)
(** ** Bytes and the 16-bit checksum                                      *)
(* ===================================================================== *)

Module Cksum.

(** uint8_t. *)
Definition bval (b : byte) : Z := Z.of_N (Byte.to_N b).

Definition byte_of (z : Z) : byte :=
  match Byte.of_N (Z.to_N (z mod 256)) with
  | Some b => b
  | None => Byte.x00
  end.

Section Endian.

(** The byte order of the host: the checksum reads the buffer through a
    uint16_t pointer, and header fields are stored through struct members. *)
Variable big_endian : bool.

(** The uint16_t read at two consecutive bytes. *)
Definition load16 (b0 b1 : byte) : Z :=
  if big_endian then bval b0 * 256 + bval b1 else bval b0 + bval b1 * 256.

(** The bytes left in memory by a store to a uint16_t / uint32_t member. *)
Definition store16 (v : Z) : list byte :=
  if big_endian then [byte_of (v / 256); byte_of v]
  else [byte_of v; byte_of (v / 256)].

Definition store32 (v : Z) : list byte :=
  if big_endian
  then [byte_of (v / 16777216); byte_of (v / 65536); byte_of (v / 256); byte_of v]
  else [byte_of v; byte_of (v / 256); byte_of (v / 65536); byte_of (v / 16777216)].

(** Modelled from the spec: the byte-order helpers of util.c are not among
    the sources; the spec fixes the wire format as big-endian, so hton16 and
    hton32 swap the bytes on a little-endian host and are the identity on a
    big-endian one. *)
Definition hton16 (v : Z) : Z :=
  let v := v mod 65536 in
  if big_endian then v else (v mod 256) * 256 + v / 256.

Definition hton32 (v : Z) : Z :=
  let v := v mod 4294967296 in
  if big_endian then v
  else (v mod 256) * 16777216 + ((v / 256) mod 256) * 65536
       + ((v / 65536) mod 256) * 256 + v / 16777216.

(** Modelled from the spec: cksum16 of util.c is not among the sources.
    The spec names it a checksum routine over the pseudo-header, the TCP
    header and the payload, which for TCP (RFC 793) is the 16-bit one's
    complement of the one's complement sum of the 16-bit words; the routine
    takes (addr, count, init), accumulates in a uint32_t starting from
    [init], adds a trailing odd byte as it stands, folds the carries into
    16 bits and returns the complement. *)
Fixpoint sum16 (bs : list byte) (sum : Z) : Z :=
  match bs with
  | b0 :: b1 :: rest => sum16 rest ((sum + load16 b0 b1) mod 4294967296)
  | [b0] => (sum + bval b0) mod 4294967296
  | [] => sum
  end.

(** The sum of the same words in Z, without the reduction to 32 bits. *)
Fixpoint wsum (bs : list byte) : Z :=
  match bs with
  | b0 :: b1 :: rest => load16 b0 b1 + wsum rest
  | [b0] => bval b0
  | [] => 0
  end.

(** while (sum >> 16) sum = (sum & 0xffff) + (sum >> 16);
    [fuel] bounds the number of turns of the loop. *)
Fixpoint fold16 (fuel : nat) (sum : Z) : Z :=
  match fuel with
  | O => sum
  | S n =>
      if Z.shiftr sum 16 =? 0 then sum
      else fold16 n (Z.land sum 65535 + Z.shiftr sum 16)
  end.

Definition cksum16 (addr : list byte) (count : Z) (init : Z) : Z :=
  let sum := sum16 (firstn (Z.to_nat (count mod 65536)) addr)
                   (init mod 4294967296) in
  65535 - (fold16 32 sum) mod 65536.

(** The uint32_t read at four consecutive bytes. *)
Definition load32 (b0 b1 b2 b3 : byte) : Z :=
  if big_endian
  then bval b0 * 16777216 + bval b1 * 65536 + bval b2 * 256 + bval b3
  else bval b0 + bval b1 * 256 + bval b2 * 65536 + bval b3 * 16777216.

(** Modelled from the spec: ntoh16 and ntoh32 of util.c (not among the
    sources) undo hton16 and hton32, which are their own inverses. *)
Definition ntoh16 (v : Z) : Z := hton16 v.
Definition ntoh32 (v : Z) : Z := hton32 v.

(** The members of a header overlaid on a buffer, by byte offset. *)
Definition byte_at (bs : list byte) (off : nat) : byte := nth off bs Byte.x00.
Definition field8 (bs : list byte) (off : nat) : Z := bval (byte_at bs off).
Definition field16 (bs : list byte) (off : nat) : Z :=
  load16 (byte_at bs off) (byte_at bs (off + 1)).
Definition field32 (bs : list byte) (off : nat) : Z :=
  load32 (byte_at bs off) (byte_at bs (off + 1)) (byte_at bs (off + 2))
         (byte_at bs (off + 3)).

End Endian.

(** The value the carries fold to: 0 for 0, and otherwise the number in
    1 .. 65535 that is congruent to the sum modulo 65535. *)
Definition ones_complement (s : Z) : Z :=
  if s =? 0 then 0 else (s - 1) mod 65535 + 1.

End Cksum.

(* ===================================================================== *)
(** ** tcp.c                                                              *)
(* ===================================================================== *)

Module Tcp.
Import Timeval Cksum.

Definition TCP_FLG_FIN : Z := 1.
Definition TCP_FLG_SYN : Z := 2.
Definition TCP_FLG_RST : Z := 4.
Definition TCP_FLG_PSH : Z := 8.
Definition TCP_FLG_ACK : Z := 16.
Definition TCP_FLG_URG : Z := 32.

Definition TCP_FLG_IS (x y : Z) : bool := Z.land x 63 =? y.
Definition TCP_FLG_ISSET (x y : Z) : bool :=
  negb (Z.land (Z.land x 63) y =? 0).

Definition TCP_PCB_SIZE : Z := 16.

(** TCP_PCB_STATE_xxx, in the order of their values 0 .. 11. *)
Inductive tcp_state :=
| FREE | CLOSED | LISTEN | SYN_SENT | SYN_RECEIVED | ESTABLISHED
| FIN_WAIT1 | FIN_WAIT2 | CLOSING | TIME_WAIT | CLOSE_WAIT | LAST_ACK.

Definition TCP_DEFAULT_RTO : Z := 200000.
Definition TCP_RETRANSMIT_DEADLINE : Z := 12.
Definition TCP_USER_TIMEOUT_TIME : Z := 30.
Definition TCP_MSL : Z := 120.

(** ip.c *)
Definition IP_ADDR_ANY : Z := 0.
Definition IP_ADDR_BROADCAST : Z := 4294967295.
Definition IP_PROTOCOL_TCP : Z := 6.
(** Modelled from the spec: ip.h is not among the sources; an IPv4
    datagram holds at most 65535 bytes, 20 of them the header. *)
Definition IP_HDR_SIZE_MIN : Z := 20.
Definition IP_PAYLOAD_SIZE_MAX : Z := 65535 - IP_HDR_SIZE_MIN.

(** sizeof(struct tcp_hdr), sizeof(struct pseudo_hdr), sizeof(pcb->buf). *)
Definition TCP_HDR_SIZE : Z := 20.
Definition PSEUDO_HDR_SIZE : Z := 12.
Definition BUF_SIZE : Z := 16.

Definition u16 (z : Z) : Z := z mod 65536.
Definition u32 (z : Z) : Z := z mod 4294967296.
Definition u64 (z : Z) : Z := z mod 18446744073709551616.

(** struct ip_endpoint: address and port as they are held in memory
    (network byte order). *)
Record ip_endpoint := Ep { addr : Z; port : Z }.

Record tcp_segment_info :=
  Seg { seg_seq : Z; seg_ack : Z; seg_len : Z; seg_wnd : Z; seg_up : Z }.

(** struct tcp_queue_entry; [len] is the length of [data]. *)
Record tcp_queue_entry := Entry {
  first : timeval; last : timeval; rto : Z; seq : Z; flg : Z;
  data : list byte }.

(** struct tcp_pcb; the members of [snd] and [rcv] carry the prefix. *)
Record tcp_pcb := Pcb {
  active : Z; state : tcp_state;
  local : ip_endpoint; foreign : ip_endpoint;
  snd_nxt : Z; snd_una : Z; snd_wnd : Z; snd_up : Z; snd_wl1 : Z; snd_wl2 : Z;
  iss : Z;
  rcv_nxt : Z; rcv_wnd : Z; rcv_up : Z;
  irs : Z; mtu : Z; mss : Z;
  start_time : timeval; time_wait : timeval;
  buf : list byte;
  ctx : Sched.sched_ctx;
  queue : list tcp_queue_entry }.

Definition set_active (v : Z) (p : tcp_pcb) : tcp_pcb :=
  Pcb v (state p) (local p) (foreign p) (snd_nxt p) (snd_una p) (snd_wnd p)
      (snd_up p) (snd_wl1 p) (snd_wl2 p) (iss p) (rcv_nxt p) (rcv_wnd p)
      (rcv_up p) (irs p) (mtu p) (mss p) (start_time p) (time_wait p)
      (buf p) (ctx p) (queue p).

Definition set_state (v : tcp_state) (p : tcp_pcb) : tcp_pcb :=
  Pcb (active p) v (local p) (foreign p) (snd_nxt p) (snd_una p) (snd_wnd p)
      (snd_up p) (snd_wl1 p) (snd_wl2 p) (iss p) (rcv_nxt p) (rcv_wnd p)
      (rcv_up p) (irs p) (mtu p) (mss p) (start_time p) (time_wait p)
      (buf p) (ctx p) (queue p).

Definition set_local (v : ip_endpoint) (p : tcp_pcb) : tcp_pcb :=
  Pcb (active p) (state p) v (foreign p) (snd_nxt p) (snd_una p) (snd_wnd p)
      (snd_up p) (snd_wl1 p) (snd_wl2 p) (iss p) (rcv_nxt p) (rcv_wnd p)
      (rcv_up p) (irs p) (mtu p) (mss p) (start_time p) (time_wait p)
      (buf p) (ctx p) (queue p).

Definition set_foreign (v : ip_endpoint) (p : tcp_pcb) : tcp_pcb :=
  Pcb (active p) (state p) (local p) v (snd_nxt p) (snd_una p) (snd_wnd p)
      (snd_up p) (snd_wl1 p) (snd_wl2 p) (iss p) (rcv_nxt p) (rcv_wnd p)
      (rcv_up p) (irs p) (mtu p) (mss p) (start_time p) (time_wait p)
      (buf p) (ctx p) (queue p).

Definition set_snd_nxt (v : Z) (p : tcp_pcb) : tcp_pcb :=
  Pcb (active p) (state p) (local p) (foreign p) v (snd_una p) (snd_wnd p)
      (snd_up p) (snd_wl1 p) (snd_wl2 p) (iss p) (rcv_nxt p) (rcv_wnd p)
      (rcv_up p) (irs p) (mtu p) (mss p) (start_time p) (time_wait p)
      (buf p) (ctx p) (queue p).

Definition set_snd_una (v : Z) (p : tcp_pcb) : tcp_pcb :=
  Pcb (active p) (state p) (local p) (foreign p) (snd_nxt p) v (snd_wnd p)
      (snd_up p) (snd_wl1 p) (snd_wl2 p) (iss p) (rcv_nxt p) (rcv_wnd p)
      (rcv_up p) (irs p) (mtu p) (mss p) (start_time p) (time_wait p)
      (buf p) (ctx p) (queue p).

Definition set_snd_wnd (v : Z) (p : tcp_pcb) : tcp_pcb :=
  Pcb (active p) (state p) (local p) (foreign p) (snd_nxt p) (snd_una p) v
      (snd_up p) (snd_wl1 p) (snd_wl2 p) (iss p) (rcv_nxt p) (rcv_wnd p)
      (rcv_up p) (irs p) (mtu p) (mss p) (start_time p) (time_wait p)
      (buf p) (ctx p) (queue p).

Definition set_snd_wl1 (v : Z) (p : tcp_pcb) : tcp_pcb :=
  Pcb (active p) (state p) (local p) (foreign p) (snd_nxt p) (snd_una p)
      (snd_wnd p) (snd_up p) v (snd_wl2 p) (iss p) (rcv_nxt p) (rcv_wnd p)
      (rcv_up p) (irs p) (mtu p) (mss p) (start_time p) (time_wait p)
      (buf p) (ctx p) (queue p).

Definition set_snd_wl2 (v : Z) (p : tcp_pcb) : tcp_pcb :=
  Pcb (active p) (state p) (local p) (foreign p) (snd_nxt p) (snd_una p)
      (snd_wnd p) (snd_up p) (snd_wl1 p) v (iss p) (rcv_nxt p) (rcv_wnd p)
      (rcv_up p) (irs p) (mtu p) (mss p) (start_time p) (time_wait p)
      (buf p) (ctx p) (queue p).

Definition set_iss (v : Z) (p : tcp_pcb) : tcp_pcb :=
  Pcb (active p) (state p) (local p) (foreign p) (snd_nxt p) (snd_una p)
      (snd_wnd p) (snd_up p) (snd_wl1 p) (snd_wl2 p) v (rcv_nxt p)
      (rcv_wnd p) (rcv_up p) (irs p) (mtu p) (mss p) (start_time p)
      (time_wait p) (buf p) (ctx p) (queue p).

Definition set_rcv_nxt (v : Z) (p : tcp_pcb) : tcp_pcb :=
  Pcb (active p) (state p) (local p) (foreign p) (snd_nxt p) (snd_una p)
      (snd_wnd p) (snd_up p) (snd_wl1 p) (snd_wl2 p) (iss p) v (rcv_wnd p)
      (rcv_up p) (irs p) (mtu p) (mss p) (start_time p) (time_wait p)
      (buf p) (ctx p) (queue p).

Definition set_rcv_wnd (v : Z) (p : tcp_pcb) : tcp_pcb :=
  Pcb (active p) (state p) (local p) (foreign p) (snd_nxt p) (snd_una p)
      (snd_wnd p) (snd_up p) (snd_wl1 p) (snd_wl2 p) (iss p) (rcv_nxt p) v
      (rcv_up p) (irs p) (mtu p) (mss p) (start_time p) (time_wait p)
      (buf p) (ctx p) (queue p).

Definition set_irs (v : Z) (p : tcp_pcb) : tcp_pcb :=
  Pcb (active p) (state p) (local p) (foreign p) (snd_nxt p) (snd_una p)
      (snd_wnd p) (snd_up p) (snd_wl1 p) (snd_wl2 p) (iss p) (rcv_nxt p)
      (rcv_wnd p) (rcv_up p) v (mtu p) (mss p) (start_time p) (time_wait p)
      (buf p) (ctx p) (queue p).

Definition set_start_time (v : timeval) (p : tcp_pcb) : tcp_pcb :=
  Pcb (active p) (state p) (local p) (foreign p) (snd_nxt p) (snd_una p)
      (snd_wnd p) (snd_up p) (snd_wl1 p) (snd_wl2 p) (iss p) (rcv_nxt p)
      (rcv_wnd p) (rcv_up p) (irs p) (mtu p) (mss p) v (time_wait p) (buf p)
      (ctx p) (queue p).

Definition set_time_wait (v : timeval) (p : tcp_pcb) : tcp_pcb :=
  Pcb (active p) (state p) (local p) (foreign p) (snd_nxt p) (snd_una p)
      (snd_wnd p) (snd_up p) (snd_wl1 p) (snd_wl2 p) (iss p) (rcv_nxt p)
      (rcv_wnd p) (rcv_up p) (irs p) (mtu p) (mss p) (start_time p) v
      (buf p) (ctx p) (queue p).

Definition set_buf (v : list byte) (p : tcp_pcb) : tcp_pcb :=
  Pcb (active p) (state p) (local p) (foreign p) (snd_nxt p) (snd_una p)
      (snd_wnd p) (snd_up p) (snd_wl1 p) (snd_wl2 p) (iss p) (rcv_nxt p)
      (rcv_wnd p) (rcv_up p) (irs p) (mtu p) (mss p) (start_time p)
      (time_wait p) v (ctx p) (queue p).

Definition set_ctx (v : Sched.sched_ctx) (p : tcp_pcb) : tcp_pcb :=
  Pcb (active p) (state p) (local p) (foreign p) (snd_nxt p) (snd_una p)
      (snd_wnd p) (snd_up p) (snd_wl1 p) (snd_wl2 p) (iss p) (rcv_nxt p)
      (rcv_wnd p) (rcv_up p) (irs p) (mtu p) (mss p) (start_time p)
      (time_wait p) (buf p) v (queue p).

Definition set_queue (v : list tcp_queue_entry) (p : tcp_pcb) : tcp_pcb :=
  Pcb (active p) (state p) (local p) (foreign p) (snd_nxt p) (snd_una p)
      (snd_wnd p) (snd_up p) (snd_wl1 p) (snd_wl2 p) (iss p) (rcv_nxt p)
      (rcv_wnd p) (rcv_up p) (irs p) (mtu p) (mss p) (start_time p)
      (time_wait p) (buf p) (ctx p) v.

(** memset(pcb, 0, sizeof( *pcb)). *)
Definition pcb_zero : tcp_pcb :=
  Pcb 0 FREE (Ep 0 0) (Ep 0 0) 0 0 0 0 0 0 0 0 0 0 0 0 0 (Tv 0 0) (Tv 0 0)
      (repeat Byte.x00 16) (Sched.Ctx 0 0) [].

(** What the engine does to the outside, in the order it does it. *)
Inductive event :=
| Segment (sq ak fl wn : Z) (payload : list byte) (lo fo : ip_endpoint)
    (** a call tcp_output_segment(sq, ak, fl, wn, payload, _, lo, fo) *)
| Wakeup  (** sched_wakeup(&pcb->ctx) *)
| Errorf (msg : string).

(** The part of the outside the engine reads: each read takes the next
    answer ([ticks] counts the reads so far). *)
Record oracle := Oracle {
  o_time : nat -> timeval;          (* gettimeofday *)
  o_random : nat -> Z;              (* random *)
  o_alloc : nat -> bool;            (* memory_alloc / queue_push succeed *)
  o_ip_output : nat -> bool;        (* ip_output does not return -1 *)
  o_cond_destroy : nat -> Z;        (* result of pthread_cond_destroy *)
  o_route : Z -> option Z           (* ip_route_get_iface: the MTU of the
                                       device of the interface, if any *)
}.

Record sys := Env { trace : list event; ticks : nat }.

Definition tick (s : sys) : sys := Env (trace s) (S (ticks s)).
Definition emit (e : event) (s : sys) : sys := Env (trace s ++ [e]) (ticks s).

Record world := World { pcbs : list tcp_pcb; env : sys }.

Definition state_code (st : tcp_state) : Z :=
  match st with
  | FREE => 0 | CLOSED => 1 | LISTEN => 2 | SYN_SENT => 3
  | SYN_RECEIVED => 4 | ESTABLISHED => 5 | FIN_WAIT1 => 6 | FIN_WAIT2 => 7
  | CLOSING => 8 | TIME_WAIT => 9 | CLOSE_WAIT => 10 | LAST_ACK => 11
  end.

Definition is_state (a b : tcp_state) : bool := state_code a =? state_code b.

(** *** PCB table *)

Definition local_match (pcb : tcp_pcb) (lo : ip_endpoint) : bool :=
  ((addr (local pcb) =? IP_ADDR_ANY) || (addr (local pcb) =? addr lo))
  && (port (local pcb) =? port lo).

Definition foreign_match (pcb : tcp_pcb) (fo : ip_endpoint) : bool :=
  (addr (foreign pcb) =? addr fo) && (port (foreign pcb) =? port fo).

Definition listen_wildcard (pcb : tcp_pcb) : bool :=
  is_state (state pcb) LISTEN
  && (addr (foreign pcb) =? IP_ADDR_ANY) && (port (foreign pcb) =? 0).

(** A full match, and a LISTEN match with a wildcard foreign endpoint. *)
Definition full_match (lo fo : ip_endpoint) (pcb : tcp_pcb) : bool :=
  local_match pcb lo && foreign_match pcb fo.
Definition listen_match (lo : ip_endpoint) (pcb : tcp_pcb) : bool :=
  local_match pcb lo && listen_wildcard pcb.

(** The loop of tcp_pcb_select from slot [i] on; a pointer into the table
    is the index of the slot together with its content. *)
Fixpoint pcb_select_loop (ps : list tcp_pcb) (i : nat) (lo : ip_endpoint)
    (fo : option ip_endpoint) (listen_pcb : option (nat * tcp_pcb))
    : option (nat * tcp_pcb) :=
  match ps with
  | [] => listen_pcb
  | pcb :: rest =>
      if local_match pcb lo then
        match fo with
        | None => Some (i, pcb)
        | Some f =>
            if foreign_match pcb f then Some (i, pcb)
            else if listen_wildcard pcb
                 then pcb_select_loop rest (S i) lo fo (Some (i, pcb))
                 else pcb_select_loop rest (S i) lo fo listen_pcb
        end
      else pcb_select_loop rest (S i) lo fo listen_pcb
  end.

Definition tcp_pcb_select (ps : list tcp_pcb) (lo : ip_endpoint)
    (fo : option ip_endpoint) : option (nat * tcp_pcb) :=
  pcb_select_loop ps 0 lo fo None.

Definition tcp_pcb_get (ps : list tcp_pcb) (id : Z) : option (nat * tcp_pcb) :=
  if (id <? 0) || (id >=? TCP_PCB_SIZE) then None
  else match ps !! Z.to_nat id with
       | Some pcb => if is_state (state pcb) FREE then None
                     else Some (Z.to_nat id, pcb)
       | None => None
       end.

(** *** Retransmission queue, as far as it needs no clock *)

(** tcp_retransmit_queue_cleanup: the loop over queue_peek / queue_pop. *)
Fixpoint queue_cleanup (una : Z) (q : list tcp_queue_entry)
    : list tcp_queue_entry :=
  match q with
  | [] => []
  | entry :: rest =>
      if seq entry >=? una then q else queue_cleanup una rest
  end.

Definition tcp_retransmit_queue_cleanup (pcb : tcp_pcb) : tcp_pcb :=
  set_queue (queue_cleanup (snd_una pcb) (queue pcb)) pcb.

(** *** The segment image built by tcp_output_segment *)

Section Image.
Variable big_endian : bool.

(** The 12 bytes of struct pseudo_hdr. *)
Definition pseudo_image (src dst len : Z) : list byte :=
  store32 big_endian src ++ store32 big_endian dst
  ++ [byte_of 0; byte_of IP_PROTOCOL_TCP]
  ++ store16 big_endian (hton16 big_endian len).

(** The 20 bytes of struct tcp_hdr with the given checksum member,
    followed by the payload: the first [total] bytes of [buf]. *)
Definition header_image (sq ak fl wn sum : Z) (lo fo : ip_endpoint)
    : list byte :=
  store16 big_endian (port lo) ++ store16 big_endian (port fo)
  ++ store32 big_endian (hton32 big_endian sq)
  ++ store32 big_endian (hton32 big_endian ak)
  ++ [byte_of (Z.shiftl (Z.shiftr TCP_HDR_SIZE 2) 4); byte_of fl]
  ++ store16 big_endian (hton16 big_endian wn)
  ++ store16 big_endian sum
  ++ store16 big_endian 0.

(** The bytes handed to ip_output by tcp_output_segment. *)
Definition segment_image (sq ak fl wn : Z) (payload : list byte)
    (lo fo : ip_endpoint) : list byte :=
  let total := u16 (TCP_HDR_SIZE + Z.of_nat (length payload)) in
  let pseudo := pseudo_image (addr lo) (addr fo) total in
  let psum := 65535 - cksum16 big_endian pseudo PSEUDO_HDR_SIZE 0 in
  let hdr0 := header_image sq ak fl wn 0 lo fo ++ payload in
  let sum := cksum16 big_endian hdr0 total psum in
  header_image sq ak fl wn sum lo fo ++ payload.

(** The test of tcp_input on a received segment: the value compared
    with 0. *)
Definition tcp_input_verify (bytes : list byte) (src dst : Z) : Z :=
  let len := Z.of_nat (length bytes) in
  let pseudo := pseudo_image src dst len in
  let psum := 65535 - cksum16 big_endian pseudo PSEUDO_HDR_SIZE 0 in
  cksum16 big_endian bytes len psum.

End Image.

Section Engine.
Variable o : oracle.

(** *** Output *)

(** tcp_output_segment: the call is recorded and ip_output is asked. *)
Definition tcp_output_segment (sq ak fl wn : Z) (payload : list byte)
    (lo fo : ip_endpoint) (s : sys) : Z * sys :=
  let s1 := tick (emit (Segment sq ak fl wn payload lo fo) s) in
  if o_ip_output o (ticks s) then (Z.of_nat (length payload), s1)
  else (-1, s1).

Definition tcp_retransmit_queue_add (pcb : tcp_pcb) (sq fl : Z)
    (payload : list byte) (s : sys) : Z * tcp_pcb * sys :=
  if negb (o_alloc o (ticks s)) then
    (-1, pcb, emit (Errorf "memory_alloc() failure") (tick s))
  else
    let s1 := tick s in
    let now := o_time o (ticks s1) in
    let s2 := tick s1 in
    let entry := Entry now now TCP_DEFAULT_RTO sq fl payload in
    if negb (o_alloc o (ticks s2)) then
      (-1, pcb, emit (Errorf "queue_push() failure") (tick s2))
    else (0, set_queue (queue pcb ++ [entry]) pcb, tick s2).

Definition tcp_retransmit_queue_emit (pcb : tcp_pcb) (entry : tcp_queue_entry)
    (s : sys) : tcp_pcb * tcp_queue_entry * sys :=
  let now := o_time o (ticks s) in
  let s1 := tick s in
  let diff := timersub now (first entry) in
  if tv_sec diff >=? TCP_RETRANSMIT_DEADLINE then
    (set_state CLOSED pcb, entry, emit Wakeup s1)
  else
    let timeout := timeval_add_usec (last entry) (rto entry) in
    if timercmp_gt now timeout then
      let s2 := snd (tcp_output_segment (seq entry) (rcv_nxt pcb) (flg entry)
                       (rcv_wnd pcb) (data entry) (local pcb) (foreign pcb) s1) in
      (pcb,
       Entry (first entry) now (u32 (rto entry * 2)) (seq entry) (flg entry)
             (data entry),
       s2)
    else (pcb, entry, s1).

(** queue_foreach(&pcb->queue, tcp_retransmit_queue_emit, pcb). *)
Fixpoint queue_foreach_emit (pcb : tcp_pcb) (q : list tcp_queue_entry)
    (s : sys) : tcp_pcb * list tcp_queue_entry * sys :=
  match q with
  | [] => (pcb, [], s)
  | entry :: rest =>
      let '(pcb1, entry1, s1) := tcp_retransmit_queue_emit pcb entry s in
      let '(pcb2, rest2, s2) := queue_foreach_emit pcb1 rest s1 in
      (pcb2, entry1 :: rest2, s2)
  end.

Definition tcp_retransmit_queue_emit_all (pcb : tcp_pcb) (s : sys)
    : tcp_pcb * sys :=
  let '(pcb1, q1, s1) := queue_foreach_emit pcb (queue pcb) s in
  (set_queue q1 pcb1, s1).

Definition tcp_output (pcb : tcp_pcb) (fl : Z) (payload : list byte)
    (s : sys) : Z * tcp_pcb * sys :=
  let sq := if TCP_FLG_ISSET fl TCP_FLG_SYN then iss pcb else snd_nxt pcb in
  let '(pcb1, s1) :=
    if TCP_FLG_ISSET fl (Z.lor TCP_FLG_SYN TCP_FLG_FIN)
       || negb (Z.of_nat (length payload) =? 0)
    then let '(_, p, s') := tcp_retransmit_queue_add pcb sq fl payload s in
         (p, s')
    else (pcb, s) in
  let '(r, s2) := tcp_output_segment sq (rcv_nxt pcb1) fl (rcv_wnd pcb1)
                    payload (local pcb1) (foreign pcb1) s1 in
  (r, pcb1, s2).

(** tcp_pcb_release: sched_ctx_destroy is pthread_cond_destroy, whose
    result the oracle gives. *)
Definition tcp_pcb_release (pcb : tcp_pcb) (s : sys) : tcp_pcb * sys :=
  if o_cond_destroy o (ticks s) =? -1 then (pcb, emit Wakeup (tick s))
  else (pcb_zero, tick s).



(** *** Segment arrival (RFC 793, section 3.9) *)

Definition RST_ACK : Z := Z.lor TCP_FLG_RST TCP_FLG_ACK.
Definition SYN_ACK : Z := Z.lor TCP_FLG_SYN TCP_FLG_ACK.

(** No PCB, or a CLOSED one. *)
Definition arrives_closed (seg : tcp_segment_info) (flags : Z)
    (lo fo : ip_endpoint) (s : sys) : sys :=
  if TCP_FLG_ISSET flags TCP_FLG_RST then s
  else if negb (TCP_FLG_ISSET flags TCP_FLG_ACK) then
    snd (tcp_output_segment 0 (u32 (seg_seq seg + seg_len seg)) RST_ACK 0 []
           lo fo s)
  else snd (tcp_output_segment (seg_ack seg) 0 TCP_FLG_RST 0 [] lo fo s).

(** case TCP_PCB_STATE_LISTEN. *)
Definition arrives_listen (seg : tcp_segment_info) (flags : Z)
    (lo fo : ip_endpoint) (pcb : tcp_pcb) (s : sys) : tcp_pcb * sys :=
  if TCP_FLG_ISSET flags TCP_FLG_RST then (pcb, s)
  else if TCP_FLG_ISSET flags TCP_FLG_ACK then
    (pcb, snd (tcp_output_segment (seg_ack seg) 0 TCP_FLG_RST 0 [] lo fo s))
  else if TCP_FLG_ISSET flags TCP_FLG_SYN then
    let pcb := set_local lo pcb in
    let pcb := set_foreign fo pcb in
    let pcb := set_rcv_wnd BUF_SIZE pcb in
    let pcb := set_rcv_nxt (u32 (seg_seq seg + 1)) pcb in
    let pcb := set_irs (seg_seq seg) pcb in
    let pcb := set_iss (u32 (o_random o (ticks s))) pcb in
    let s := tick s in
    let '(_, pcb, s) := tcp_output pcb SYN_ACK [] s in
    let pcb := set_snd_nxt (u32 (iss pcb + 1)) pcb in
    let pcb := set_snd_una (iss pcb) pcb in
    (set_state SYN_RECEIVED pcb, s)
  else (pcb, s).

(** case TCP_PCB_STATE_SYN_SENT. *)
Definition arrives_syn_sent (seg : tcp_segment_info) (flags : Z)
    (lo fo : ip_endpoint) (pcb : tcp_pcb) (s : sys) : tcp_pcb * sys :=
  if TCP_FLG_ISSET flags TCP_FLG_ACK
     && ((seg_ack seg <=? iss pcb) || (seg_ack seg >? snd_nxt pcb))
  then (pcb, snd (tcp_output_segment (seg_ack seg) 0 TCP_FLG_RST 0 [] lo fo s))
  else
    let acceptable :=
      TCP_FLG_ISSET flags TCP_FLG_ACK
      && (snd_una pcb <=? seg_ack seg) && (seg_ack seg <=? snd_nxt pcb) in
    if TCP_FLG_ISSET flags TCP_FLG_RST then
      let s := if acceptable then emit (Errorf "error: connection reset") s
               else s in
      let pcb := set_state CLOSED pcb in
      let s := emit Wakeup s in
      tcp_pcb_release pcb s
    else if TCP_FLG_ISSET flags TCP_FLG_SYN then
      let pcb := set_rcv_nxt (u32 (seg_seq seg + 1)) pcb in
      let pcb := set_irs (seg_seq seg) pcb in
      let pcb := if acceptable
                 then tcp_retransmit_queue_cleanup
                        (set_snd_una (seg_ack seg) pcb)
                 else pcb in
      if snd_una pcb >? iss pcb then
        let pcb := set_state ESTABLISHED pcb in
        let '(_, pcb, s) := tcp_output pcb TCP_FLG_ACK [] s in
        let pcb := set_snd_wnd (seg_wnd seg) pcb in
        let pcb := set_snd_wl1 (seg_seq seg) pcb in
        let pcb := set_snd_wl2 (seg_ack seg) pcb in
        (pcb, emit Wakeup s)
      else
        let pcb := set_state SYN_RECEIVED pcb in
        let '(_, pcb, s) := tcp_output pcb SYN_ACK [] s in
        (pcb, s)
    else (pcb, s).

(** 1st check sequence number: the body of the six cases. *)
Definition seg_acceptable (seg : tcp_segment_info) (pcb : tcp_pcb) : bool :=
  let wend := u32 (rcv_nxt pcb + rcv_wnd pcb) in
  if seg_len seg =? 0 then
    if rcv_wnd pcb =? 0 then seg_seq seg =? rcv_nxt pcb
    else (rcv_nxt pcb <=? seg_seq seg) && (seg_seq seg <? wend)
  else
    if rcv_wnd pcb =? 0 then false
    else
      let send := u32 (seg_seq seg + seg_len seg - 1) in
      ((rcv_nxt pcb <=? seg_seq seg) && (seg_seq seg <? wend))
      || ((rcv_nxt pcb <=? send) && (send <? wend)).

Definition acceptable_in_state (seg : tcp_segment_info) (pcb : tcp_pcb)
    : bool :=
  match state pcb with
  | SYN_RECEIVED | ESTABLISHED | FIN_WAIT1 | FIN_WAIT2 | CLOSE_WAIT
  | LAST_ACK => seg_acceptable seg pcb
  | _ => false
  end.

(** A step of the function either returns or goes on to the next check. *)
Inductive flow :=
| Return (pcb : tcp_pcb) (s : sys)
| Continue (pcb : tcp_pcb) (s : sys).

Definition release_closed (pcb : tcp_pcb) (s : sys) : flow :=
  let '(p, s') := tcp_pcb_release (set_state CLOSED pcb) s in Return p s'.

(** 2nd check the RST bit (the bit is set). *)
Definition arrives_rst (pcb : tcp_pcb) (s : sys) : flow :=
  match state pcb with
  | SYN_RECEIVED =>
      if negb (active pcb =? 0) then
        release_closed pcb (emit (Errorf "error: connection refused") s)
      else Return (set_state LISTEN pcb) s
  | ESTABLISHED | FIN_WAIT1 | FIN_WAIT2 | CLOSE_WAIT =>
      let '(p, s') := tcp_retransmit_queue_emit_all pcb s in
      release_closed p s'
  | CLOSING | LAST_ACK | TIME_WAIT => release_closed pcb s
  | _ => Continue pcb s
  end.

(** 4th check the SYN bit (the bit is set). *)
Definition arrives_syn (pcb : tcp_pcb) (s : sys) : flow :=
  match state pcb with
  | SYN_RECEIVED | ESTABLISHED | FIN_WAIT1 | FIN_WAIT2 | CLOSE_WAIT
  | CLOSING | LAST_ACK | TIME_WAIT =>
      let '(p, s') := tcp_retransmit_queue_emit_all pcb s in
      release_closed p s'
  | _ => Continue pcb s
  end.

(** 5th check the ACK field: the if / else if chain shared by
    ESTABLISHED, FIN_WAIT1, FIN_WAIT2 and CLOSE_WAIT. *)
Definition ack_update (seg : tcp_segment_info) (pcb : tcp_pcb) (s : sys)
    : flow :=
  if (snd_una pcb <? seg_ack seg) && (seg_ack seg <=? snd_nxt pcb) then
    let pcb := set_snd_una (seg_ack seg) pcb in
    let pcb := tcp_retransmit_queue_cleanup pcb in
    if (snd_wl1 pcb <? seg_seq seg)
       || ((snd_wl1 pcb =? seg_seq seg) && (snd_wl2 pcb <=? seg_ack seg))
    then
      let pcb := set_snd_wnd (seg_wnd seg) pcb in
      let pcb := set_snd_wl2 (seg_seq seg) pcb in
      let pcb := set_snd_wl2 (seg_ack seg) pcb in
      Continue pcb s
    else Continue pcb s
  else if seg_ack seg <? snd_una pcb then Continue pcb s
  else if seg_ack seg >? snd_nxt pcb then
    let '(_, p, s') := tcp_output pcb TCP_FLG_ACK [] s in Return p s'
  else Continue pcb s.

(** The four cases with the inner switch on the state. *)
Definition ack_synchronized (seg : tcp_segment_info) (pcb : tcp_pcb) (s : sys)
    : flow :=
  match ack_update seg pcb s with
  | Return p s' => Return p s'
  | Continue p s' =>
      match state p with
      | FIN_WAIT1 =>
          if seg_ack seg =? snd_nxt p then Continue (set_state FIN_WAIT2 p) s'
          else Continue p s'
      | _ => Continue p s'
      end
  end.

Definition arrives_ack (seg : tcp_segment_info) (lo fo : ip_endpoint)
    (pcb : tcp_pcb) (s : sys) : flow :=
  match state pcb with
  | SYN_RECEIVED =>
      if (snd_una pcb <=? seg_ack seg) && (seg_ack seg <=? snd_nxt pcb) then
        ack_synchronized seg (set_state ESTABLISHED pcb) (emit Wakeup s)
      else
        Return pcb
          (snd (tcp_output_segment (seg_ack seg) 0 TCP_FLG_RST 0 [] lo fo s))
  | ESTABLISHED | FIN_WAIT1 | FIN_WAIT2 | CLOSE_WAIT =>
      ack_synchronized seg pcb s
  | LAST_ACK =>
      if seg_ack seg =? snd_nxt pcb then release_closed pcb s
      else Return pcb s
  | _ => Continue pcb s
  end.

(** memcpy(buf + off, src, len) into the receive buffer: [None] when the
    copy reads past [src] or writes past the end of [buf]. *)
Definition buf_write (b : list byte) (off : Z) (src : list byte) (len : Z)
    : option (list byte) :=
  if (len <=? Z.of_nat (length src)) && (off + len <=? Z.of_nat (length b))
  then Some (firstn (Z.to_nat off) b ++ firstn (Z.to_nat len) src
             ++ skipn (Z.to_nat (off + len)) b)
  else None.

(** 7th, process the segment text; [None]: the copy left the buffer. *)
Definition arrives_text (seg : tcp_segment_info) (payload : list byte)
    (len : Z) (pcb : tcp_pcb) (s : sys) : option (tcp_pcb * sys) :=
  match state pcb with
  | ESTABLISHED =>
      if len =? 0 then Some (pcb, s)
      else
        match buf_write (buf pcb) (u64 (BUF_SIZE - rcv_wnd pcb)) payload len with
        | None => None
        | Some b =>
            let pcb := set_buf b pcb in
            let pcb := set_rcv_nxt (u32 (seg_seq seg + seg_len seg)) pcb in
            let pcb := set_rcv_wnd (u16 (rcv_wnd pcb - len)) pcb in
            let '(_, pcb, s) := tcp_output pcb TCP_FLG_ACK [] s in
            Some (pcb, emit Wakeup s)
        end
  | _ => Some (pcb, s)
  end.

(** 8th, check the FIN bit. *)
Definition arrives_fin (seg : tcp_segment_info) (flags : Z) (pcb : tcp_pcb)
    (s : sys) : tcp_pcb * sys :=
  if TCP_FLG_ISSET flags TCP_FLG_FIN then
    match state pcb with
    | CLOSED | LISTEN | SYN_SENT => (pcb, s)
    | _ =>
        let pcb := set_rcv_nxt (u32 (seg_seq seg + 1)) pcb in
        let '(_, pcb, s) := tcp_output pcb TCP_FLG_ACK [] s in
        match state pcb with
        | SYN_RECEIVED | ESTABLISHED =>
            (set_state CLOSE_WAIT pcb, emit Wakeup s)
        | FIN_WAIT1 =>
            if seg_ack seg =? snd_nxt pcb then
              (set_time_wait (o_time o (ticks s)) (set_state TIME_WAIT pcb),
               tick s)
            else (set_state CLOSING pcb, s)
        | FIN_WAIT2 =>
            (set_time_wait (o_time o (ticks s)) (set_state TIME_WAIT pcb),
             tick s)
        | _ => (pcb, s)
        end
    end
  else (pcb, s).

(** tcp_segment_arrives on the selected PCB (neither absent nor CLOSED). *)
Definition arrives_pcb (seg : tcp_segment_info) (flags : Z)
    (payload : list byte) (len : Z) (lo fo : ip_endpoint) (pcb : tcp_pcb)
    (s : sys) : option (tcp_pcb * sys) :=
  match state pcb with
  | LISTEN => Some (arrives_listen seg flags lo fo pcb s)
  | SYN_SENT => Some (arrives_syn_sent seg flags lo fo pcb s)
  | _ =>
      if negb (acceptable_in_state seg pcb) then
        if negb (TCP_FLG_ISSET flags TCP_FLG_RST) then
          let '(_, p, s') := tcp_output pcb TCP_FLG_ACK [] s in Some (p, s')
        else Some (pcb, s)
      else
        match (if TCP_FLG_ISSET flags TCP_FLG_RST then arrives_rst pcb s
               else Continue pcb s) with
        | Return p s' => Some (p, s')
        | Continue pcb s =>
            match (if TCP_FLG_ISSET flags TCP_FLG_SYN then arrives_syn pcb s
                   else Continue pcb s) with
            | Return p s' => Some (p, s')
            | Continue pcb s =>
                if negb (TCP_FLG_ISSET flags TCP_FLG_ACK) then Some (pcb, s)
                else
                  match arrives_ack seg lo fo pcb s with
                  | Return p s' => Some (p, s')
                  | Continue pcb s =>
                      match arrives_text seg payload len pcb s with
                      | None => None
                      | Some (pcb, s) => Some (arrives_fin seg flags pcb s)
                      end
                  end
            end
        end
  end.

(** tcp_segment_arrives; [None] stands for a copy outside the receive
    buffer, after which the C program has no defined behaviour. *)
Definition tcp_segment_arrives (seg : tcp_segment_info) (flags : Z)
    (payload : list byte) (len : Z) (lo fo : ip_endpoint) (w : world)
    : option world :=
  match tcp_pcb_select (pcbs w) lo (Some fo) with
  | None => Some (World (pcbs w) (arrives_closed seg flags lo fo (env w)))
  | Some (i, pcb) =>
      if is_state (state pcb) CLOSED then
        Some (World (pcbs w) (arrives_closed seg flags lo fo (env w)))
      else
        match arrives_pcb seg flags payload len lo fo pcb (env w) with
        | None => None
        | Some (p, s) => Some (World (<[i := p]> (pcbs w)) s)
        end
  end.

(** *** User commands *)

Inductive call_result :=
| Ret (r : Z) (out : list byte) (w : world)
    (** the call returned [r]; [out] is what it wrote to the caller's
        buffer *)
| Park (sent : Z) (w : world)
    (** the caller is inside pthread_cond_wait, the mutex is released;
        [sent] is the local variable of tcp_send at that point *)
| Fault  (** a copy left the receive buffer *)
| Fuel.  (** the bound on the turns of the loop was reached *)

Definition put (i : nat) (pcb : tcp_pcb) (s : sys) : world -> world :=
  fun w => World (<[i := pcb]> (pcbs w)) s.

(** (ssize_t)len for a size_t. *)
Definition ssize (z : Z) : Z :=
  let z := u64 z in
  if z <? 9223372036854775808 then z else z - 18446744073709551616.

(** The while loop of tcp_send for the PCB in slot [i]. *)
Fixpoint send_loop (fuel : nat) (i : nat) (payload : list byte)
    (mss_ sent : Z) (pcb : tcp_pcb) (w : world) (s : sys) : call_result :=
  match fuel with
  | O => Fuel
  | S n =>
      let len := Z.of_nat (length payload) in
      if sent <? ssize len then
        let cap := u32 (snd_wnd pcb - u32 (snd_nxt pcb - snd_una pcb)) in
        if cap =? 0 then
          match Sched.sched_sleep_enter (ctx pcb) with
          | inl _ =>
              if sent =? 0 then Ret (-1) [] (put i pcb s w)
              else Ret sent [] (put i pcb s w)
          | inr c => Park sent (put i (set_ctx c pcb) s w)
          end
        else
          let slen := Z.min (Z.min mss_ (u64 (len - sent))) cap in
          let chunk := firstn (Z.to_nat slen) (skipn (Z.to_nat sent) payload) in
          let '(r, pcb1, s1) :=
            tcp_output pcb (Z.lor TCP_FLG_ACK TCP_FLG_PSH) chunk s in
          if r =? -1 then
            let '(p, s2) :=
              tcp_pcb_release (set_state CLOSED pcb1)
                (emit (Errorf "tcp_output() failure") s1) in
            Ret (-1) [] (put i p s2 w)
          else
            send_loop n i payload mss_ (sent + slen)
              (set_snd_nxt (u32 (snd_nxt pcb1 + slen)) pcb1) w s1
      else Ret sent [] (put i pcb s w)
  end.

(** tcp_send from the label RETRY, with the pointer to slot [i]. *)
Definition tcp_send_retry (fuel : nat) (i : nat) (payload : list byte)
    (sent : Z) (w : world) : call_result :=
  match pcbs w !! i with
  | None => Fault
  | Some pcb =>
      match state pcb with
      | ESTABLISHED | CLOSE_WAIT =>
          match o_route o (addr (foreign pcb)) with
          | None =>
              Ret (-1) [] (World (pcbs w) (emit (Errorf "iface not found") (env w)))
          | Some dev_mtu =>
              let mss_ := u64 (dev_mtu - (IP_HDR_SIZE_MIN + TCP_HDR_SIZE)) in
              send_loop fuel i payload mss_ sent pcb w (env w)
          end
      | LAST_ACK =>
          Ret (-1) [] (World (pcbs w) (emit (Errorf "connection closing") (env w)))
      | _ =>
          Ret (-1) [] (World (pcbs w) (emit (Errorf "unknown state '%u'") (env w)))
      end
  end.

Definition tcp_send (fuel : nat) (id : Z) (payload : list byte) (w : world)
    : call_result :=
  match tcp_pcb_get (pcbs w) id with
  | None => Ret (-1) [] (World (pcbs w) (emit (Errorf "pcb not found") (env w)))
  | Some (i, _) => tcp_send_retry fuel i payload 0 w
  end.

(** tcp_send from the return of pthread_cond_wait (value [ret]) on. *)
Definition tcp_send_wake (fuel : nat) (i : nat) (payload : list byte)
    (sent ret : Z) (w : world) : call_result :=
  match pcbs w !! i with
  | None => Fault
  | Some pcb =>
      let '(r, c) := Sched.sched_sleep_resume ret (ctx pcb) in
      let w1 := put i (set_ctx c pcb) (env w) w in
      if r =? -1 then
        if sent =? 0 then Ret (-1) [] w1 else Ret sent [] w1
      else tcp_send_retry fuel i payload sent w1
  end.

(** The copy at the end of tcp_receive: memcpy to the caller, memmove
    inside the receive buffer, rcv.wnd += len. *)
Definition receive_copy (i : nat) (size remain : Z) (pcb : tcp_pcb)
    (w : world) : call_result :=
  let len := Z.min size remain in
  if remain <=? Z.of_nat (length (buf pcb)) then
    let out := firstn (Z.to_nat len) (buf pcb) in
    let moved := firstn (Z.to_nat (remain - len))
                   (skipn (Z.to_nat len) (buf pcb)) in
    let b := moved ++ skipn (Z.to_nat (remain - len)) (buf pcb) in
    let pcb := set_buf b pcb in
    let pcb := set_rcv_wnd (u16 (rcv_wnd pcb + len)) pcb in
    Ret len out (put i pcb (env w) w)
  else Fault.

(** tcp_receive from the label RETRY_RECEIVE, with the pointer to slot
    [i]; [size] is a size_t. *)
Definition tcp_receive_retry (i : nat) (size : Z) (w : world) : call_result :=
  match pcbs w !! i with
  | None => Fault
  | Some pcb =>
      let remain := u64 (BUF_SIZE - rcv_wnd pcb) in
      match state pcb with
      | ESTABLISHED =>
          if remain =? 0 then
            match Sched.sched_sleep_enter (ctx pcb) with
            | inl _ => Ret (-1) [] w
            | inr c => Park 0 (put i (set_ctx c pcb) (env w) w)
            end
          else receive_copy i size remain pcb w
      | CLOSE_WAIT =>
          if negb (remain =? 0) then receive_copy i size remain pcb w
          else Ret 0 [] w
      | _ =>
          Ret (-1) [] (World (pcbs w) (emit (Errorf "unknown state '%u'") (env w)))
      end
  end.

Definition tcp_receive (id : Z) (size : Z) (w : world) : call_result :=
  match tcp_pcb_get (pcbs w) id with
  | None => Ret (-1) [] (World (pcbs w) (emit (Errorf "pcb not found") (env w)))
  | Some (i, _) => tcp_receive_retry i size w
  end.


(** *** The rest of tcp.c *)

(** tcp_pcb_alloc: the index of the slot, the PCB in it and the table
    afterwards; [None] is the NULL result. *)
Fixpoint pcb_alloc_loop (ps : list tcp_pcb) (i : nat)
    : option (nat * tcp_pcb * list tcp_pcb) :=
  match ps with
  | [] => None
  | pcb :: rest =>
      if is_state (state pcb) FREE then
        let p := set_ctx (Sched.sched_ctx_init (ctx pcb))
                   (set_state CLOSED pcb) in
        Some (i, p, p :: rest)
      else
        match pcb_alloc_loop rest (S i) with
        | Some (j, p, rest') => Some (j, p, pcb :: rest')
        | None => None
        end
  end.

Definition tcp_pcb_alloc (ps : list tcp_pcb)
    : option (nat * tcp_pcb * list tcp_pcb) :=
  pcb_alloc_loop ps 0.

Definition FIN_ACK : Z := Z.lor TCP_FLG_ACK TCP_FLG_FIN.

(** tcp_close: the result and the world afterwards. *)
Definition tcp_close (id : Z) (w : world) : Z * world :=
  match tcp_pcb_get (pcbs w) id with
  | None => (-1, World (pcbs w) (emit (Errorf "pcb not found") (env w)))
  | Some (i, pcb) =>
      match state pcb with
      | ESTABLISHED =>
          let '(_, p, s) := tcp_output pcb FIN_ACK [] (env w) in
          let p := set_state FIN_WAIT1 p in
          let p := set_snd_nxt (u32 (snd_nxt p + 1)) p in
          (0, put i p (emit Wakeup s) w)
      | CLOSE_WAIT =>
          let '(_, p, s) := tcp_output pcb FIN_ACK [] (env w) in
          let p := set_state LAST_ACK p in
          let p := set_snd_nxt (u32 (snd_nxt p + 1)) p in
          (0, put i p (emit Wakeup s) w)
      | _ =>
          (-1, World (pcbs w) (emit (Errorf "unknown state '%u'") (env w)))
      end
  end.

(** tcp_user_timeout: the loop over the table. *)
Fixpoint user_timeout_loop (ps : list tcp_pcb) (s : sys)
    : list tcp_pcb * sys :=
  match ps with
  | [] => ([], s)
  | pcb :: rest =>
      if is_state (state pcb) FREE || is_state (state pcb) TIME_WAIT then
        let '(rest1, s1) := user_timeout_loop rest s in (pcb :: rest1, s1)
      else
        let now := o_time o (ticks s) in
        let s0 := tick s in
        let diff := timersub now (start_time pcb) in
        let '(pcb1, s1) :=
          if tv_sec diff >=? TCP_USER_TIMEOUT_TIME then
            let '(p, s') := tcp_retransmit_queue_emit_all pcb s0 in
            tcp_pcb_release (set_state CLOSED p)
              (emit (Errorf "error: connection aborted due to user timeout")
                    s')
          else (pcb, s0) in
        let '(rest2, s2) := user_timeout_loop rest s1 in
        (pcb1 :: rest2, s2)
  end.

Definition tcp_user_timeout (w : world) : world :=
  let '(ps, s) := user_timeout_loop (pcbs w) (env w) in World ps s.

(** tcp_time_wait_timeout: the loop over the table. *)
Fixpoint time_wait_timeout_loop (ps : list tcp_pcb) (s : sys)
    : list tcp_pcb * sys :=
  match ps with
  | [] => ([], s)
  | pcb :: rest =>
      if negb (is_state (state pcb) TIME_WAIT) then
        let '(rest1, s1) := time_wait_timeout_loop rest s in
        (pcb :: rest1, s1)
      else
        let now := o_time o (ticks s) in
        let s0 := tick s in
        let diff := timersub now (time_wait pcb) in
        let '(pcb1, s1) :=
          if tv_sec diff >=? 2 * TCP_MSL then
            tcp_pcb_release (set_state CLOSED pcb) s0
          else (pcb, s0) in
        let '(rest2, s2) := time_wait_timeout_loop rest s1 in
        (pcb1 :: rest2, s2)
  end.

Definition tcp_time_wait_timeout (w : world) : world :=
  let '(ps, s) := time_wait_timeout_loop (pcbs w) (env w) in World ps s.

(** sched_interrupt(&pcb->ctx) on the context kept in the PCB; the
    broadcast that goes with it acts on the waiting tasks (module Sched). *)
Definition interrupt_ctx (pcb : tcp_pcb) : tcp_pcb :=
  set_ctx (Sched.Ctx 1 (Sched.wc (ctx pcb))) pcb.

(** event_handler: the loop over the table. *)
Definition event_handler (ps : list tcp_pcb) : list tcp_pcb :=
  map (fun pcb => if negb (is_state (state pcb) FREE) then interrupt_ctx pcb
                  else pcb) ps.

(** tcp_input for a host of the given byte order; [None] as for
    tcp_segment_arrives. *)
Definition tcp_input (big_endian : bool) (bytes : list byte) (src dst : Z)
    (w : world) : option world :=
  let len := Z.of_nat (length bytes) in
  if len <? TCP_HDR_SIZE then
    Some (World (pcbs w) (emit (Errorf "too short") (env w)))
  else if negb (tcp_input_verify big_endian bytes src dst =? 0) then
    Some (World (pcbs w)
            (emit (Errorf "checksum error: sum=0x%04x, verify=0x%04x") (env w)))
  else if src =? IP_ADDR_BROADCAST then
    Some (World (pcbs w)
            (emit (Errorf "error: src is broadcast address") (env w)))
  else if dst =? IP_ADDR_BROADCAST then
    Some (World (pcbs w)
            (emit (Errorf "error: dst is broadcast address") (env w)))
  else
    let flags := field8 bytes 13 in
    let lo := Ep dst (field16 big_endian bytes 2) in
    let fo := Ep src (field16 big_endian bytes 0) in
    let hlen := u16 (Z.shiftl (Z.shiftr (field8 bytes 12) 4) 2) in
    let l0 := u16 (len - hlen) in
    let l1 := if TCP_FLG_ISSET flags TCP_FLG_SYN then u16 (l0 + 1) else l0 in
    let l2 := if TCP_FLG_ISSET flags TCP_FLG_FIN then u16 (l1 + 1) else l1 in
    let seg := Seg (ntoh32 big_endian (field32 big_endian bytes 4))
                   (ntoh32 big_endian (field32 big_endian bytes 8))
                   l2
                   (ntoh16 big_endian (field16 big_endian bytes 14))
                   (ntoh16 big_endian (field16 big_endian bytes 18)) in
    tcp_segment_arrives seg flags (skipn (Z.to_nat hlen) bytes)
      (u64 (len - hlen)) lo fo w.

(** tcp_open_rfc793 is cut at sched_sleep like tcp_send. *)
Inductive open_result :=
| OpenRet (r : Z) (w : world)
| OpenPark (i : nat) (st : tcp_state) (w : world)
    (** inside the wait, for the PCB in slot [i]; [st] is the local
        variable [state] *)
| OpenFault.  (** a NULL or dangling pointer was followed *)

(** pcb->state = CLOSED; tcp_pcb_release(pcb); return -1. *)
Definition open_abort (i : nat) (pcb : tcp_pcb) (s : sys) (w : world)
    : open_result :=
  let '(p, s') := tcp_pcb_release (set_state CLOSED pcb) s in
  OpenRet (-1) (put i p s' w).

Definition open_sleep (i : nat) (st : tcp_state) (pcb : tcp_pcb) (w : world)
    : open_result :=
  match Sched.sched_sleep_enter (ctx pcb) with
  | inl _ => open_abort i pcb (env w) w
  | inr c => OpenPark i st (put i (set_ctx c pcb) (env w) w)
  end.

(** From the test of the while loop on, with the local [state] = [st]. *)
Definition tcp_open_wait (i : nat) (st : tcp_state) (w : world)
    : open_result :=
  match pcbs w !! i with
  | None => OpenFault
  | Some pcb =>
      if is_state (state pcb) st then open_sleep i st pcb w
      else if negb (is_state (state pcb) ESTABLISHED) then
        if is_state (state pcb) SYN_RECEIVED then
          (* goto AGAIN: state = pcb->state, and the loop test holds *)
          open_sleep i (state pcb) pcb w
        else
          open_abort i pcb (emit (Errorf "open error: %d") (env w)) w
      else OpenRet (Z.of_nat i) w
  end.

(** From the return of pthread_cond_wait (value [ret]) on. *)
Definition tcp_open_wake (i : nat) (st : tcp_state) (ret : Z) (w : world)
    : open_result :=
  match pcbs w !! i with
  | None => OpenFault
  | Some pcb =>
      let '(r, c) := Sched.sched_sleep_resume ret (ctx pcb) in
      let pcb := set_ctx c pcb in
      let w1 := put i pcb (env w) w in
      if r =? -1 then open_abort i pcb (env w1) w1
      else tcp_open_wait i st w1
  end.

Definition tcp_open_rfc793 (lo : ip_endpoint) (fo : option ip_endpoint)
    (act : Z) (w : world) : open_result :=
  match tcp_pcb_alloc (pcbs w) with
  | None =>
      OpenRet (-1)
        (World (pcbs w) (emit (Errorf "tcp_pcb_alloc() failure") (env w)))
  | Some (i, pcb, ps) =>
      let pcb := set_active act pcb in
      let pcb := set_start_time (o_time o (ticks (env w))) pcb in
      let s := tick (env w) in
      if negb (act =? 0) then
        match fo with
        | None => OpenFault
        | Some f =>
            let pcb := set_local lo pcb in
            let pcb := set_foreign f pcb in
            let pcb := set_rcv_wnd BUF_SIZE pcb in
            let pcb := set_iss (u32 (o_random o (ticks s))) pcb in
            let s := tick s in
            let '(r, pcb, s) := tcp_output pcb TCP_FLG_SYN [] s in
            if r =? -1 then
              open_abort i pcb (emit (Errorf "tcp_output() failure") s)
                (World ps s)
            else
              let pcb := set_snd_una (iss pcb) pcb in
              let pcb := set_snd_nxt (u32 (iss pcb + 1)) pcb in
              let pcb := set_state SYN_SENT pcb in
              tcp_open_wait i SYN_SENT (World (<[i := pcb]> ps) s)
        end
      else
        let pcb := set_local lo pcb in
        let pcb := match fo with Some f => set_foreign f pcb | None => pcb end in
        let pcb := set_state LISTEN pcb in
        tcp_open_wait i LISTEN (World (<[i := pcb]> ps) s)
  end.

End Engine.


(** The room left in the peer's window, as tcp_send computes it. *)
Definition send_cap (pcb : tcp_pcb) : Z :=
  u32 (snd_wnd pcb - u32 (snd_nxt pcb - snd_una pcb)).

(** The number of payload bytes handed to tcp_output_segment in a trace. *)
Definition payload_bytes (e : event) : Z :=
  match e with
  | Segment _ _ _ _ payload _ _ => Z.of_nat (length payload)
  | _ => 0
  end.

Fixpoint bytes_out (tr : list event) : Z :=
  match tr with
  | [] => 0
  | e :: tr' => payload_bytes e + bytes_out tr'
  end.

Definition ACK_PSH : Z := Z.lor TCP_FLG_ACK TCP_FLG_PSH.

(** The payload bytes handed to tcp_output_segment in a trace, in order. *)
Fixpoint payloads_out (tr : list event) : list byte :=
  match tr with
  | [] => []
  | Segment _ _ _ _ payload _ _ :: tr' => payload ++ payloads_out tr'
  | _ :: tr' => payloads_out tr'
  end.

(** The bytes held in a retransmission queue, in the order of the queue. *)
Definition queued_data (q : list tcp_queue_entry) : list byte :=
  concat (map data q).

(** A retransmission queue in the order of the sequence numbers. *)
Fixpoint queue_sorted (q : list tcp_queue_entry) : Prop :=
  match q with
  | [] => True
  | e :: rest => Forall (fun e' => seq e <= seq e') rest /\ queue_sorted rest
  end.



(** What tcp_time_wait_timeout does to the PCB [p], giving [p'], with a
    reading of the clock taken between the readings [a] and [b]. *)
Definition time_wait_step (o : oracle) (a b : nat) (p p' : tcp_pcb) : Prop :=
  if is_state (state p) TIME_WAIT then
    exists n,
      (a <= n < b)%nat
      /\ if usec_of (o_time o n) - usec_of (time_wait p)
            >=? 2 * TCP_MSL * 1000000
         then p' = if o_cond_destroy o (S n) =? -1
                   then set_state CLOSED p else pcb_zero
         else p' = p
  else p' = p.

(** The same for tcp_user_timeout, with the reading [n] of the clock:
    after the timeout the retransmission queue is emitted from the next
    reading on, which gives the PCB [p1], and pthread_cond_destroy is
    asked at the reading that follows. *)
Definition user_timeout_step (o : oracle) (a b : nat) (p p' : tcp_pcb) : Prop :=
  if is_state (state p) FREE || is_state (state p) TIME_WAIT then p' = p
  else
    exists n,
      (a <= n < b)%nat
      /\ if usec_of (o_time o n) - usec_of (start_time p)
            >=? TCP_USER_TIMEOUT_TIME * 1000000
         then
           let p1 := fst (tcp_retransmit_queue_emit_all o p (Env [] (S n))) in
           let m := ticks (snd (tcp_retransmit_queue_emit_all o p
                                  (Env [] (S n)))) in
           (m < b)%nat
           /\ p' = if o_cond_destroy o m =? -1
                   then set_state CLOSED p1 else pcb_zero
         else p' = p.


End Tcp.

(* ===================================================================== *)
(** ** ip.c                                                               *)
(* ===================================================================== *)

Module Ip.
Import Cksum.

(** Modelled from the spec: ip.h is not among the sources; the version
    number of IPv4 is 4, the header without options has 20 bytes and a
    datagram at most 65535. *)
Definition IP_VERSION_IPV4 : Z := 4.
Definition IP_HDR_SIZE_MIN : Z := Tcp.IP_HDR_SIZE_MIN.
Definition IP_TOTAL_SIZE_MAX : Z := 65535.
Definition IP_ADDR_BROADCAST : Z := Tcp.IP_ADDR_BROADCAST.

(** struct ip_iface, struct ip_route and struct ip_protocol; an address
    is the uint32_t the host reads from the four bytes in network order;
    [ip_dev] is the device NET_IFACE(iface)->dev points to. *)
Record ip_iface := IpIface {
  ip_dev : Net.net_device; unicast : Z; netmask : Z; broadcast : Z }.

Record ip_route := Route {
  network : Z; route_netmask : Z; nexthop : Z; iface : ip_iface }.

Record ip_protocol := IpProto { ip_type : Z; ip_handler : nat }.

Section Host.
Variable big_endian : bool.

(** The loop of ip_route_lookup from the route [routes] on, with the
    candidate found so far. *)
Fixpoint route_loop (routes : list ip_route) (dst : Z)
    (candidate : option ip_route) : option ip_route :=
  match routes with
  | [] => candidate
  | route :: rest =>
      if Z.land dst (route_netmask route)
         =? Z.land (network route) (route_netmask route)
      then
        match candidate with
        | None => route_loop rest dst (Some route)
        | Some c =>
            if ntoh32 big_endian (route_netmask c)
               <? ntoh32 big_endian (route_netmask route)
            then route_loop rest dst (Some route)
            else route_loop rest dst candidate
        end
      else route_loop rest dst candidate
  end.

(** ip_route_lookup: the candidate at the end of the loop.  (The log call
    that follows the loop reads candidate->network; what it does with a
    null candidate depends on util.h, which is not among the sources.) *)
Definition ip_route_lookup (routes : list ip_route) (dst : Z)
    : option ip_route :=
  route_loop routes dst None.

(** dst is in the network of the route. *)
Definition route_match (dst : Z) (route : ip_route) : bool :=
  Z.land dst (route_netmask route)
  =? Z.land (network route) (route_netmask route).

(** The length of the prefix of a route, as the loop compares it. *)
Definition prefix (route : ip_route) : Z :=
  ntoh32 big_endian (route_netmask route).

(** [found] is the longest match for dst among [routes]: no route at all
    when none matches, otherwise a matching route of the list with a
    longer prefix than every matching route before it and no shorter a
    prefix than every matching route after it. *)
Definition longest_match (dst : Z) (routes : list ip_route)
    (found : option ip_route) : Prop :=
  match found with
  | None => forall r, In r routes -> route_match dst r = false
  | Some c =>
      exists before after,
        routes = before ++ c :: after /\
        route_match dst c = true /\
        (forall r, In r before -> route_match dst r = true ->
           prefix r < prefix c) /\
        (forall r, In r after -> route_match dst r = true ->
           prefix r <= prefix c)
  end.

(** The 20 bytes of struct ip_hdr as ip_output_core fills them, with the
    given checksum member. *)
Definition ip_header (total id offset protocol sum src dst : Z) : list byte :=
  [byte_of (Z.lor (Z.shiftl IP_VERSION_IPV4 4) (Z.shiftr IP_HDR_SIZE_MIN 2));
   byte_of 0]
  ++ store16 big_endian (hton16 big_endian total)
  ++ store16 big_endian (hton16 big_endian id)
  ++ store16 big_endian (hton16 big_endian offset)
  ++ [byte_of 255; byte_of protocol]
  ++ store16 big_endian sum
  ++ store32 big_endian src
  ++ store32 big_endian dst.

(** The bytes ip_output_core hands to ip_output_device: the first
    [total] bytes of [buf]; nothing when header and data do not fit into
    [buf] and memcpy writes past its end. *)
Definition ip_datagram (protocol : Z) (data : list byte) (src dst id offset : Z)
    : option (list byte) :=
  let hlen := IP_HDR_SIZE_MIN in
  let total := Tcp.u16 (hlen + Z.of_nat (length data)) in
  let sum := cksum16 big_endian
               (ip_header total id offset protocol 0 src dst) hlen 0 in
  if hlen + Z.of_nat (length data) >? IP_TOTAL_SIZE_MAX then None
  else Some (firstn (Z.to_nat total)
               (ip_header total id offset protocol sum src dst ++ data)).

(** What ip_output does: it refuses with an error message and -1; or it
    finds no route (ip_route_lookup then passes candidate->network of the
    null candidate to its log call, before ip_output can test the result);
    or it has ip_output_core hand a datagram to ip_output_device for the
    interface and the next hop, and returns [ret]. *)
Inductive ip_output_result :=
| Refused (msg : string)
| NoRoute
| Sent (ifc : ip_iface) (datagram : option (list byte)) (hop : Z) (ret : Z).

(** ip_output; [id] is the value ip_generate_id returns and
    [ip_output_device] the result of the function of that name. *)
Definition ip_output (routes : list ip_route) (id : Z)
    (ip_output_device : ip_iface -> option (list byte) -> Z -> Z)
    (protocol : Z) (data : list byte) (src dst : Z) : ip_output_result :=
  let len := Z.of_nat (length data) in
  if (src =? Tcp.IP_ADDR_ANY) && (dst =? IP_ADDR_BROADCAST)
  then Refused "ip routing does not implement"%string
  else
    match ip_route_lookup routes dst with
    | None => NoRoute
    | Some route =>
        let ifc := iface route in
        if negb (src =? Tcp.IP_ADDR_ANY) && negb (src =? unicast ifc)
        then Refused "unable to output with specified source address"%string
        else
          let hop := if negb (nexthop route =? Tcp.IP_ADDR_ANY)
                     then nexthop route else dst in
          if Net.mtu (ip_dev ifc) <? Tcp.u64 (IP_HDR_SIZE_MIN + len)
          then Refused "too long"%string
          else
            let datagram := ip_datagram protocol data (unicast ifc) dst id 0 in
            if ip_output_device ifc datagram hop =? -1
            then Refused "ip_output_core() failure"%string
            else Sent ifc datagram hop (Tcp.ssize len)
  end.

(** What ip_input does with a datagram: it returns, after an error
    message or without one, or it calls the handler of a protocol with
    the payload pointer (the bytes from it on), the length, the two
    addresses and the interface. *)
Inductive ip_input_result :=
| Drop (msg : option string)
| Deliver (h : nat) (payload : list byte) (len : Z) (src dst : Z)
    (ifc : ip_iface).

(** The loop over the interfaces; [chain] is the interface the device
    points to, followed by those its [next] pointers lead to. *)
Fixpoint iface_filter (chain : list ip_iface) (dst : Z) : option ip_iface :=
  match chain with
  | [] => None
  | ifc :: rest =>
      if (broadcast ifc =? dst) || (unicast ifc =? dst) then Some ifc
      else iface_filter rest dst
  end.

Fixpoint protocol_search (protocols : list ip_protocol) (type : Z)
    : option nat :=
  match protocols with
  | [] => None
  | entry :: rest =>
      if ip_type entry =? type then Some (ip_handler entry)
      else protocol_search rest type
  end.

Definition ip_input (data : list byte) (chain : list ip_iface)
    (protocols : list ip_protocol) : ip_input_result :=
  let len := Z.of_nat (length data) in
  if len <? IP_HDR_SIZE_MIN then Drop (Some "too short"%string)
  else
    let vhl := field8 data 0 in
    let v := Z.shiftr (Z.land vhl 240) 4 in
    if negb (v =? IP_VERSION_IPV4) then Drop (Some "version error"%string)
    else
      let hlen := Tcp.u16 (Z.shiftl (Z.land vhl 15) 2) in
      if hlen >? len then Drop (Some "head length too short"%string)
      else
        let total := ntoh16 big_endian (field16 big_endian data 2) in
        if total >? len then Drop (Some "total length too short"%string)
        else if negb (cksum16 big_endian data hlen 0 =? 0)
        then Drop (Some "error checksum"%string)
        else
          let offset := ntoh16 big_endian (field16 big_endian data 6) in
          if negb (Z.land offset 8192 =? 0) || negb (Z.land offset 8191 =? 0)
          then Drop (Some "fragment does not support"%string)
          else
            match chain with
            | [] => Drop None
            | first :: _ =>
                let dst := field32 big_endian data 16 in
                match (if negb (dst =? IP_ADDR_BROADCAST)
                       then iface_filter chain dst else Some first) with
                | None => Drop None
                | Some ifc =>
                    match protocol_search protocols (field8 data 9) with
                    | Some h =>
                        Deliver h (skipn (Z.to_nat hlen) data)
                          (Tcp.u64 (total - hlen))
                          (field32 big_endian data 12) dst ifc
                    | None => Drop None
                    end
                end
            end.

End Host.

End Ip.

(* ===================================================================== *)
(** ** Sample inputs                                                      *)
(* ===================================================================== *)

Module Sample.
Import Timeval Tcp.

Definition here : ip_endpoint := Ep 167772161 80.      (* 10.0.0.1 *)
Definition peer : ip_endpoint := Ep 167772162 5000.    (* 10.0.0.2 *)

(** A PCB as tcp_open_rfc793 leaves it after a passive open on port 80 of
    any address, opened at time [t]. *)
Definition listener (t : timeval) : tcp_pcb :=
  set_start_time t (set_state LISTEN (set_local (Ep 0 80)
    (set_state CLOSED pcb_zero))).

Definition two_listeners : list tcp_pcb :=
  [listener (Tv 1 0); listener (Tv 2 0)] ++ repeat pcb_zero 14.

(** A clock that stands still, an allocator and a network that never
    fail, pthread_cond_destroy giving 0, a route with MTU 1500. *)
Definition calm (now : timeval) : oracle :=
  Oracle (fun _ => now) (fun _ => 1000) (fun _ => true) (fun _ => true)
         (fun _ => 0) (fun _ => Some 1500).

(** An established connection between [here] and [peer]. *)
Definition established : tcp_pcb :=
  Pcb 1 ESTABLISHED here peer 2000 2000 16 0 0 0 1999 1000 16 0 999 0 0
      (Tv 0 0) (Tv 0 0) (repeat Byte.x00 16) (Sched.Ctx 0 0) [].

(** The SYN of an active open, sent at time 0 and not acknowledged. *)
Definition syn_entry : tcp_queue_entry :=
  Entry (Tv 0 0) (Tv 0 0) TCP_DEFAULT_RTO 1999 TCP_FLG_SYN [].

Definition unacked : tcp_pcb :=
  Pcb 1 SYN_SENT here peer 2000 1999 0 0 0 0 1999 1000 16 0 0 0 0
      (Tv 0 0) (Tv 0 0) (repeat Byte.x00 16) (Sched.Ctx 0 0) [syn_entry].

(** An established connection with ten bytes in flight (1990 .. 1999),
    whose last window update came from segment 999. *)
Definition in_flight : tcp_queue_entry :=
  Entry (Tv 0 0) (Tv 0 0) TCP_DEFAULT_RTO 1990
        (Z.lor TCP_FLG_ACK TCP_FLG_PSH) (repeat Byte.x61 10).

Definition sending : tcp_pcb :=
  Pcb 1 ESTABLISHED here peer 2000 1990 16 0 999 1990 1989 1000 16 0 999 0 0
      (Tv 0 0) (Tv 0 0) (repeat Byte.x00 16) (Sched.Ctx 0 0) [in_flight].

(** The same PCB after the acknowledgement of these bytes by the segment
    <SEQ=1000><ACK=2000><WND=8>, as the code leaves it. *)
Definition acked : tcp_pcb :=
  Pcb 1 ESTABLISHED here peer 2000 2000 8 0 999 2000 1989 1000 16 0 999 0 0
      (Tv 0 0) (Tv 0 0) (repeat Byte.x00 16) (Sched.Ctx 0 0) [].

(** An established connection with the ten bytes "0123456789" in its
    receive buffer, and the same after a read of four bytes. *)
Definition digits : list byte :=
  [Byte.x30; Byte.x31; Byte.x32; Byte.x33; Byte.x34;
   Byte.x35; Byte.x36; Byte.x37; Byte.x38; Byte.x39].



Definition in_flight_next : tcp_queue_entry :=
  Entry (Tv 0 0) (Tv 0 0) TCP_DEFAULT_RTO 2000
        (Z.lor TCP_FLG_ACK TCP_FLG_PSH) (repeat Byte.x61 4).


Definition table (pcb : tcp_pcb) : list tcp_pcb := pcb :: repeat pcb_zero 15.

Definition quiet : sys := Env [] 0.

(** A registry with ARP (0x0806) registered after IP (0x0800), and four
    frames from device 0, the third of a type that is not registered. *)
Definition registry : list Net.net_protocol :=
  [Net.Proto 2054 [] 2; Net.Proto 2048 [] 1].

Definition traffic : list Net.frame :=
  [(2048, [Byte.x45], 0%nat); (2054, [Byte.x00; Byte.x01], 0%nat);
   (34525, [Byte.x60], 0%nat); (2048, [Byte.x46], 0%nat)].

(** A loopback device that is down, with the UP flag taken to be bit 0,
    and the same device up. *)
Definition lo_down : Net.net_device := Net.Device 0 16 65535 [].
Definition lo_up : Net.net_device := Net.Device 0 17 65535 [].

(** The interface 127.0.0.1/8 of the loopback device with its broadcast
    address 127.255.255.255, as a little-endian host holds the addresses,
    and a routing table with a default gateway registered after the
    network of the interface. *)
Definition lo_iface : Ip.ip_iface :=
  Ip.IpIface lo_up 16777343 255 4294967167.

Definition routing : list Ip.ip_route :=
  [Ip.Route 0 0 16777343 lo_iface; Ip.Route 127 255 0 lo_iface].

(** A segment from [peer] to [here] with <SEQ=1000><ACK=2000><CTL=ACK>
    <WND=16>, no data and a correct checksum, as a little-endian host
    holds it, whose data offset says 60 bytes although it has only 20. *)
Definition long_offset : list byte :=
  [Byte.x88; Byte.x13; Byte.x50; Byte.x00;
   Byte.x00; Byte.x00; Byte.x03; Byte.xe8;
   Byte.x00; Byte.x00; Byte.x07; Byte.xd0;
   Byte.xf0; Byte.x10; Byte.x00; Byte.x10;
   Byte.x28; Byte.xe5; Byte.x00; Byte.x00].

End Sample.

(* ===================================================================== *)
(** * Properties                                                          *)
(* ===================================================================== *)

(** ** Clock arithmetic *)

Section TimevalFacts.
Import Timeval.

Lemma timersub_usec a b :
  normal a -> normal b ->
  normal (timersub a b) /\ usec_of (timersub a b) = usec_of a - usec_of b.
Proof.
  unfold normal, timersub, usec_of. intros Ha Hb.
  destruct (Z.ltb_spec (tv_usec a - tv_usec b) 0); simpl; lia.
Qed.

Lemma timercmp_lt_usec a b :
  normal a -> normal b -> timercmp_lt a b = (usec_of a <? usec_of b).
Proof.
  unfold normal, timercmp_lt, usec_of. intros Ha Hb.
  destruct (Z.eqb_spec (tv_sec a) (tv_sec b)) as [E|E];
    [rewrite E|]; apply eq_true_iff_eq;
    rewrite !Z.ltb_lt; lia.
Qed.



Lemma tv_sec_geb d n :
  normal d -> (tv_sec d >=? n) = (usec_of d >=? n * 1000000).
Proof.
  unfold normal, usec_of. intros Hd. apply eq_true_iff_eq.
  rewrite !Z.geb_le. lia.
Qed.

End TimevalFacts.

(** ** net.c: the timer tick *)

Section NetTimerFacts.
Import Timeval Net.

Lemma timer_fire_usec now t :
  normal now -> normal (last t) ->
  timer_fire now t =
  if timer_due now t then (Timer (interval t) now (handler t), true)
  else (t, false).
Proof.
  intros Hn Hl. unfold timer_fire, timer_due, elapsed, timercmp_lt.
  destruct (timersub_usec now (last t) Hn Hl) as [Hd Hu].
  unfold normal in Hd. rewrite <- Hu. unfold usec_of at 1 2 3.
  set (d := timersub now (last t)) in *.
  assert (Hq : (tv_sec d * 1000000 + tv_usec d) / 1000000 = tv_sec d).
  { symmetry. apply (Z.div_unique _ _ _ (tv_usec d)); lia. }
  assert (Hr : (tv_sec d * 1000000 + tv_usec d) mod 1000000 = tv_usec d).
  { symmetry. apply (Z.mod_unique _ _ (tv_sec d)); lia. }
  rewrite Hq, Hr. reflexivity.
Qed.

(** For an interval with its microseconds below one second the test is
    "more than the interval has gone by"; for one written with exactly
    1000000 microseconds it is "at least the interval has gone by". *)
Lemma timer_due_normal now t :
  normal (interval t) ->
  timer_due now t = (usec_of (interval t) <? elapsed now t).
Proof.
  unfold normal, timer_due. intros Hi. cbv zeta.
  set (e := elapsed now t).
  pose proof (Z.div_mod e 1000000 ltac:(lia)) as He.
  pose proof (Z.mod_pos_bound e 1000000 ltac:(lia)) as Hm.
  unfold usec_of.
  destruct (Z.eqb_spec (tv_sec (interval t)) (e / 1000000)) as [E|E];
    apply eq_true_iff_eq; rewrite !Z.ltb_lt; lia.
Qed.

Lemma timer_due_full_second now t :
  tv_usec (interval t) = 1000000 ->
  timer_due now t = (usec_of (interval t) <=? elapsed now t).
Proof.
  unfold timer_due. intros Hi. cbv zeta.
  set (e := elapsed now t).
  pose proof (Z.div_mod e 1000000 ltac:(lia)) as He.
  pose proof (Z.mod_pos_bound e 1000000 ltac:(lia)) as Hm.
  unfold usec_of. rewrite Hi.
  destruct (Z.eqb_spec (tv_sec (interval t)) (e / 1000000)) as [E|E];
    apply eq_true_iff_eq; rewrite ?Z.ltb_lt, ?Z.leb_le; lia.
Qed.

Lemma register_all_handlers now regs acc :
  map handler
    (fold_left (fun ts r => snd (net_timer_register true now (fst r) (snd r) ts))
               regs acc)
  = rev (map snd regs) ++ map handler acc.
Proof.
  revert acc. induction regs as [|r regs IH]; intros acc; simpl.
  - reflexivity.
  - rewrite IH. simpl. rewrite <- app_assoc. reflexivity.
Qed.

Lemma net_timer_handler_tick clock k timers :
  (forall n, normal (clock n)) ->
  Forall (fun t => normal (last t)) timers ->
  length (fst (net_timer_handler clock k timers)) = length timers
  /\ (forall i t, timers !! i = Some t ->
        fst (net_timer_handler clock k timers) !! i
        = Some (if timer_due (clock (k + i)%nat) t
                then Timer (interval t) (clock (k + i)%nat) (handler t)
                else t))
  /\ snd (net_timer_handler clock k timers) = due_handlers clock k timers.
Proof.
  intros Hc Hall. revert k.
  induction Hall as [|t rest Hl Hrest IH]; intros k; simpl.
  - repeat split; intros; discriminate.
  - rewrite (timer_fire_usec _ _ (Hc k) Hl).
    destruct (IH (S k)) as (IHlen & IHnth & IHcalls).
    destruct (net_timer_handler clock (S k) rest) as [rest' calls] eqn:E.
    simpl in *.
    destruct (timer_due (clock k) t) eqn:Ee; simpl;
      (split; [congruence|]); (split; [|congruence]);
      intros [|i] t0 Hi0; simpl in *.
    + injection Hi0 as <-. rewrite Nat.add_0_r, Ee. reflexivity.
    + rewrite (IHnth i t0 Hi0). replace (k + S i)%nat with (S k + i)%nat by lia.
      reflexivity.
    + injection Hi0 as <-. rewrite Nat.add_0_r, Ee. reflexivity.
    + rewrite (IHnth i t0 Hi0). replace (k + S i)%nat with (S k + i)%nat by lia.
      reflexivity.
Qed.

(** C7, as the code has it.  The timers that are served are those whose
    interval compares lower than the time gone by since they fired last,
    the whole seconds first and the microseconds only when the seconds
    are equal.  For an interval whose microseconds are below 1000000 this
    is when MORE than the interval has gone by (a timer whose elapsed
    time equals its interval waits for a later tick); for an interval
    written with 1000000 microseconds, such as the {0, 1000000} of the
    two timers of tcp_init, it is when AT LEAST the interval has gone by.
    Each timer that is served has its handler called and its last-fired
    time set to the reading of the clock taken for it, the others are
    left as they are; the list of timers is in the reverse of the
    registration order (a registration puts the timer at the head), and
    the handlers are called in list order, so the most recently
    registered timer is served first.  The readings of the clock, and so
    the last-fired times, have their microseconds below 1000000. *)
Theorem net_timer_handler_spec clock k timers now0 regs :
  (forall n, normal (clock n)) ->
  Forall (fun t => normal (last t)) timers ->
  map handler (register_all now0 regs) = rev (map snd regs)
  /\ length (fst (net_timer_handler clock k timers)) = length timers
  /\ (forall i t, timers !! i = Some t ->
        fst (net_timer_handler clock k timers) !! i
        = Some (if timer_due (clock (k + i)%nat) t
                then Timer (interval t) (clock (k + i)%nat) (handler t)
                else t))
  /\ snd (net_timer_handler clock k timers) = due_handlers clock k timers
  /\ (forall now t, normal (interval t) ->
        timer_due now t = (usec_of (interval t) <? elapsed now t))
  /\ (forall now t, tv_usec (interval t) = 1000000 ->
        timer_due now t = (usec_of (interval t) <=? elapsed now t)).
Proof.
  intros Hc Hall. split.
  - unfold register_all. rewrite register_all_handlers. simpl.
    apply app_nil_r.
  - destruct (net_timer_handler_tick clock k timers Hc Hall)
      as (Hlen & Hnth & Hcalls).
    split; [exact Hlen|]. split; [exact Hnth|]. split; [exact Hcalls|].
    split; [exact timer_due_normal | exact timer_due_full_second].
Qed.

(** The three timers of tcp_init, registered in its order with the
    handlers numbered 7, 8, 9, one second after their registration: all
    three are served, the last registered first, the two with the
    interval {0, 1000000} although no more than their interval has gone
    by. *)
Lemma net_timer_handler_spec_witness :
  let regs := [(Tv 0 100000, 7%nat); (Tv 0 1000000, 8%nat);
               (Tv 0 1000000, 9%nat)] in
  let timers := register_all (Tv 0 0) regs in
  map handler timers = [9; 8; 7]%nat
  /\ snd (net_timer_handler (fun _ => Tv 1 0) 0 timers) = [9; 8; 7]%nat
  /\ elapsed (Tv 1 0) (Timer (Tv 0 1000000) (Tv 0 0) 8)
     = usec_of (Tv 0 1000000).
Proof.
  intros regs timers.
  pose proof (net_timer_handler_spec (fun _ => Tv 1 0) 0 timers (Tv 0 0) regs)
    as H.
  destruct H as (Hreg & _ & _ & Hcalls & _).
  - intros n. unfold normal. simpl. lia.
  - repeat constructor; simpl; lia.
  - split; [exact Hreg|]. split; [exact Hcalls | reflexivity].
Defined.

(** C7 as it is written fails twice: two timers registered in the order
    1, 2 and both due are served in the order 2, 1; and a timer with the
    interval {1, 0} whose elapsed time is exactly its interval is not
    served. *)
Lemma net_timer_handler_counterexample :
  let timers := register_all (Tv 0 0) [(Tv 1 0, 1%nat); (Tv 1 0, 2%nat)] in
  snd (net_timer_handler (fun _ => Tv 5 0) 0 timers) = [2; 1]%nat
  /\ snd (net_timer_handler (fun _ => Tv 5 0) 0 timers) <> [1; 2]%nat
  /\ usec_of (Tv 1 0) - usec_of (Tv 0 0) >= usec_of (Tv 1 0)
  /\ snd (net_timer_handler (fun _ => Tv 1 0) 0 timers) = [].
Proof.
  repeat split; try reflexivity; try discriminate.
Qed.

End NetTimerFacts.

(** ** tcp.c: PCB selection *)

Section SelectFacts.
Import Tcp.

Variables (lo fo : ip_endpoint).

Local Abbreviation full := (full_match lo fo).
Local Abbreviation wild := (listen_match lo).

Lemma pcb_select_loop_spec ps k acc :
  match pcb_select_loop ps k lo (Some fo) acc with
  | Some (i, pcb) =>
      (exists j, i = (k + j)%nat /\ ps !! j = Some pcb /\ full pcb = true
                 /\ forall j' p, (j' < j)%nat -> ps !! j' = Some p ->
                                 full p = false)
      \/ ((forall j p, ps !! j = Some p -> full p = false)
          /\ ((exists j, i = (k + j)%nat /\ ps !! j = Some pcb
                         /\ wild pcb = true
                         /\ forall j' p, (j < j')%nat -> ps !! j' = Some p ->
                                         wild p = false)
              \/ (acc = Some (i, pcb)
                  /\ forall j p, ps !! j = Some p -> wild p = false)))
  | None =>
      acc = None
      /\ forall j p, ps !! j = Some p -> full p = false /\ wild p = false
  end.
Proof.
  revert k acc. induction ps as [|q rest IH]; intros k acc; simpl.
  - destruct acc as [[i pcb]|].
    + right. split; [intros; discriminate|]. right.
      split; [reflexivity | intros; discriminate].
    + split; [reflexivity | intros; discriminate].
  - destruct (local_match q lo) eqn:Hl.
    + destruct (foreign_match q fo) eqn:Hf.
      * left. exists 0%nat. repeat split.
        -- lia.
        -- unfold full_match. rewrite Hl, Hf. reflexivity.
        -- intros j' p Hj'. lia.
      * assert (Hq : full q = false) by (unfold full_match; rewrite Hl, Hf; reflexivity).
        destruct (listen_wildcard q) eqn:Hw.
        -- specialize (IH (S k) (Some (k, q))).
           destruct (pcb_select_loop rest (S k) lo (Some fo) (Some (k, q)))
             as [[i pcb]|].
           ++ destruct IH as [(j & -> & Hj & Hfull & Hmin) | (Hno & Hrest)].
              ** left. exists (S j). repeat split; try assumption; try lia.
                 intros [|j'] p Hlt Hp; simpl in Hp.
                 --- injection Hp as <-. exact Hq.
                 --- apply (Hmin j' p); [lia | exact Hp].
              ** right. split.
                 { intros [|j] p Hp; simpl in Hp.
                   - injection Hp as <-. exact Hq.
                   - exact (Hno j p Hp). }
                 left. destruct Hrest as [(j & -> & Hj & Hwild & Hmax) | (Hacc & Hnone)].
                 --- exists (S j). repeat split; try assumption; try lia.
                     intros [|j'] p Hlt Hp; simpl in Hp; [lia|].
                     apply (Hmax j' p); [lia | exact Hp].
                 --- injection Hacc as <- <-. exists 0%nat.
                     repeat split; try lia.
                     +++ unfold listen_match. rewrite Hl, Hw. reflexivity.
                     +++ intros [|j'] p Hlt Hp; simpl in Hp; [lia|].
                         exact (Hnone j' p Hp).
           ++ destruct IH as [Habs _]. discriminate.
        -- assert (Hqw : wild q = false)
             by (unfold listen_match; rewrite Hl, Hw; reflexivity).
           specialize (IH (S k) acc).
           destruct (pcb_select_loop rest (S k) lo (Some fo) acc)
             as [[i pcb]|].
           ++ destruct IH as [(j & -> & Hj & Hfull & Hmin) | (Hno & Hrest)].
              ** left. exists (S j). repeat split; try assumption; try lia.
                 intros [|j'] p Hlt Hp; simpl in Hp.
                 --- injection Hp as <-. exact Hq.
                 --- apply (Hmin j' p); [lia | exact Hp].
              ** right. split.
                 { intros [|j] p Hp; simpl in Hp.
                   - injection Hp as <-. exact Hq.
                   - exact (Hno j p Hp). }
                 destruct Hrest as [(j & -> & Hj & Hwild & Hmax) | (Hacc & Hnone)].
                 --- left. exists (S j). repeat split; try assumption; try lia.
                     intros [|j'] p Hlt Hp; simpl in Hp; [lia|].
                     apply (Hmax j' p); [lia | exact Hp].
                 --- right. split; [exact Hacc|].
                     intros [|j'] p Hp; simpl in Hp.
                     +++ injection Hp as <-. exact Hqw.
                     +++ exact (Hnone j' p Hp).
           ++ destruct IH as [Hacc Hnone]. split; [exact Hacc|].
              intros [|j] p Hp; simpl in Hp.
              ** injection Hp as <-. split; assumption.
              ** exact (Hnone j p Hp).
    + assert (Hq : full q = false) by (unfold full_match; rewrite Hl; reflexivity).
      assert (Hqw : wild q = false) by (unfold listen_match; rewrite Hl; reflexivity).
      specialize (IH (S k) acc).
      destruct (pcb_select_loop rest (S k) lo (Some fo) acc) as [[i pcb]|].
      * destruct IH as [(j & -> & Hj & Hfull & Hmin) | (Hno & Hrest)].
        -- left. exists (S j). repeat split; try assumption; try lia.
           intros [|j'] p Hlt Hp; simpl in Hp.
           ++ injection Hp as <-. exact Hq.
           ++ apply (Hmin j' p); [lia | exact Hp].
        -- right. split.
           { intros [|j] p Hp; simpl in Hp.
             - injection Hp as <-. exact Hq.
             - exact (Hno j p Hp). }
           destruct Hrest as [(j & -> & Hj & Hwild & Hmax) | (Hacc & Hnone)].
           ++ left. exists (S j). repeat split; try assumption; try lia.
              intros [|j'] p Hlt Hp; simpl in Hp; [lia|].
              apply (Hmax j' p); [lia | exact Hp].
           ++ right. split; [exact Hacc|].
              intros [|j'] p Hp; simpl in Hp.
              ** injection Hp as <-. exact Hqw.
              ** exact (Hnone j' p Hp).
      * destruct IH as [Hacc Hnone]. split; [exact Hacc|].
        intros [|j] p Hp; simpl in Hp.
        -- injection Hp as <-. split; assumption.
        -- exact (Hnone j p Hp).
Qed.

(** C2, as the code has it: for a (local, foreign) pair the selection
    gives the first slot whose local endpoint matches (its address may be
    the wildcard) and whose foreign endpoint is equal to the given one,
    when there is one; otherwise the LAST slot, in table order, that is in
    LISTEN with a matching local endpoint and a wildcard foreign endpoint,
    when there is one; in every other case no PCB. *)
Theorem tcp_pcb_select_spec (ps : list tcp_pcb) :
  match tcp_pcb_select ps lo (Some fo) with
  | Some (i, pcb) =>
      ps !! i = Some pcb
      /\ ((full pcb = true
           /\ forall j p, (j < i)%nat -> ps !! j = Some p -> full p = false)
          \/ ((forall j p, ps !! j = Some p -> full p = false)
              /\ wild pcb = true
              /\ forall j p, (i < j)%nat -> ps !! j = Some p ->
                             wild p = false))
  | None => forall j p, ps !! j = Some p -> full p = false /\ wild p = false
  end.
Proof.
  unfold tcp_pcb_select.
  pose proof (pcb_select_loop_spec ps 0 None) as H.
  destruct (pcb_select_loop ps 0 lo (Some fo) None) as [[i pcb]|].
  - destruct H as [(j & -> & Hj & Hfull & Hmin) | (Hno & [(j & -> & Hj & Hw & Hmax) | (Habs & _)])].
    + split; [exact Hj|]. left. split; [exact Hfull|]. exact Hmin.
    + split; [exact Hj|]. right. repeat split; assumption.
    + discriminate.
  - exact (proj2 H).
Qed.

End SelectFacts.

(** C2 as it is written fails: of two PCBs in LISTEN on the same local
    port with a wildcard foreign endpoint, none matching the pair fully,
    the selection gives the one in slot 1, not the first one. *)
Lemma tcp_pcb_select_counterexample :
  Tcp.listen_match Sample.here (Sample.listener (Timeval.Tv 1 0)) = true
  /\ Sample.two_listeners !! 0%nat = Some (Sample.listener (Timeval.Tv 1 0))
  /\ Tcp.tcp_pcb_select Sample.two_listeners Sample.here (Some Sample.peer)
     = Some (1%nat, Sample.listener (Timeval.Tv 2 0))
  /\ Tcp.tcp_pcb_select Sample.two_listeners Sample.here (Some Sample.peer)
     <> Some (0%nat, Sample.listener (Timeval.Tv 1 0)).
Proof.
  repeat split; try reflexivity. vm_compute. discriminate.
Qed.

(** ** tcp.c: the retransmit tick *)

Section RetransmitFacts.
Import Timeval Tcp.

Variable o : oracle.
Hypothesis clock_normal : forall n, normal (o_time o n).

Lemma tcp_output_segment_trace sq ak fl wn payload lo fo s :
  snd (tcp_output_segment o sq ak fl wn payload lo fo s)
  = tick (emit (Segment sq ak fl wn payload lo fo) s).
Proof.
  unfold tcp_output_segment. destruct (o_ip_output o (ticks s)); reflexivity.
Qed.






End RetransmitFacts.



(** ** sched.c: interruption of the tasks parked on a context *)

Section SchedFacts.
Import Sched.

Lemma nwaiting_nonneg ts : 0 <= nwaiting ts.
Proof.
  induction ts as [|t ts IH]; simpl; [lia|]. destruct (waiting t); lia.
Qed.

Lemma nwaiting_insert ts i t t' :
  ts !! i = Some t ->
  nwaiting (<[i := t']> ts)
  = nwaiting ts - (if waiting t then 1 else 0) + (if waiting t' then 1 else 0).
Proof.
  revert i. induction ts as [|a ts IH]; intros [|i] Hi; simpl in *;
    try discriminate.
  - injection Hi as ->. lia.
  - rewrite (IH i Hi). lia.
Qed.

Lemma nwaiting_pos ts i t :
  ts !! i = Some t -> waiting t = true -> 1 <= nwaiting ts.
Proof.
  revert i. induction ts as [|a ts IH]; intros [|i] Hi Hw; simpl in *;
    try discriminate.
  - injection Hi as ->. rewrite Hw. pose proof (nwaiting_nonneg ts). lia.
  - specialize (IH i Hi Hw). destruct (waiting a); lia.
Qed.

Lemma nwaiting_two ts i j t u :
  i <> j -> ts !! i = Some t -> waiting t = true ->
  ts !! j = Some u -> waiting u = true -> 2 <= nwaiting ts.
Proof.
  intros Hij Hi Hwt Hj Hwu.
  pose proof (nwaiting_insert ts j u (Returned 0) Hj) as H.
  rewrite Hwu in H. simpl in H.
  assert (Hi' : <[j := Returned 0]> ts !! i = Some t)
    by (rewrite list_lookup_insert_ne by congruence; exact Hi).
  pose proof (nwaiting_pos _ _ _ Hi' Hwt). lia.
Qed.

Lemma lookup_broadcast ts j :
  broadcast ts !! j
  = match ts !! j with Some Parked => Some Woken | x => x end.
Proof.
  revert j. induction ts as [|a ts IH]; intros [|j]; simpl; try reflexivity.
  - destruct a; reflexivity.
  - apply IH.
Qed.

Lemma nwaiting_broadcast ts : nwaiting (broadcast ts) = nwaiting ts.
Proof.
  induction ts as [|a ts IH]; simpl; [reflexivity|].
  rewrite IH. destruct a; reflexivity.
Qed.

Lemma step_wc_ok s s' : wc_ok s -> step s s' -> wc_ok s'.
Proof.
  unfold wc_ok. intros Hwc Hstep. destruct Hstep as [i s Hi | i ret s t Hi Hw | s | s].
  - unfold call_sleep, sched_sleep_enter.
    destruct (negb (interrupted (ctx s) =? 0)); simpl;
      rewrite (nwaiting_insert _ _ _ _ Hi); simpl; lia.
  - unfold resume, sched_sleep_resume. simpl.
    destruct (negb (interrupted (ctx s) =? 0)); simpl;
      [destruct (wc (ctx s) - 1 =? 0); simpl|];
      rewrite (nwaiting_insert _ _ _ _ Hi), Hw; simpl; lia.
  - simpl. rewrite nwaiting_broadcast. exact Hwc.
  - simpl. rewrite nwaiting_broadcast. exact Hwc.
Qed.

Lemma step_interrupted_or_back i s s' :
  interrupted_or_back i s -> step s s' -> interrupted_or_back i s'.
Proof.
  intros [Hwc Hi] Hstep. split; [exact (step_wc_ok _ _ Hwc Hstep)|].
  destruct Hstep as [j s Hj | j ret s t Hj Hw | s | s].
  - (* another task calls sched_sleep *)
    assert (Hij : j <> i) by (destruct Hi as [[Hi _]|Hi]; congruence).
    unfold call_sleep, sched_sleep_enter.
    destruct Hi as [[Hi Hflag]|Hi].
    + rewrite Hflag. simpl. rewrite list_lookup_insert_ne by exact Hij.
      left. split; auto.
    + destruct (negb (interrupted (ctx s) =? 0)); simpl;
        rewrite list_lookup_insert_ne by exact Hij; right; exact Hi.
  - (* a task comes back from the wait *)
    unfold resume, sched_sleep_resume. simpl.
    destruct Hi as [[Hi Hflag]|Hi].
    + rewrite Hflag. simpl. destruct (Nat.eq_dec j i) as [->|Hij].
      * right. destruct (wc (ctx s) - 1 =? 0); simpl;
          apply list_lookup_insert_eq; exact (lookup_lt_Some _ _ _ Hi).
      * assert (2 <= nwaiting (tasks s))
          by (apply (nwaiting_two _ i j Woken t); auto).
        unfold wc_ok in Hwc.
        destruct (Z.eqb_spec (wc (ctx s) - 1) 0) as [E|E]; [lia|]. simpl.
        rewrite list_lookup_insert_ne by exact Hij. left. split; auto.
    + assert (Hij : j <> i) by (intros ->; rewrite Hi in Hj;
                                 injection Hj as <-; discriminate).
      right.
      destruct (negb (interrupted (ctx s) =? 0)); simpl;
        [destruct (wc (ctx s) - 1 =? 0); simpl|];
        rewrite list_lookup_insert_ne by exact Hij; exact Hi.
  - simpl. rewrite lookup_broadcast.
    destruct Hi as [[Hi Hflag]|Hi]; rewrite Hi; [left|right]; auto.
  - simpl. rewrite lookup_broadcast.
    destruct Hi as [[Hi Hflag]|Hi]; rewrite Hi; [left|right]; auto.
Qed.

Lemma steps_interrupted_or_back i s s' :
  interrupted_or_back i s -> steps s s' -> interrupted_or_back i s'.
Proof.
  intros H Hsteps. induction Hsteps as [s | s1 s2 s3 Hstep _ IH]; [exact H|].
  apply IH. exact (step_interrupted_or_back _ _ _ H Hstep).
Qed.

Lemma step_returned i r s s' :
  tasks s !! i = Some (Returned r) -> step s s' ->
  tasks s' !! i = Some (Returned r).
Proof.
  intros Hi Hstep. destruct Hstep as [j s Hj | j ret s t Hj Hw | s | s].
  - assert (Hij : j <> i) by congruence.
    unfold call_sleep. destruct (sched_sleep_enter (ctx s)); simpl;
      rewrite list_lookup_insert_ne by exact Hij; exact Hi.
  - assert (Hij : j <> i)
      by (intros ->; rewrite Hi in Hj; injection Hj as <-; discriminate).
    unfold resume. destruct (sched_sleep_resume ret (ctx s)). simpl.
    rewrite list_lookup_insert_ne by exact Hij. exact Hi.
  - simpl. rewrite lookup_broadcast, Hi. reflexivity.
  - simpl. rewrite lookup_broadcast, Hi. reflexivity.
Qed.

Lemma steps_returned i r s s' :
  tasks s !! i = Some (Returned r) -> steps s s' ->
  tasks s' !! i = Some (Returned r).
Proof.
  intros H Hsteps. induction Hsteps as [s | s1 s2 s3 Hstep _ IH]; [exact H|].
  apply IH. exact (step_returned _ _ _ _ H Hstep).
Qed.

Lemma step_flag_cleared s s' :
  wc_ok s -> step s s' -> interrupted (ctx s) <> 0 ->
  (interrupted (ctx s') = 0
   <-> nwaiting (tasks s) = 1 /\ nwaiting (tasks s') = 0).
Proof.
  unfold wc_ok. intros Hwc Hstep Hflag.
  assert (Hb : negb (interrupted (ctx s) =? 0) = true)
    by (destruct (Z.eqb_spec (interrupted (ctx s)) 0); [contradiction|reflexivity]).
  destruct Hstep as [j s Hj | j ret s t Hj Hw | s | s].
  - unfold call_sleep, sched_sleep_enter. rewrite Hb. simpl.
    rewrite (nwaiting_insert _ _ _ _ Hj). simpl. split; [contradiction|lia].
  - unfold resume, sched_sleep_resume. simpl. rewrite Hb. simpl.
    rewrite (nwaiting_insert _ _ _ _ Hj), Hw. simpl.
    destruct (Z.eqb_spec (wc (ctx s) - 1) 0) as [E|E]; simpl.
    + split; [lia | reflexivity].
    + split; [contradiction | lia].
  - simpl. rewrite nwaiting_broadcast. split; [contradiction|lia].
  - simpl. rewrite nwaiting_broadcast. split; [discriminate|lia].
Qed.

(** C8.  For a context whose wait count is right and a task [i] parked
    in sched_sleep: sched_interrupt sets the interrupted flag and wakes
    every parker; in every state reached afterwards, task [i] either is
    still on its way out of the wait with the flag up, and then comes back
    with -1 (EINTR), or has come back with -1, and that stays so (it is
    seen once); a task that calls sched_sleep while the flag is up gets
    -1 at once; and a step clears the flag exactly when it takes the last
    waiting task out of the wait. *)
Theorem sched_interrupt_spec (s s2 : system) (i : nat) (t : status) :
  wc_ok s ->
  tasks s !! i = Some t -> waiting t = true ->
  steps (sched_interrupt s) s2 ->
  interrupted (ctx (sched_interrupt s)) = 1
  /\ (forall j tj, tasks s !! j = Some tj -> waiting tj = true ->
                   tasks (sched_interrupt s) !! j = Some Woken)
  /\ ((tasks s2 !! i = Some Woken /\ interrupted (ctx s2) = 1)
      \/ tasks s2 !! i = Some (Returned (-1)))
  /\ (forall ret, tasks s2 !! i = Some Woken ->
                  tasks (resume i ret s2) !! i = Some (Returned (-1)))
  /\ (forall s3, tasks s2 !! i = Some (Returned (-1)) -> steps s2 s3 ->
                 tasks s3 !! i = Some (Returned (-1)))
  /\ (forall j, tasks s2 !! j = Some Running -> interrupted (ctx s2) <> 0 ->
                tasks (call_sleep j s2) !! j = Some (Returned (-1))
                /\ ctx (call_sleep j s2) = ctx s2)
  /\ (forall s3, step s2 s3 -> interrupted (ctx s2) <> 0 ->
                 (interrupted (ctx s3) = 0
                  <-> nwaiting (tasks s2) = 1 /\ nwaiting (tasks s3) = 0)).
Proof.
  intros Hwc Hi Hw Hsteps.
  assert (Hwoken : forall j tj, tasks s !! j = Some tj -> waiting tj = true ->
                     tasks (sched_interrupt s) !! j = Some Woken).
  { intros j tj Hj Hwj. simpl. rewrite lookup_broadcast, Hj.
    destruct tj; try discriminate; reflexivity. }
  assert (Hinv1 : interrupted_or_back i (sched_interrupt s)).
  { split.
    - unfold wc_ok in *. simpl. rewrite nwaiting_broadcast. exact Hwc.
    - left. split; [exact (Hwoken i t Hi Hw) | reflexivity]. }
  pose proof (steps_interrupted_or_back _ _ _ Hinv1 Hsteps) as [Hwc2 Hi2].
  split; [reflexivity|]. split; [exact Hwoken|]. split; [exact Hi2|].
  split; [|split; [|split]].
  - intros ret Hi2w. destruct Hi2 as [[_ Hflag]|Hi2]; [|congruence].
    unfold resume, sched_sleep_resume. simpl. rewrite Hflag. simpl.
    destruct (wc (ctx s2) - 1 =? 0); simpl;
      apply list_lookup_insert_eq; exact (lookup_lt_Some _ _ _ Hi2w).
  - intros s3 Hret Hsteps3. exact (steps_returned _ _ _ _ Hret Hsteps3).
  - intros j Hj Hflag. unfold call_sleep, sched_sleep_enter.
    destruct (Z.eqb_spec (interrupted (ctx s2)) 0); [contradiction|]. simpl.
    split; [|reflexivity].
    apply list_lookup_insert_eq. exact (lookup_lt_Some _ _ _ Hj).
  - intros s3 Hstep Hflag. exact (step_flag_cleared _ _ Hwc2 Hstep Hflag).
Qed.

End SchedFacts.

Lemma sched_interrupt_spec_witness :
  let s := Sched.Sys (Sched.Ctx 0 2)
             [Sched.Parked; Sched.Parked; Sched.Running] in
  let s2 := Sched.resume 0 0 (Sched.sched_interrupt s) in
  Sched.wc_ok s
  /\ Sched.steps (Sched.sched_interrupt s) s2
  /\ Sched.interrupted (Sched.ctx (Sched.sched_interrupt s)) = 1
  /\ ((Sched.tasks s2 !! 1%nat = Some Sched.Woken
       /\ Sched.interrupted (Sched.ctx s2) = 1)
      \/ Sched.tasks s2 !! 1%nat = Some (Sched.Returned (-1))).
Proof.
  intros s s2.
  assert (Hwc : Sched.wc_ok s) by reflexivity.
  assert (Hsteps : Sched.steps (Sched.sched_interrupt s) s2).
  { eapply Sched.steps_cons; [|apply Sched.steps_refl].
    apply (Sched.step_resume 0 0 _ Sched.Woken); reflexivity. }
  destruct (sched_interrupt_spec s s2 1 Sched.Parked Hwc eq_refl eq_refl Hsteps)
    as (H1 & _ & H3 & _).
  repeat split; assumption.
Defined.

(** ** tcp.c: segment arrival *)

Section ArrivalFacts.
Import Timeval Tcp.

Variable o : oracle.

(** The ACK block of the synchronized states, for an acknowledgement of
    new data that also carries a window update: snd.una, snd.wnd and
    snd.wl2 are set from the segment and the acknowledged head of the
    retransmission queue is dropped, but snd.wl1 keeps its old value (the
    code assigns snd.wl2 twice). *)
Lemma ack_update_new_data seg pcb s :
  snd_una pcb < seg_ack seg <= snd_nxt pcb ->
  snd_wl1 pcb < seg_seq seg
  \/ (snd_wl1 pcb = seg_seq seg /\ snd_wl2 pcb <= seg_ack seg) ->
  exists pcb',
    ack_update o seg pcb s = Continue pcb' s
    /\ snd_una pcb' = seg_ack seg
    /\ queue pcb' = queue_cleanup (seg_ack seg) (queue pcb)
    /\ snd_wnd pcb' = seg_wnd seg
    /\ snd_wl2 pcb' = seg_ack seg
    /\ snd_wl1 pcb' = snd_wl1 pcb.
Proof.
  intros [Hlo Hhi] Hwl. unfold ack_update.
  assert (H1 : (snd_una pcb <? seg_ack seg) && (seg_ack seg <=? snd_nxt pcb) = true).
  { apply andb_true_iff. rewrite Z.ltb_lt, Z.leb_le. lia. }
  rewrite H1. cbv zeta.
  set (p1 := tcp_retransmit_queue_cleanup (set_snd_una (seg_ack seg) pcb)).
  assert (Hwl1 : snd_wl1 p1 = snd_wl1 pcb) by reflexivity.
  assert (Hwl2 : snd_wl2 p1 = snd_wl2 pcb) by reflexivity.
  assert (H2 : (snd_wl1 p1 <? seg_seq seg)
               || ((snd_wl1 p1 =? seg_seq seg) && (snd_wl2 p1 <=? seg_ack seg))
               = true).
  { rewrite Hwl1, Hwl2. apply orb_true_iff.
    destruct Hwl as [H|[H H']]; [left|right].
    - apply Z.ltb_lt. exact H.
    - apply andb_true_iff. rewrite Z.eqb_eq, Z.leb_le. auto. }
  rewrite H2. eexists. split; [reflexivity|]. repeat split.
Qed.

(** The retransmission queue after the cleanup holds no entry below
    snd.una at its head, and what it dropped was below snd.una. *)
Lemma queue_cleanup_spec una q :
  exists dropped,
    q = dropped ++ queue_cleanup una q
    /\ Forall (fun e => seq e < una) dropped
    /\ match queue_cleanup una q with
       | [] => True
       | e :: _ => una <= seq e
       end.
Proof.
  induction q as [|e q IH]; simpl.
  - exists []. repeat split. constructor.
  - destruct (Z.geb_spec (seq e) una) as [H|H].
    + exists []. repeat split; [constructor | lia].
    + destruct IH as (d & Hq & Hd & Hhead).
      exists (e :: d). split; [simpl; congruence|].
      split; [constructor; [lia | exact Hd] | exact Hhead].
Qed.

End ArrivalFacts.

(** C1 at a concrete segment: ten bytes 1990 .. 1999 are in flight, the
    last window update came from <SEQ=999>; the segment
    <SEQ=1000><ACK=2000><WND=8><CTL=ACK> arrives.  The code advances
    snd.una to 2000, empties the retransmission queue, sets snd.wnd = 8
    and snd.wl2 = 2000, and leaves snd.wl1 = 999 where the claim has
    snd.wl1 = seg.seq = 1000. *)
Theorem tcp_segment_arrives_ack_keeps_wl1 :
  let seg := Tcp.Seg 1000 2000 0 8 0 in
  Tcp.snd_una Sample.sending < Tcp.seg_ack seg <= Tcp.snd_nxt Sample.sending
  /\ Tcp.snd_wl1 Sample.sending < Tcp.seg_seq seg
  /\ Tcp.tcp_segment_arrives (Sample.calm (Timeval.Tv 1 0)) seg Tcp.TCP_FLG_ACK
       [] 0 Sample.here Sample.peer
       (Tcp.World (Sample.table Sample.sending) Sample.quiet)
     = Some (Tcp.World (Sample.table Sample.acked) Sample.quiet)
  /\ Tcp.snd_wl1 Sample.acked = 999
  /\ Tcp.snd_wl1 Sample.acked <> Tcp.seg_seq seg.
Proof.
  repeat split; try reflexivity; vm_compute; congruence.
Qed.

(** C4 at a concrete segment: the PCB is in SYN_SENT (iss = 1999,
    snd.nxt = 2000) and a bare <CTL=RST> arrives, without ACK.  The claim
    has the segment dropped and the PCB unchanged; the code sets the state
    to CLOSED, wakes the parkers and releases the PCB (the slot is zeroed,
    that is FREE), without the "connection reset" message. *)
Theorem tcp_segment_arrives_syn_sent_bare_rst :
  let seg := Tcp.Seg 0 0 0 0 0 in
  Tcp.TCP_FLG_ISSET Tcp.TCP_FLG_RST Tcp.TCP_FLG_ACK = false
  /\ Tcp.state Sample.unacked = Tcp.SYN_SENT
  /\ Tcp.tcp_segment_arrives (Sample.calm (Timeval.Tv 1 0)) seg Tcp.TCP_FLG_RST
       [] 0 Sample.here Sample.peer
       (Tcp.World (Sample.table Sample.unacked) Sample.quiet)
     = Some (Tcp.World (Sample.table Tcp.pcb_zero)
                       (Tcp.Env [Tcp.Wakeup] 1))
  /\ Tcp.pcb_zero <> Sample.unacked.
Proof.
  repeat split; try reflexivity. discriminate.
Qed.

(** C10 at a concrete segment: the connection is established with
    rcv.nxt = 1000 and the whole buffer free (rcv.wnd = 16); the segment
    <SEQ=1000><ACK=2000><CTL=ACK,PSH> with 17 bytes of data arrives.  Its
    first byte is inside the window, so it passes the acceptability check;
    the copy of its 17 bytes at offset 0 of the 16-byte buffer runs past
    the end of the buffer, and rcv.wnd - 17 wraps around to 65535. *)
Theorem tcp_segment_arrives_text_overflow :
  let seg := Tcp.Seg 1000 2000 17 16 0 in
  let payload := repeat Byte.x61 17 in
  Tcp.acceptable_in_state seg Sample.established = true
  /\ Tcp.rcv_wnd Sample.established < Z.of_nat (length payload)
  /\ Tcp.buf_write (Tcp.buf Sample.established)
       (Tcp.u64 (Tcp.BUF_SIZE - Tcp.rcv_wnd Sample.established)) payload 17
     = None
  /\ Tcp.tcp_segment_arrives (Sample.calm (Timeval.Tv 1 0)) seg
       (Z.lor Tcp.TCP_FLG_ACK Tcp.TCP_FLG_PSH) payload 17
       Sample.here Sample.peer
       (Tcp.World (Sample.table Sample.established) Sample.quiet)
     = None
  /\ Tcp.u16 (Tcp.rcv_wnd Sample.established - 17) = 65535.
Proof.
  repeat split; reflexivity.
Qed.

(** ** tcp.c: tcp_send *)

Section SendFacts.
Import Timeval Tcp.

Variable o : oracle.


(** tcp_output always hands the segment to tcp_output_segment, after at
    most an error message of the retransmission queue. *)
Lemma tcp_output_spec pcb fl payload s :
  exists r pcb1 s1 evs,
    tcp_output o pcb fl payload s = (r, pcb1, s1)
    /\ (r = -1 \/ r = Z.of_nat (length payload))
    /\ pcb1 = set_queue (queue pcb1) pcb
    /\ bytes_out evs = 0
    /\ trace s1
       = trace s ++ evs
         ++ [Segment (if TCP_FLG_ISSET fl TCP_FLG_SYN then iss pcb
                      else snd_nxt pcb)
                     (rcv_nxt pcb) fl (rcv_wnd pcb) payload
                     (local pcb) (foreign pcb)].
Proof.
  assert (Heta : pcb = set_queue (queue pcb) pcb) by (destruct pcb; reflexivity).
  unfold tcp_output, tcp_retransmit_queue_add, tcp_output_segment.
  destruct (TCP_FLG_ISSET fl (Z.lor TCP_FLG_SYN TCP_FLG_FIN)
            || negb (Z.of_nat (length payload) =? 0)).
  - destruct (o_alloc o (ticks s)); cbn [negb].
    + destruct (o_alloc o (ticks (tick (tick s)))); cbn [negb].
      * destruct (o_ip_output o _);
          eexists _, _, _, []; (split; [reflexivity|]);
          (split; [auto|]); (split; [reflexivity|]); (split; [reflexivity|]);
          reflexivity.
      * destruct (o_ip_output o _);
          eexists _, _, _, [Errorf _]; (split; [reflexivity|]);
          (split; [auto|]); (split; [exact Heta|]); (split; [reflexivity|]);
          cbn [trace emit tick]; rewrite <- app_assoc; reflexivity.
    + destruct (o_ip_output o _);
        eexists _, _, _, [Errorf _]; (split; [reflexivity|]);
        (split; [auto|]); (split; [exact Heta|]); (split; [reflexivity|]);
        cbn [trace emit tick]; rewrite <- app_assoc; reflexivity.
  - destruct (o_ip_output o _);
      eexists _, _, _, []; (split; [reflexivity|]);
      (split; [auto|]); (split; [exact Heta|]); (split; [reflexivity|]);
      reflexivity.
Qed.

Lemma ssize_small z : 0 <= z < 9223372036854775808 -> ssize z = z.
Proof.
  intros H. unfold ssize, u64. rewrite Z.mod_small by lia.
  destruct (Z.ltb_spec z 9223372036854775808); lia.
Qed.

Lemma chunk_length (payload : list byte) sent slen :
  0 <= sent -> 0 <= slen <= Z.of_nat (length payload) - sent ->
  Z.of_nat (length (firstn (Z.to_nat slen) (skipn (Z.to_nat sent) payload)))
  = slen.
Proof.
  intros Hs Hl. rewrite length_firstn, length_skipn. lia.
Qed.

(** One turn of the loop of tcp_send. *)
Lemma send_loop_turn n i payload mss_ sent pcb w s :
  Z.of_nat (length payload) < 9223372036854775808 ->
  0 <= sent < Z.of_nat (length payload) -> 0 <= mss_ ->
  (send_cap pcb = 0 ->
   send_loop o (S n) i payload mss_ sent pcb w s
   = match Sched.sched_sleep_enter (ctx pcb) with
     | inl _ => Ret (if sent =? 0 then -1 else sent) [] (put i pcb s w)
     | inr c => Park sent (put i (set_ctx c pcb) s w)
     end)
  /\ (send_cap pcb <> 0 ->
      let slen := Z.min (Z.min mss_ (Z.of_nat (length payload) - sent))
                        (send_cap pcb) in
      let chunk := firstn (Z.to_nat slen) (skipn (Z.to_nat sent) payload) in
      Z.of_nat (length chunk) = slen
      /\ exists r pcb1 s1 evs,
           tcp_output o pcb ACK_PSH chunk s = (r, pcb1, s1)
           /\ pcb1 = set_queue (queue pcb1) pcb
           /\ bytes_out evs = 0
           /\ trace s1
              = trace s ++ evs
                ++ [Segment (snd_nxt pcb) (rcv_nxt pcb) ACK_PSH (rcv_wnd pcb)
                            chunk (local pcb) (foreign pcb)]
           /\ (r = -1 \/ r = slen)
           /\ (r <> -1 ->
               send_loop o (S n) i payload mss_ sent pcb w s
               = send_loop o n i payload mss_ (sent + slen)
                   (set_snd_nxt (u32 (snd_nxt pcb + slen)) pcb1) w s1)
           /\ (r = -1 ->
               exists w', send_loop o (S n) i payload mss_ sent pcb w s
                          = Ret (-1) [] w')).
Proof.
  intros Hlen Hsent Hmss.
  assert (Hlt : (sent <? ssize (Z.of_nat (length payload))) = true)
    by (rewrite ssize_small by lia; apply Z.ltb_lt; lia).
  assert (Hu : u64 (Z.of_nat (length payload) - sent)
               = Z.of_nat (length payload) - sent)
    by (unfold u64; apply Z.mod_small; lia).
  split.
  - intros Hcap. cbn [send_loop]. rewrite Hlt. fold (send_cap pcb).
    rewrite Hcap. cbn [Z.eqb].
    destruct (Sched.sched_sleep_enter (ctx pcb)); [|reflexivity].
    destruct (sent =? 0); reflexivity.
  - intros Hcap slen chunk.
    assert (Hcap0 : 0 < send_cap pcb).
    { unfold send_cap, u32 in *.
      pose proof (Z.mod_pos_bound
        (snd_wnd pcb - (snd_nxt pcb - snd_una pcb) mod 4294967296) 4294967296
        ltac:(lia)). lia. }
    assert (Hchunk : Z.of_nat (length chunk) = slen)
      by (apply chunk_length; lia).
    split; [exact Hchunk|].
    destruct (tcp_output_spec pcb ACK_PSH chunk s)
      as (r & pcb1 & s1 & evs & Hout & Hr & Hpcb1 & Hevs & Htr).
    exists r, pcb1, s1, evs.
    split; [exact Hout|]. split; [exact Hpcb1|]. split; [exact Hevs|].
    split; [exact Htr|]. split; [rewrite <- Hchunk; exact Hr|].
    assert (Hnxt : snd_nxt pcb1 = snd_nxt pcb) by (rewrite Hpcb1; reflexivity).
    assert (Hunf : send_loop o (S n) i payload mss_ sent pcb w s
              = if r =? -1 then
                  let '(p, s2) := tcp_pcb_release o (set_state CLOSED pcb1)
                                    (emit (Errorf "tcp_output() failure") s1) in
                  Ret (-1) [] (put i p s2 w)
                else send_loop o n i payload mss_ (sent + slen)
                       (set_snd_nxt (u32 (snd_nxt pcb1 + slen)) pcb1) w s1).
    { cbn [send_loop]. rewrite Hlt. fold (send_cap pcb).
      destruct (Z.eqb_spec (send_cap pcb) 0) as [E|_]; [contradiction|].
      rewrite Hu. fold slen. fold chunk. fold ACK_PSH. rewrite Hout.
      reflexivity. }
    split.
    + intros Hne. rewrite Hunf.
      destruct (Z.eqb_spec r (-1)); [contradiction|]. rewrite Hnxt. reflexivity.
    + intros ->. rewrite Hunf. cbn [Z.eqb].
      destruct (tcp_pcb_release o _ _) as [p s2]. eexists. reflexivity.
Qed.


Lemma tcp_pcb_get_lookup ps id i pcb :
  tcp_pcb_get ps id = Some (i, pcb) ->
  ps !! i = Some pcb /\ is_state (state pcb) FREE = false
  /\ 0 <= id < TCP_PCB_SIZE /\ i = Z.to_nat id.
Proof.
  unfold tcp_pcb_get.
  destruct (Z.ltb_spec id 0); [discriminate|].
  destruct (Z.geb_spec id TCP_PCB_SIZE); [discriminate|]. simpl.
  destruct (ps !! Z.to_nat id) as [q|] eqn:E; [|discriminate].
  destruct (is_state (state q) FREE) eqn:F; [discriminate|].
  intros Heq. injection Heq as <- <-. repeat split; auto; lia.
Qed.






End SendFacts.


(** The rest of that call: the peer acknowledges the sixteen bytes and
    opens its window again, the caller is woken, sends the last four
    bytes and returns 20. *)
Example tcp_send_then_ack :
  let o := Sample.calm (Timeval.Tv 1 0) in
  let w := Tcp.World (Sample.table Sample.established) Sample.quiet in
  let payload := repeat Byte.x61 20 in
  exists w1 w2 w3,
    Tcp.tcp_send o 30 0 payload w = Tcp.Park 16 w1
    /\ Tcp.tcp_segment_arrives o (Tcp.Seg 1000 2016 0 16 0) Tcp.TCP_FLG_ACK
         [] 0 Sample.here Sample.peer w1 = Some w2
    /\ Tcp.tcp_send_wake o 30 0 payload 16 0 w2 = Tcp.Ret 20 [] w3
    /\ Tcp.bytes_out (Tcp.trace (Tcp.env w3)) = 20.
Proof.
  do 3 eexists. split; [vm_compute; reflexivity|].
  split; [vm_compute; reflexivity|].
  split; vm_compute; reflexivity.
Qed.

(** ** tcp.c: tcp_receive *)

Section ReceiveFacts.
Import Timeval Tcp.


End ReceiveFacts.



(** ** The checksum *)

Section CksumFacts.
Import Cksum.

Lemma bval_range b : 0 <= bval b < 256.
Proof.
  unfold bval. pose proof (Byte.to_N_bounded b). lia.
Qed.

Lemma bval_byte_of z : bval (byte_of z) = z mod 256.
Proof.
  unfold bval, byte_of.
  pose proof (Z.mod_pos_bound z 256 ltac:(lia)) as Hz.
  destruct (Byte.of_N (Z.to_N (z mod 256))) as [b|] eqn:E.
  - apply Byte.to_of_N in E. rewrite E. lia.
  - apply Byte.of_N_None_iff in E. lia.
Qed.

Variable big_endian : bool.

Lemma load16_range b0 b1 : 0 <= load16 big_endian b0 b1 < 65536.
Proof.
  unfold load16. pose proof (bval_range b0). pose proof (bval_range b1).
  destruct big_endian; lia.
Qed.

Lemma wsum_store16 v :
  0 <= v < 65536 -> wsum big_endian (store16 big_endian v) = v.
Proof.
  intros Hv. unfold store16, load16.
  destruct big_endian; simpl; unfold load16; rewrite !bval_byte_of;
    pose proof (Z.div_mod v 256 ltac:(lia));
    pose proof (Z.mod_pos_bound v 256 ltac:(lia));
    rewrite (Z.mod_small (v / 256) 256)
      by (split; [apply Z.div_pos; lia | apply Z.div_lt_upper_bound; lia]);
    lia.
Qed.

Lemma wsum_range bs :
  0 <= wsum big_endian bs <= 65535 * ((Z.of_nat (length bs) + 1) / 2).
Proof.
  induction bs as [bs IH] using (induction_ltof1 _ (@length byte)).
  unfold ltof in IH.
  destruct bs as [|b0 [|b1 rest]].
  - cbn [wsum length]. change ((Z.of_nat 0 + 1) / 2) with 0. lia.
  - cbn [wsum length]. pose proof (bval_range b0).
    change ((Z.of_nat 1 + 1) / 2) with 1. lia.
  - cbn [wsum]. pose proof (load16_range b0 b1).
    specialize (IH rest ltac:(simpl; lia)).
    replace (Z.of_nat (length (b0 :: b1 :: rest)) + 1)
      with ((Z.of_nat (length rest) + 1) + 1 * 2) by (simpl length; lia).
    rewrite Z.div_add by lia. lia.
Qed.

Lemma wsum_app a b :
  Nat.Even (length a) ->
  wsum big_endian (a ++ b) = wsum big_endian a + wsum big_endian b.
Proof.
  induction a as [a IH] using (induction_ltof1 _ (@length byte)).
  unfold ltof in IH. intros Hev.
  destruct a as [|b0 [|b1 rest]].
  - reflexivity.
  - exfalso. destruct Hev as [k Hk]. simpl in Hk. lia.
  - cbn [app wsum]. rewrite IH.
    + lia.
    + simpl. lia.
    + destruct Hev as [k Hk]. exists (k - 1)%nat. simpl in Hk. lia.
Qed.

(** As long as the 32-bit accumulator does not wrap, sum16 is the plain
    sum. *)
Lemma sum16_wsum bs init :
  0 <= init -> init + wsum big_endian bs < 4294967296 ->
  sum16 big_endian bs init = init + wsum big_endian bs.
Proof.
  revert init.
  induction bs as [bs IH] using (induction_ltof1 _ (@length byte)).
  unfold ltof in IH. intros init Hi Hb.
  destruct bs as [|b0 [|b1 rest]].
  - simpl. lia.
  - cbn [sum16 wsum] in *. pose proof (bval_range b0).
    apply Z.mod_small. lia.
  - cbn [sum16 wsum] in *. pose proof (load16_range b0 b1).
    pose proof (wsum_range rest).
    rewrite Z.mod_small by lia.
    rewrite IH; [lia | simpl; lia | lia | lia].
Qed.

Lemma land_65535 x : Z.land x 65535 = x mod 65536.
Proof.
  change 65535 with (Z.ones 16). rewrite Z.land_ones by lia. reflexivity.
Qed.

Lemma shiftr_16 x : Z.shiftr x 16 = x / 65536.
Proof.
  rewrite Z.shiftr_div_pow2 by lia. reflexivity.
Qed.

Lemma fold16_small n s : 0 <= s < 65536 -> fold16 n s = s.
Proof.
  intros Hs. destruct n as [|n]; [reflexivity|]. cbn [fold16].
  rewrite shiftr_16. rewrite Z.div_small by lia. reflexivity.
Qed.

(** Two turns of the loop are enough for a 32-bit sum. *)
Lemma fold16_ones_complement n s :
  0 <= s < 4294967296 -> fold16 (S (S n)) s = ones_complement s.
Proof.
  intros Hs. unfold ones_complement.
  destruct (Z.lt_ge_cases s 65536) as [Hsmall|Hbig].
  - rewrite fold16_small by lia.
    destruct (Z.eqb_spec s 0); [assumption|].
    rewrite Z.mod_small by lia. lia.
  - cbn [fold16]. rewrite !shiftr_16, !land_65535.
    pose proof (Z.div_mod s 65536 ltac:(lia)) as Hdm.
    pose proof (Z.mod_pos_bound s 65536 ltac:(lia)) as Hm.
    assert (Hq : 1 <= s / 65536 < 65536).
    { split; [apply Z.div_le_lower_bound; lia
             | apply Z.div_lt_upper_bound; lia]. }
    destruct (Z.eqb_spec (s / 65536) 0) as [E|_]; [lia|].
    destruct (Z.eqb_spec s 0) as [E|_]; [lia|].
    set (t := s mod 65536 + s / 65536) in *.
    assert (Hcong : (s - 1) mod 65535 = (t - 1) mod 65535).
    { replace (s - 1) with (t - 1 + (s / 65536) * 65535) by (unfold t; lia).
      apply Z.mod_add. lia. }
    rewrite Hcong.
    destruct (Z.lt_ge_cases t 65536) as [Ht|Ht].
    + rewrite (Z.div_small t) by (unfold t in *; lia). cbn [Z.eqb].
      rewrite Z.mod_small by (unfold t in *; lia). lia.
    + assert (Htq : t / 65536 = 1).
      { symmetry. apply (Z.div_unique t 65536 1 (t - 65536)); unfold t in *; lia. }
      rewrite Htq. cbn [Z.eqb].
      assert (Htm : t mod 65536 = t - 65536).
      { symmetry. apply (Z.mod_unique t 65536 1 (t - 65536)); unfold t in *; lia. }
      rewrite Htm. rewrite fold16_small by (unfold t in *; lia).
      assert (Hm2 : (t - 1) mod 65535 = t - 1 - 65535).
      { symmetry. apply (Z.mod_unique (t - 1) 65535 1 (t - 1 - 65535));
          unfold t in *; lia. }
      rewrite Hm2. lia.
Qed.

Lemma ones_complement_range s : 0 <= s -> 0 <= ones_complement s <= 65535.
Proof.
  intros Hs. unfold ones_complement.
  destruct (Z.eqb_spec s 0); [lia|].
  pose proof (Z.mod_pos_bound (s - 1) 65535 ltac:(lia)). lia.
Qed.

(** Adding the complement of the folded sum makes the sum fold to
    0xffff. *)
Lemma ones_complement_cancel x :
  0 <= x -> ones_complement (x + (65535 - ones_complement x)) = 65535.
Proof.
  intros Hx. unfold ones_complement.
  destruct (Z.eqb_spec x 0) as [->|Hne].
  - reflexivity.
  - pose proof (Z.mod_pos_bound (x - 1) 65535 ltac:(lia)) as Hm.
    pose proof (Z.div_mod (x - 1) 65535 ltac:(lia)) as Hdm.
    destruct (Z.eqb_spec (x + (65535 - ((x - 1) mod 65535 + 1))) 0) as [E|_];
      [lia|].
    replace (x + (65535 - ((x - 1) mod 65535 + 1)) - 1)
      with (65534 + ((x - 1) / 65535) * 65535) by lia.
    rewrite Z.mod_add by lia. reflexivity.
Qed.

Lemma cksum16_range bs count init :
  0 <= cksum16 big_endian bs count init <= 65535.
Proof.
  unfold cksum16.
  pose proof (Z.mod_pos_bound
    (fold16 32 (sum16 big_endian (firstn (Z.to_nat (count mod 65536)) bs)
                  (init mod 4294967296))) 65536 ltac:(lia)).
  lia.
Qed.

(** cksum16 over a whole buffer whose sum does not wrap. *)
Lemma cksum16_whole bs init :
  Z.of_nat (length bs) < 65536 ->
  0 <= init -> init + wsum big_endian bs < 4294967296 ->
  cksum16 big_endian bs (Z.of_nat (length bs)) init
  = 65535 - ones_complement (init + wsum big_endian bs).
Proof.
  intros Hlen Hi Hb. unfold cksum16.
  pose proof (wsum_range bs) as Hw.
  rewrite (Z.mod_small (Z.of_nat (length bs))) by lia.
  rewrite Nat2Z.id, firstn_all.
  rewrite (Z.mod_small init) by lia.
  rewrite sum16_wsum by lia.
  rewrite (fold16_ones_complement 30) by lia.
  pose proof (ones_complement_range (init + wsum big_endian bs) ltac:(lia)).
  rewrite Z.mod_small by lia. reflexivity.
Qed.

End CksumFacts.

(** ** tcp.c: the checksum of an outgoing segment is accepted on input *)

Section RoundTrip.
Import Cksum Tcp.

Variable big_endian : bool.

Lemma even_length_store16 v : Nat.Even (length (store16 big_endian v)).
Proof.
  unfold store16. destruct big_endian; exists 1%nat; reflexivity.
Qed.

Lemma even_length_store32 v : Nat.Even (length (store32 big_endian v)).
Proof.
  unfold store32. destruct big_endian; exists 2%nat; reflexivity.
Qed.

Lemma header_image_length sq ak fl wn sum lo fo :
  length (header_image big_endian sq ak fl wn sum lo fo) = 20%nat.
Proof.
  unfold header_image, store16, store32. destruct big_endian; reflexivity.
Qed.

(** The checksum member enters the sum of the header as it stands. *)
Lemma header_image_wsum sq ak fl wn sum lo fo :
  0 <= sum < 65536 ->
  wsum big_endian (header_image big_endian sq ak fl wn sum lo fo)
  = wsum big_endian (header_image big_endian sq ak fl wn 0 lo fo) + sum.
Proof.
  intros Hsum. unfold header_image.
  assert (Hpair : forall a b : byte, Nat.Even (length [a; b]))
    by (intros; exists 1%nat; reflexivity).
  repeat first
    [ rewrite (wsum_app big_endian (store16 big_endian _))
        by apply even_length_store16
    | rewrite (wsum_app big_endian (store32 big_endian _))
        by apply even_length_store32
    | rewrite (wsum_app big_endian [_; _]) by apply Hpair ].
  rewrite (wsum_store16 big_endian sum Hsum).
  rewrite (wsum_store16 big_endian 0) by lia. lia.
Qed.

Lemma verify_arith psum w0 :
  0 <= psum -> 0 <= w0 ->
  65535 - ones_complement
            (psum + (w0 + (65535 - ones_complement (psum + w0)))) = 0.
Proof.
  intros Hp Hw.
  replace (psum + (w0 + (65535 - ones_complement (psum + w0))))
    with ((psum + w0) + (65535 - ones_complement (psum + w0))) by ring.
  rewrite ones_complement_cancel by lia. reflexivity.
Qed.

(** The test of tcp_input over a header and payload whose checksum member
    was computed by tcp_output_segment, for any starting value [psum]. *)
Lemma image_cksum psum sq ak fl wn payload lo fo :
  0 <= psum <= 65535 ->
  20 + Z.of_nat (length payload) <= 65515 ->
  cksum16 big_endian
    (header_image big_endian sq ak fl wn
       (cksum16 big_endian
          (header_image big_endian sq ak fl wn 0 lo fo ++ payload)
          (20 + Z.of_nat (length payload)) psum)
       lo fo ++ payload)
    (20 + Z.of_nat (length payload)) psum
  = 0.
Proof.
  intros Hpsum Hlen.
  assert (Hl : forall sum,
            Z.of_nat (length (header_image big_endian sq ak fl wn sum lo fo
                              ++ payload))
            = 20 + Z.of_nat (length payload)).
  { intros sum. rewrite length_app, header_image_length. lia. }
  assert (Hhalf : (20 + Z.of_nat (length payload) + 1) / 2 <= 32758)
    by (apply Z.div_le_upper_bound; lia).
  assert (Hw : forall sum, 0 <= sum < 65536 ->
            wsum big_endian (header_image big_endian sq ak fl wn sum lo fo
                             ++ payload)
            = wsum big_endian (header_image big_endian sq ak fl wn 0 lo fo
                               ++ payload) + sum).
  { intros sum Hsum.
    rewrite !wsum_app
      by (rewrite header_image_length; exists 10%nat; reflexivity).
    rewrite (header_image_wsum sq ak fl wn sum lo fo Hsum). ring. }
  pose proof (wsum_range big_endian
                (header_image big_endian sq ak fl wn 0 lo fo ++ payload))
    as Hw0.
  rewrite (Hl 0) in Hw0.
  generalize dependent (wsum big_endian
                          (header_image big_endian sq ak fl wn 0 lo fo
                           ++ payload)).
  intros w0 Hw Hw0.
  assert (Hw0' : 0 <= w0 <= 65535 * 32758) by nia.
  assert (Hc : forall sum, 0 <= sum < 65536 ->
            cksum16 big_endian
              (header_image big_endian sq ak fl wn sum lo fo ++ payload)
              (20 + Z.of_nat (length payload)) psum
            = 65535 - ones_complement (psum + (w0 + sum))).
  { intros sum Hsum. rewrite <- (Hl sum).
    rewrite cksum16_whole.
    - rewrite (Hw sum Hsum). reflexivity.
    - rewrite (Hl sum). lia.
    - lia.
    - rewrite (Hw sum Hsum). lia. }
  rewrite (Hc 0) by lia.
  pose proof (ones_complement_range (psum + (w0 + 0)) ltac:(lia)) as Hoc.
  rewrite Hc by lia.
  replace (w0 + 0) with w0 by ring.
  apply verify_arith; lia.
Qed.

Lemma segment_image_verifies sq ak fl wn payload lo fo :
  TCP_HDR_SIZE + Z.of_nat (length payload) <= IP_PAYLOAD_SIZE_MAX ->
  tcp_input_verify big_endian
    (segment_image big_endian sq ak fl wn payload lo fo) (addr lo) (addr fo)
  = 0.
Proof.
  intros Hlen.
  assert (Hlen' : 20 + Z.of_nat (length payload) <= 65515) by exact Hlen.
  assert (Htotal : u16 (TCP_HDR_SIZE + Z.of_nat (length payload))
                   = 20 + Z.of_nat (length payload))
    by (unfold u16, TCP_HDR_SIZE; apply Z.mod_small; lia).
  unfold tcp_input_verify, segment_image. cbv zeta.
  rewrite length_app, header_image_length.
  replace (Z.of_nat (20 + length payload))
    with (20 + Z.of_nat (length payload)) by lia.
  rewrite Htotal.
  apply image_cksum; [|exact Hlen'].
  pose proof (cksum16_range big_endian
    (pseudo_image big_endian (addr lo) (addr fo)
       (20 + Z.of_nat (length payload))) PSEUDO_HDR_SIZE 0). lia.
Qed.

(** C9.  For every seq, ack, wnd, payload that fits the output buffer and
    pair of endpoints, the bytes that tcp_output_segment builds with
    flags = ACK and hands to ip_output pass the checksum test of
    tcp_input, run with the source and destination addresses of the
    sender: the verification sum is 0.  This holds on a host of either
    byte order. *)
Theorem tcp_checksum_round_trip sq ak wn payload lo fo :
  TCP_HDR_SIZE + Z.of_nat (length payload) <= IP_PAYLOAD_SIZE_MAX ->
  tcp_input_verify big_endian
    (segment_image big_endian sq ak TCP_FLG_ACK wn payload lo fo)
    (addr lo) (addr fo)
  = 0.
Proof.
  apply segment_image_verifies.
Qed.

End RoundTrip.

Lemma tcp_checksum_round_trip_witness :
  Tcp.tcp_input_verify false
    (Tcp.segment_image false 1000 2000 Tcp.TCP_FLG_ACK 16 Sample.digits
       Sample.here Sample.peer)
    (Tcp.addr Sample.here) (Tcp.addr Sample.peer)
  = 0.
Proof.
  apply (tcp_checksum_round_trip false 1000 2000 16 Sample.digits
           Sample.here Sample.peer).
  vm_compute. discriminate.
Defined.

(* ===================================================================== *)
(** * Further properties of the code                                      *)
(* ===================================================================== *)

(** ** sched.c: states reached from an initialised context *)

Section SchedMore.
Import Sched.

Lemma step_tasks_length s s' :
  step s s' -> length (tasks s') = length (tasks s).
Proof.
  intros Hstep. destruct Hstep as [i s Hi | i ret s t Hi Hw | s | s].
  - unfold call_sleep. destruct (sched_sleep_enter (ctx s)); simpl;
      apply length_insert.
  - unfold resume. destruct (sched_sleep_resume ret (ctx s)). simpl.
    apply length_insert.
  - simpl. unfold broadcast. apply length_map.
  - simpl. unfold broadcast. apply length_map.
Qed.

Lemma step_flag_bit s s' :
  step s s' ->
  interrupted (ctx s) = 0 \/ interrupted (ctx s) = 1 ->
  interrupted (ctx s') = 0 \/ interrupted (ctx s') = 1.
Proof.
  intros Hstep Hbit. destruct Hstep as [i s Hi | i ret s t Hi Hw | s | s].
  - unfold call_sleep, sched_sleep_enter.
    destruct (negb (interrupted (ctx s) =? 0)); simpl; exact Hbit.
  - unfold resume, sched_sleep_resume. simpl.
    destruct (negb (interrupted (ctx s) =? 0)); simpl;
      [destruct (wc (ctx s) - 1 =? 0); simpl; auto | exact Hbit].
  - exact Hbit.
  - right. reflexivity.
Qed.

(** Every state reached from sched_ctx_init by calls of sched_sleep,
    returns from the wait, sched_wakeup and sched_interrupt keeps the wait
    count equal to the number of tasks inside the wait (so it is never
    negative), the flag 0 or 1, and the set of tasks. *)
Theorem sched_reachable_invariant (n : nat) (s : system) :
  steps (initial n) s ->
  wc_ok s
  /\ 0 <= wc (ctx s)
  /\ (interrupted (ctx s) = 0 \/ interrupted (ctx s) = 1)
  /\ length (tasks s) = n.
Proof.
  intros Hsteps.
  assert (Hinit : wc_ok (initial n)
                  /\ (interrupted (ctx (initial n)) = 0
                      \/ interrupted (ctx (initial n)) = 1)
                  /\ length (tasks (initial n)) = n).
  { split; [|split].
    - unfold wc_ok, initial. cbn [ctx tasks wc sched_ctx_init].
      clear. induction n as [|n IH]; [reflexivity|].
      cbn [replicate nwaiting waiting]. lia.
    - left. reflexivity.
    - simpl. apply length_replicate. }
  remember (initial n) as s0 eqn:E. clear E.
  induction Hsteps as [s | s1 s2 s3 Hstep _ IH].
  - destruct Hinit as (Hwc & Hbit & Hlen).
    split; [exact Hwc|]. split; [|split; assumption].
    unfold wc_ok in Hwc. rewrite Hwc. apply nwaiting_nonneg.
  - apply IH. destruct Hinit as (Hwc & Hbit & Hlen).
    split; [exact (step_wc_ok _ _ Hwc Hstep)|].
    split; [exact (step_flag_bit _ _ Hstep Hbit)|].
    rewrite (step_tasks_length _ _ Hstep). exact Hlen.
Qed.

Lemma sched_reachable_invariant_witness :
  let s := call_sleep 1 (call_sleep 0 (initial 3)) in
  steps (initial 3) s /\ wc (ctx s) = 2 /\ wc_ok s.
Proof.
  intros s.
  assert (Hsteps : steps (initial 3) s).
  { eapply steps_cons; [apply (step_sleep 0); reflexivity|].
    eapply steps_cons; [apply (step_sleep 1); reflexivity|].
    apply steps_refl. }
  destruct (sched_reachable_invariant 3 s Hsteps) as (Hwc & _).
  split; [exact Hsteps|]. split; [reflexivity | exact Hwc].
Defined.

Lemma step_stuck_flag s s' :
  wc_ok s /\ nwaiting (tasks s) = 0 /\ interrupted (ctx s) = 1 ->
  step s s' ->
  wc_ok s' /\ nwaiting (tasks s') = 0 /\ interrupted (ctx s') = 1.
Proof.
  intros (Hwc & Hnone & Hflag) Hstep.
  split; [exact (step_wc_ok _ _ Hwc Hstep)|].
  destruct Hstep as [i s Hi | i ret s t Hi Hw | s | s].
  - unfold call_sleep, sched_sleep_enter. rewrite Hflag. simpl.
    rewrite (nwaiting_insert _ _ _ _ Hi). simpl. split; [lia | exact Hflag].
  - pose proof (nwaiting_pos _ _ _ Hi Hw). lia.
  - simpl. rewrite nwaiting_broadcast. split; assumption.
  - simpl. rewrite nwaiting_broadcast. split; [assumption | reflexivity].
Qed.

(** sched_interrupt on a context nobody waits on leaves the flag up for
    good: no later step clears it, nobody can park on the context any
    more, and every later call of sched_sleep returns -1 at once. *)
Theorem sched_interrupt_without_parkers_sticks (s s2 : system) :
  wc_ok s -> nwaiting (tasks s) = 0 ->
  steps (sched_interrupt s) s2 ->
  interrupted (ctx s2) = 1
  /\ nwaiting (tasks s2) = 0
  /\ (forall j, tasks s2 !! j = Some Running ->
                tasks (call_sleep j s2) !! j = Some (Returned (-1))
                /\ ctx (call_sleep j s2) = ctx s2).
Proof.
  intros Hwc Hnone Hsteps.
  assert (Hinv : wc_ok (sched_interrupt s)
                 /\ nwaiting (tasks (sched_interrupt s)) = 0
                 /\ interrupted (ctx (sched_interrupt s)) = 1).
  { unfold wc_ok in *. simpl. rewrite nwaiting_broadcast. auto. }
  remember (sched_interrupt s) as s1 eqn:E. clear E Hwc Hnone s.
  induction Hsteps as [s0 | s1 s2 s3 Hstep _ IH].
  - destruct Hinv as (_ & Hn & Hflag). split; [exact Hflag|].
    split; [exact Hn|]. intros j Hj.
    unfold call_sleep, sched_sleep_enter. rewrite Hflag. simpl.
    split; [|reflexivity].
    apply list_lookup_insert_eq. exact (lookup_lt_Some _ _ _ Hj).
  - apply IH. exact (step_stuck_flag _ _ Hinv Hstep).
Qed.

Lemma sched_interrupt_without_parkers_sticks_witness :
  let s := initial 2 in
  let s2 := call_sleep 0 (sched_interrupt s) in
  interrupted (ctx s2) = 1
  /\ tasks (call_sleep 1 s2) !! 1%nat = Some (Returned (-1)).
Proof.
  intros s s2.
  assert (Hsteps : steps (sched_interrupt s) s2).
  { eapply steps_cons; [apply (step_sleep 0); reflexivity | apply steps_refl]. }
  destruct (sched_interrupt_without_parkers_sticks s s2 eq_refl eq_refl Hsteps)
    as (Hflag & _ & Hsleep).
  split; [exact Hflag|]. exact (proj1 (Hsleep 1%nat eq_refl)).
Defined.

End SchedMore.

(** ** tcp.c: allocation of a PCB *)

Section TableFacts.
Import Timeval Tcp.

Lemma is_state_true a b : is_state a b = true <-> a = b.
Proof.
  unfold is_state. rewrite Z.eqb_eq. split; [|intros ->; reflexivity].
  destruct a, b; simpl; intros H; try reflexivity; discriminate.
Qed.

Lemma is_state_false a b : is_state a b = false <-> a <> b.
Proof.
  rewrite <- is_state_true. destruct (is_state a b); split; congruence.
Qed.

Lemma pcb_alloc_loop_spec ps : forall k,
  match pcb_alloc_loop ps k with
  | Some (i, p, ps') =>
      exists j q,
        i = (k + j)%nat /\ ps !! j = Some q /\ state q = FREE
        /\ (forall j' r, (j' < j)%nat -> ps !! j' = Some r -> state r <> FREE)
        /\ p = set_ctx (Sched.Ctx 0 0) (set_state CLOSED q)
        /\ ps' = <[j := p]> ps
  | None => forall j r, ps !! j = Some r -> state r <> FREE
  end.
Proof.
  induction ps as [|pcb rest IH]; intros k; simpl.
  - intros j r Hj. discriminate.
  - destruct (is_state (state pcb) FREE) eqn:Hfree.
    + apply is_state_true in Hfree.
      exists 0%nat, pcb. repeat split; auto; try lia.
    + apply is_state_false in Hfree. specialize (IH (S k)).
      destruct (pcb_alloc_loop rest (S k)) as [[[i p] rest']|].
      * destruct IH as (j & q & -> & Hj & Hq & Hmin & Hp & Hrest).
        exists (S j), q. repeat split; auto; try lia.
        -- intros [|j'] r Hlt Hr; simpl in Hr.
           ++ injection Hr as <-. exact Hfree.
           ++ apply (Hmin j' r); [lia | exact Hr].
        -- simpl. rewrite Hrest. reflexivity.
      * intros [|j] r Hr; simpl in Hr.
        -- injection Hr as <-. exact Hfree.
        -- exact (IH j r Hr).
Qed.

(** tcp_pcb_alloc on the table of 16 slots takes the first slot in FREE,
    puts it in CLOSED with a fresh scheduling context and touches no other
    slot; the index of that slot is then a valid handle for tcp_pcb_get.
    It gives NULL exactly when no slot is FREE. *)
Theorem tcp_pcb_alloc_spec (ps : list tcp_pcb) :
  Z.of_nat (length ps) = TCP_PCB_SIZE ->
  match tcp_pcb_alloc ps with
  | Some (i, p, ps') =>
      exists q,
        ps !! i = Some q /\ state q = FREE
        /\ (forall j r, (j < i)%nat -> ps !! j = Some r -> state r <> FREE)
        /\ p = set_ctx (Sched.Ctx 0 0) (set_state CLOSED q)
        /\ ps' = <[i := p]> ps
        /\ tcp_pcb_get ps' (Z.of_nat i) = Some (i, p)
  | None => forall j r, ps !! j = Some r -> state r <> FREE
  end.
Proof.
  intros Hlen. unfold tcp_pcb_alloc.
  pose proof (pcb_alloc_loop_spec ps 0) as H.
  destruct (pcb_alloc_loop ps 0) as [[[i p] ps']|]; [|exact H].
  destruct H as (j & q & -> & Hj & Hq & Hmin & Hp & Hps).
  exists q. simpl. repeat split; auto.
  pose proof (lookup_lt_Some _ _ _ Hj) as Hlt.
  unfold tcp_pcb_get, TCP_PCB_SIZE in *.
  destruct (Z.ltb_spec (Z.of_nat j) 0); [lia|].
  destruct (Z.geb_spec (Z.of_nat j) 16); [lia|]. simpl.
  rewrite Nat2Z.id, Hps, list_lookup_insert_eq by exact Hlt.
  rewrite Hp. reflexivity.
Qed.

Lemma tcp_pcb_alloc_spec_witness :
  match tcp_pcb_alloc (Sample.table Sample.established) with
  | Some (i, p, ps') => i = 1%nat /\ state p = CLOSED
  | None => False
  end.
Proof.
  pose proof (tcp_pcb_alloc_spec (Sample.table Sample.established) eq_refl) as H.
  destruct (tcp_pcb_alloc (Sample.table Sample.established))
    as [[[i p] ps']|] eqn:E.
  - destruct H as (q & _ & _ & _ & Hp & _).
    split; [|rewrite Hp; reflexivity].
    vm_compute in E. injection E as <- _ _. reflexivity.
  - vm_compute in E. discriminate.
Defined.

End TableFacts.

(** ** tcp.c: what enters the retransmission queue, and what leaves it *)

Section QueueFacts.
Import Timeval Tcp.

Variable o : oracle.

(** tcp_output hands every segment to tcp_output_segment with the PCB's
    rcv.nxt and rcv.wnd, at sequence number iss when SYN is set and snd.nxt
    otherwise, and changes nothing of the PCB but the retransmission queue.
    A segment without SYN, FIN and data never enters the queue; any other
    segment is put at the tail of the queue when memory is there, with the
    initial rto of 200 ms and first = last = the time of the call. *)
Theorem tcp_output_queue pcb fl payload s :
  let consumes := TCP_FLG_ISSET fl (Z.lor TCP_FLG_SYN TCP_FLG_FIN)
                  || negb (Z.of_nat (length payload) =? 0) in
  let sq := if TCP_FLG_ISSET fl TCP_FLG_SYN then iss pcb else snd_nxt pcb in
  exists r pcb1 s1,
    tcp_output o pcb fl payload s = (r, pcb1, s1)
    /\ pcb1 = set_queue (queue pcb1) pcb
    /\ (exists tr, trace s1
                    = tr ++ [Segment sq (rcv_nxt pcb) fl (rcv_wnd pcb) payload
                                     (local pcb) (foreign pcb)])
    /\ (consumes = false -> queue pcb1 = queue pcb)
    /\ (consumes = true ->
        queue pcb1 = queue pcb
        \/ queue pcb1
           = queue pcb
             ++ [Entry (o_time o (S (ticks s))) (o_time o (S (ticks s)))
                       TCP_DEFAULT_RTO sq fl payload])
    /\ (consumes = true ->
        o_alloc o (ticks s) = true -> o_alloc o (S (S (ticks s))) = true ->
        queue pcb1
        = queue pcb
          ++ [Entry (o_time o (S (ticks s))) (o_time o (S (ticks s)))
                    TCP_DEFAULT_RTO sq fl payload]).
Proof.
  intros consumes sq.
  assert (Heta : pcb = set_queue (queue pcb) pcb) by (destruct pcb; reflexivity).
  unfold tcp_output, tcp_retransmit_queue_add, tcp_output_segment.
  fold consumes. fold sq.
  destruct consumes.
  - destruct (o_alloc o (ticks s)) eqn:Ha1; cbn [negb].
    + cbn [tick ticks].
      destruct (o_alloc o (S (S (ticks s)))) eqn:Ha2; cbn [negb].
      * destruct (o_ip_output o _);
          (eexists _, _, _;
           split; [reflexivity|]; split; [reflexivity|];
           split; [eexists; reflexivity|]; split; [discriminate|];
           split; [intros _; right; reflexivity
                  | intros _ _ _; reflexivity]).
      * destruct (o_ip_output o _);
          (eexists _, _, _;
           split; [reflexivity|]; split; [exact Heta|];
           split; [eexists; reflexivity|]; split; [discriminate|];
           split; [intros _; left; reflexivity
                  | intros _ _ H2; discriminate H2]).
    + destruct (o_ip_output o _);
        (eexists _, _, _;
         split; [reflexivity|]; split; [exact Heta|];
         split; [eexists; reflexivity|]; split; [discriminate|];
         split; [intros _; left; reflexivity
                | intros _ H1 _; discriminate H1]).
  - destruct (o_ip_output o _);
      (eexists _, _, _;
       split; [reflexivity|]; split; [exact Heta|];
       split; [eexists; reflexivity|]; split; [reflexivity|];
       split; intros H; discriminate H).
Qed.

Lemma queue_cleanup_all_above una q :
  Forall (fun e => una <= seq e) q -> queue_cleanup una q = q.
Proof.
  intros H. destruct H as [|e rest He Hrest]; [reflexivity|]. simpl.
  destruct (Z.geb_spec (seq e) una); [reflexivity | lia].
Qed.

(** On a queue held in the order of the sequence numbers,
    tcp_retransmit_queue_cleanup drops exactly the entries below snd.una
    and keeps the others in their order. *)
Theorem queue_cleanup_sorted una q :
  queue_sorted q ->
  queue_cleanup una q = List.filter (fun e => seq e >=? una) q
  /\ Forall (fun e => una <= seq e) (queue_cleanup una q).
Proof.
  induction q as [|e rest IH]; intros Hs.
  - split; [reflexivity | constructor].
  - destruct Hs as [Hle Hs]. cbn [queue_cleanup List.filter].
    destruct (Z.geb_spec (seq e) una) as [Hge|Hlt].
    + assert (Hall : Forall (fun e' => una <= seq e') rest).
      { eapply Forall_impl; [exact Hle|]. simpl. intros e' He'. lia. }
      split.
      * f_equal. rewrite <- (proj1 (IH Hs)). symmetry.
        exact (queue_cleanup_all_above una rest Hall).
      * constructor; [lia | exact Hall].
    + exact (IH Hs).
Qed.

End QueueFacts.

Lemma queue_cleanup_sorted_witness :
  Tcp.queue_cleanup 2000 [Sample.in_flight; Sample.in_flight_next]
  = [Sample.in_flight_next].
Proof.
  destruct (queue_cleanup_sorted 2000 [Sample.in_flight; Sample.in_flight_next])
    as [H _].
  - simpl. repeat constructor; simpl; lia.
  - rewrite H. reflexivity.
Defined.

(** ** tcp.c: segment arrival, state by state *)

Section ArrivalMore.
Import Timeval Tcp.

Variable o : oracle.

(** A segment without SYN, FIN and data leaves the PCB as it is. *)
Lemma tcp_output_bare pcb fl s :
  TCP_FLG_ISSET fl TCP_FLG_SYN = false ->
  TCP_FLG_ISSET fl (Z.lor TCP_FLG_SYN TCP_FLG_FIN) = false ->
  tcp_output o pcb fl [] s
  = (fst (tcp_output_segment o (snd_nxt pcb) (rcv_nxt pcb) fl (rcv_wnd pcb) []
            (local pcb) (foreign pcb) s),
     pcb,
     tick (emit (Segment (snd_nxt pcb) (rcv_nxt pcb) fl (rcv_wnd pcb) []
                   (local pcb) (foreign pcb)) s)).
Proof.
  intros Hsyn Hsf. unfold tcp_output. rewrite Hsyn, Hsf.
  change (false || negb (Z.of_nat (length (@nil byte)) =? 0)) with false.
  cbv iota beta.
  unfold tcp_output_segment. destruct (o_ip_output o (ticks s)); reflexivity.
Qed.

(** No segment moves a PCB out of CLOSING or TIME_WAIT, or changes it in
    any way: in these two states no segment is acceptable, so every
    segment without RST is answered with a bare ACK and every segment with
    RST is dropped. *)
Theorem arrives_pcb_closing_time_wait seg flags payload len lo fo pcb s :
  state pcb = CLOSING \/ state pcb = TIME_WAIT ->
  arrives_pcb o seg flags payload len lo fo pcb s
  = Some (pcb,
          if TCP_FLG_ISSET flags TCP_FLG_RST then s
          else tick (emit (Segment (snd_nxt pcb) (rcv_nxt pcb) TCP_FLG_ACK
                             (rcv_wnd pcb) [] (local pcb) (foreign pcb)) s)).
Proof.
  intros Hst. unfold arrives_pcb, acceptable_in_state.
  destruct Hst as [-> | ->]; cbn [negb];
    destruct (TCP_FLG_ISSET flags TCP_FLG_RST); cbn [negb];
    try reflexivity;
    rewrite tcp_output_bare by reflexivity; reflexivity.
Qed.

Lemma tcp_segment_arrives_selected seg flags payload len lo fo w i pcb :
  tcp_pcb_select (pcbs w) lo (Some fo) = Some (i, pcb) ->
  state pcb <> CLOSED ->
  tcp_segment_arrives o seg flags payload len lo fo w
  = match arrives_pcb o seg flags payload len lo fo pcb (env w) with
    | None => None
    | Some (p, s) => Some (put i p s w)
    end.
Proof.
  intros Hsel Hst. unfold tcp_segment_arrives. rewrite Hsel.
  apply is_state_false in Hst. rewrite Hst.
  destruct (arrives_pcb o seg flags payload len lo fo pcb (env w))
    as [[p s]|]; reflexivity.
Qed.

(** The ACK block when the acknowledgement is not beyond snd.nxt: the
    function goes on, and nothing but the send variables and the
    retransmission queue has changed. *)
Lemma ack_update_goes_on seg pcb s :
  seg_ack seg <= snd_nxt pcb ->
  exists p1,
    ack_update o seg pcb s = Continue p1 s
    /\ state p1 = state pcb /\ rcv_nxt p1 = rcv_nxt pcb
    /\ rcv_wnd p1 = rcv_wnd pcb /\ buf p1 = buf pcb
    /\ local p1 = local pcb /\ foreign p1 = foreign pcb
    /\ snd_nxt p1 = snd_nxt pcb /\ ctx p1 = ctx pcb
    /\ (snd_una pcb < seg_ack seg -> snd_una p1 = seg_ack seg)
    /\ (seg_ack seg <= snd_una pcb -> p1 = pcb).
Proof.
  intros Hack. unfold ack_update.
  destruct (Z.ltb_spec (snd_una pcb) (seg_ack seg)) as [Hnew|Hold].
  - destruct (Z.leb_spec (seg_ack seg) (snd_nxt pcb)) as [_|Hgt]; [|lia].
    cbn [andb]. cbv zeta.
    destruct ((snd_wl1 (tcp_retransmit_queue_cleanup
                          (set_snd_una (seg_ack seg) pcb)) <? seg_seq seg)
              || _);
      eexists; (split; [reflexivity|]); repeat split; intros; try lia.
  - cbn [andb].
    destruct (Z.ltb_spec (seg_ack seg) (snd_una pcb)).
    + exists pcb. repeat split; intros; lia.
    + destruct (Z.gtb_spec (seg_ack seg) (snd_nxt pcb)); [lia|].
      exists pcb. repeat split; intros; lia.
Qed.

Lemma buf_write_fits (b src : list byte) off :
  0 <= off ->
  off + Z.of_nat (length src) <= Z.of_nat (length b) ->
  buf_write b off src (Z.of_nat (length src))
  = Some (firstn (Z.to_nat off) b ++ src
          ++ skipn (Z.to_nat (off + Z.of_nat (length src))) b).
Proof.
  intros Hoff Hfit. unfold buf_write.
  destruct (Z.leb_spec (Z.of_nat (length src)) (Z.of_nat (length src)));
    [|lia].
  destruct (Z.leb_spec (off + Z.of_nat (length src)) (Z.of_nat (length b)));
    [|lia].
  cbn [andb]. rewrite Nat2Z.id, firstn_all. reflexivity.
Qed.

(** A data segment that starts at rcv.nxt and fits the window, in
    ESTABLISHED: its bytes are stored behind the bytes already buffered,
    rcv.nxt and rcv.wnd move by its length, and <ACK=rcv.nxt> with the new
    window goes out before the receivers are woken. *)
Lemma arrives_pcb_data seg flags payload lo fo pcb s :
  state pcb = ESTABLISHED ->
  TCP_FLG_ISSET flags TCP_FLG_RST = false ->
  TCP_FLG_ISSET flags TCP_FLG_SYN = false ->
  TCP_FLG_ISSET flags TCP_FLG_FIN = false ->
  TCP_FLG_ISSET flags TCP_FLG_ACK = true ->
  seg_seq seg = rcv_nxt pcb ->
  seg_len seg = Z.of_nat (length payload) ->
  seg_ack seg <= snd_nxt pcb ->
  0 < Z.of_nat (length payload) <= rcv_wnd pcb ->
  rcv_wnd pcb <= BUF_SIZE ->
  Z.of_nat (length (buf pcb)) = BUF_SIZE ->
  0 <= rcv_nxt pcb -> rcv_nxt pcb + rcv_wnd pcb < 4294967296 ->
  let n := Z.of_nat (length payload) in
  let used := BUF_SIZE - rcv_wnd pcb in
  exists p',
    arrives_pcb o seg flags payload n lo fo pcb s
    = Some (p',
            emit Wakeup
              (tick (emit (Segment (snd_nxt pcb) (rcv_nxt pcb + n)
                             TCP_FLG_ACK (rcv_wnd pcb - n) []
                             (local pcb) (foreign pcb)) s)))
    /\ state p' = ESTABLISHED
    /\ rcv_nxt p' = rcv_nxt pcb + n
    /\ rcv_wnd p' = rcv_wnd pcb - n
    /\ buf p' = firstn (Z.to_nat used) (buf pcb) ++ payload
                ++ skipn (Z.to_nat (used + n)) (buf pcb)
    /\ ctx p' = ctx pcb.
Proof.
  intros Hst Hrst Hsyn Hfin Hack Hseq Hlen Hackno Hn Hwnd Hbuf Hnxt Hwrap n used.
  unfold BUF_SIZE in *.
  assert (Hacc : acceptable_in_state seg pcb = true).
  { unfold acceptable_in_state, seg_acceptable. rewrite Hst, Hlen, Hseq.
    destruct (Z.eqb_spec (Z.of_nat (length payload)) 0); [lia|].
    destruct (Z.eqb_spec (rcv_wnd pcb) 0); [lia|].
    unfold u32. rewrite (Z.mod_small (rcv_nxt pcb + rcv_wnd pcb)) by lia.
    destruct (Z.leb_spec (rcv_nxt pcb) (rcv_nxt pcb)); [|lia].
    destruct (Z.ltb_spec (rcv_nxt pcb) (rcv_nxt pcb + rcv_wnd pcb)); [|lia].
    reflexivity. }
  destruct (ack_update_goes_on seg pcb s Hackno)
    as (p1 & Hup & Hst1 & Hn1 & Hw1 & Hb1 & Hlo1 & Hfo1 & Hsn1 & Hc1 & _).
  unfold arrives_pcb. rewrite Hst, Hacc, Hrst, Hsyn, Hack. cbn [negb].
  unfold arrives_ack. rewrite Hst. unfold ack_synchronized. rewrite Hup.
  assert (Hfw : match state p1 with
                | FIN_WAIT1 =>
                    if seg_ack seg =? snd_nxt p1
                    then Continue (set_state FIN_WAIT2 p1) s
                    else Continue p1 s
                | _ => Continue p1 s
                end = Continue p1 s)
    by (rewrite Hst1, Hst; reflexivity).
  rewrite Hfw. unfold arrives_text. rewrite Hst1, Hst.
  fold n. destruct (Z.eqb_spec n 0) as [E|_]; [unfold n in E; lia|].
  assert (Hu : u64 (BUF_SIZE - rcv_wnd p1) = used)
    by (unfold u64, BUF_SIZE, used; rewrite Hw1; apply Z.mod_small; lia).
  rewrite Hu. unfold n.
  rewrite buf_write_fits by (unfold used; rewrite ?Hb1; lia).
  fold n. cbv zeta. rewrite tcp_output_bare by reflexivity.
  unfold arrives_fin. rewrite Hfin.
  cbn [snd_nxt rcv_nxt rcv_wnd local foreign set_buf set_rcv_nxt set_rcv_wnd].
  assert (Hrn : u32 (seg_seq seg + seg_len seg) = rcv_nxt pcb + n)
    by (rewrite Hseq, Hlen; fold n; unfold u32; apply Z.mod_small; unfold n; lia).
  assert (Hrw : u16 (rcv_wnd p1 - n) = rcv_wnd pcb - n)
    by (rewrite Hw1; unfold u16; apply Z.mod_small; unfold n; lia).
  rewrite Hrn, Hrw, Hsn1, Hlo1, Hfo1.
  eexists. split; [reflexivity|].
  cbn [state rcv_nxt rcv_wnd buf ctx set_buf set_rcv_nxt set_rcv_wnd].
  rewrite Hb1. repeat split; auto. congruence.
Qed.

(** Data that arrives in order is read back in order.  For the PCB
    selected for the segment, in ESTABLISHED, a data segment that starts at
    rcv.nxt and fits the window is stored, and a following tcp_receive with
    room for everything returns the bytes that were buffered before,
    followed by the bytes of the segment, and opens the window again to
    the whole buffer. *)
Theorem tcp_segment_text_then_receive seg flags payload lo fo w id i pcb size :
  tcp_pcb_select (pcbs w) lo (Some fo) = Some (i, pcb) ->
  tcp_pcb_get (pcbs w) id = Some (i, pcb) ->
  state pcb = ESTABLISHED ->
  TCP_FLG_ISSET flags TCP_FLG_RST = false ->
  TCP_FLG_ISSET flags TCP_FLG_SYN = false ->
  TCP_FLG_ISSET flags TCP_FLG_FIN = false ->
  TCP_FLG_ISSET flags TCP_FLG_ACK = true ->
  seg_seq seg = rcv_nxt pcb ->
  seg_len seg = Z.of_nat (length payload) ->
  seg_ack seg <= snd_nxt pcb ->
  0 < Z.of_nat (length payload) <= rcv_wnd pcb ->
  rcv_wnd pcb <= BUF_SIZE ->
  Z.of_nat (length (buf pcb)) = BUF_SIZE ->
  0 <= rcv_nxt pcb -> rcv_nxt pcb + rcv_wnd pcb < 4294967296 ->
  BUF_SIZE <= size ->
  let n := Z.of_nat (length payload) in
  let used := BUF_SIZE - rcv_wnd pcb in
  exists w1 w2 p2,
    tcp_segment_arrives o seg flags payload n lo fo w = Some w1
    /\ tcp_receive id size w1
       = Ret (used + n) (firstn (Z.to_nat used) (buf pcb) ++ payload) w2
    /\ pcbs w2 !! i = Some p2
    /\ rcv_wnd p2 = BUF_SIZE /\ rcv_nxt p2 = rcv_nxt pcb + n.
Proof.
  intros Hsel Hget Hst Hrst Hsyn Hfin Hack Hseq Hlen Hackno Hn Hwnd Hbuf
         Hnxt Hwrap Hsize n used.
  destruct (arrives_pcb_data seg flags payload lo fo pcb (env w) Hst Hrst Hsyn
              Hfin Hack Hseq Hlen Hackno Hn Hwnd Hbuf Hnxt Hwrap)
    as (p' & Harr & Hst' & Hn' & Hw' & Hb' & Hc').
  fold n in Harr, Hn', Hw', Hb'. fold used in Hb'.
  destruct (tcp_pcb_get_lookup _ _ _ _ Hget) as (Hi & Hfree & Hid & Hiz).
  pose proof (lookup_lt_Some _ _ _ Hi) as Hlt.
  rewrite (tcp_segment_arrives_selected seg flags payload n lo fo w i pcb Hsel)
    by (rewrite Hst; discriminate).
  rewrite Harr.
  eexists. eexists.
  exists (set_rcv_wnd (rcv_wnd p' + Z.min size (used + n))
            (set_buf
               (firstn (Z.to_nat (used + n - Z.min size (used + n)))
                  (skipn (Z.to_nat (Z.min size (used + n))) (buf p'))
                ++ skipn (Z.to_nat (used + n - Z.min size (used + n))) (buf p'))
               p')).
  split; [reflexivity|].
  unfold BUF_SIZE in *.
  assert (Hmin : Z.min size (used + n) = used + n)
    by (unfold used, n in *; lia).
  assert (Hlenb : Z.of_nat (length (buf p')) = 16).
  { rewrite Hb', !length_app, length_firstn, length_skipn.
    unfold used, n in *. lia. }
  unfold tcp_receive, tcp_pcb_get, put. cbn [pcbs env].
  destruct (Z.ltb_spec id 0); [lia|].
  destruct (Z.geb_spec id TCP_PCB_SIZE); [unfold TCP_PCB_SIZE in *; lia|].
  cbn [orb]. rewrite <- Hiz.
  rewrite list_lookup_insert_eq by exact Hlt.
  rewrite Hst'. cbn [is_state state_code Z.eqb].
  unfold tcp_receive_retry. cbn [pcbs env].
  rewrite list_lookup_insert_eq by exact Hlt.
  rewrite Hst'.
  assert (Hu : u64 (BUF_SIZE - rcv_wnd p') = used + n).
  { unfold u64, BUF_SIZE. rewrite Hw'.
    replace (16 - (rcv_wnd pcb - n)) with (used + n) by (unfold used; lia).
    apply Z.mod_small. unfold used, n in *. lia. }
  rewrite Hu.
  destruct (Z.eqb_spec (used + n) 0); [unfold used, n in *; lia|].
  unfold receive_copy.
  destruct (Z.leb_spec (used + n) (Z.of_nat (length (buf p'))));
    [|unfold used, n in *; lia].
  assert (Hu16 : forall b, u16 (rcv_wnd (set_buf b p') + Z.min size (used + n))
                           = rcv_wnd p' + Z.min size (used + n)).
  { intros b. cbn [rcv_wnd set_buf]. rewrite Hmin, Hw'. unfold u16.
    apply Z.mod_small. unfold used, n in *. lia. }
  rewrite Hu16. unfold put. cbn [pcbs env]. rewrite list_insert_insert_eq.
  split; [|split; [|split]].
  - f_equal; [exact Hmin|]. rewrite Hmin, Hb'.
    rewrite firstn_app.
    replace (Z.to_nat (used + n) - length (firstn (Z.to_nat used) (buf pcb)))%nat
      with (length payload)
      by (rewrite length_firstn; unfold used, n in *; lia).
    rewrite firstn_app, firstn_all, Nat.sub_diag. cbn [firstn].
    rewrite app_nil_r. f_equal.
    apply firstn_all2. rewrite length_firstn. unfold used, n in *. lia.
  - apply list_lookup_insert_eq. exact Hlt.
  - cbn [rcv_wnd set_rcv_wnd]. rewrite Hmin, Hw'. unfold used. lia.
  - cbn [rcv_nxt set_rcv_wnd set_buf]. exact Hn'.
Qed.

(** A segment with FIN and without data that starts at rcv.nxt, in
    ESTABLISHED with an open window: rcv.nxt moves past the FIN, the ACK
    goes out, the PCB enters CLOSE_WAIT and the receivers are woken. *)
Lemma arrives_pcb_fin_established seg flags lo fo pcb s :
  state pcb = ESTABLISHED ->
  TCP_FLG_ISSET flags TCP_FLG_RST = false ->
  TCP_FLG_ISSET flags TCP_FLG_SYN = false ->
  TCP_FLG_ISSET flags TCP_FLG_FIN = true ->
  TCP_FLG_ISSET flags TCP_FLG_ACK = true ->
  seg_seq seg = rcv_nxt pcb -> seg_len seg = 1 ->
  seg_ack seg <= snd_nxt pcb ->
  0 < rcv_wnd pcb ->
  0 <= rcv_nxt pcb -> rcv_nxt pcb + rcv_wnd pcb < 4294967296 ->
  exists p',
    arrives_pcb o seg flags [] 0 lo fo pcb s
    = Some (p',
            emit Wakeup
              (tick (emit (Segment (snd_nxt pcb) (rcv_nxt pcb + 1)
                             TCP_FLG_ACK (rcv_wnd pcb) []
                             (local pcb) (foreign pcb)) s)))
    /\ state p' = CLOSE_WAIT
    /\ rcv_nxt p' = rcv_nxt pcb + 1
    /\ rcv_wnd p' = rcv_wnd pcb
    /\ buf p' = buf pcb.
Proof.
  intros Hst Hrst Hsyn Hfin Hack Hseq Hlen Hackno Hwnd Hnxt Hwrap.
  assert (Hacc : acceptable_in_state seg pcb = true).
  { unfold acceptable_in_state, seg_acceptable. rewrite Hst, Hlen, Hseq.
    cbn [Z.eqb].
    destruct (Z.eqb_spec (rcv_wnd pcb) 0); [lia|].
    unfold u32. rewrite (Z.mod_small (rcv_nxt pcb + rcv_wnd pcb)) by lia.
    destruct (Z.leb_spec (rcv_nxt pcb) (rcv_nxt pcb)); [|lia].
    destruct (Z.ltb_spec (rcv_nxt pcb) (rcv_nxt pcb + rcv_wnd pcb)); [|lia].
    reflexivity. }
  destruct (ack_update_goes_on seg pcb s Hackno)
    as (p1 & Hup & Hst1 & Hn1 & Hw1 & Hb1 & Hlo1 & Hfo1 & Hsn1 & Hc1 & _).
  unfold arrives_pcb. rewrite Hst, Hacc, Hrst, Hsyn, Hack. cbn [negb].
  unfold arrives_ack. rewrite Hst. unfold ack_synchronized. rewrite Hup.
  assert (Hfw : match state p1 with
                | FIN_WAIT1 =>
                    if seg_ack seg =? snd_nxt p1
                    then Continue (set_state FIN_WAIT2 p1) s
                    else Continue p1 s
                | _ => Continue p1 s
                end = Continue p1 s)
    by (rewrite Hst1, Hst; reflexivity).
  rewrite Hfw. unfold arrives_text. rewrite Hst1, Hst. cbn [Z.eqb].
  unfold arrives_fin. rewrite Hfin, Hst1, Hst. cbv zeta.
  rewrite tcp_output_bare by reflexivity.
  cbn [state snd_nxt rcv_nxt rcv_wnd local foreign set_rcv_nxt].
  rewrite Hst1, Hst.
  assert (Hrn : u32 (seg_seq seg + 1) = rcv_nxt pcb + 1)
    by (rewrite Hseq; unfold u32; apply Z.mod_small; lia).
  rewrite Hrn, Hw1, Hsn1, Hlo1, Hfo1.
  eexists. split; [reflexivity|].
  cbn [state rcv_nxt rcv_wnd buf set_state set_rcv_nxt]. auto.
Qed.

(** End of stream.  When the peer's FIN arrives in order on an
    ESTABLISHED connection whose receive buffer is empty, the PCB enters
    CLOSE_WAIT and the next tcp_receive returns 0. *)
Theorem tcp_segment_fin_then_receive seg flags lo fo w id i pcb size :
  tcp_pcb_select (pcbs w) lo (Some fo) = Some (i, pcb) ->
  tcp_pcb_get (pcbs w) id = Some (i, pcb) ->
  state pcb = ESTABLISHED ->
  TCP_FLG_ISSET flags TCP_FLG_RST = false ->
  TCP_FLG_ISSET flags TCP_FLG_SYN = false ->
  TCP_FLG_ISSET flags TCP_FLG_FIN = true ->
  TCP_FLG_ISSET flags TCP_FLG_ACK = true ->
  seg_seq seg = rcv_nxt pcb -> seg_len seg = 1 ->
  seg_ack seg <= snd_nxt pcb ->
  rcv_wnd pcb = BUF_SIZE ->
  0 <= rcv_nxt pcb -> rcv_nxt pcb + rcv_wnd pcb < 4294967296 ->
  exists w1 p1,
    tcp_segment_arrives o seg flags [] 0 lo fo w = Some w1
    /\ pcbs w1 !! i = Some p1
    /\ state p1 = CLOSE_WAIT
    /\ rcv_nxt p1 = rcv_nxt pcb + 1
    /\ In (Segment (snd_nxt pcb) (rcv_nxt pcb + 1) TCP_FLG_ACK (rcv_wnd pcb)
                   [] (local pcb) (foreign pcb)) (trace (env w1))
    /\ tcp_receive id size w1 = Ret 0 [] w1.
Proof.
  intros Hsel Hget Hst Hrst Hsyn Hfin Hack Hseq Hlen Hackno Hwnd Hnxt Hwrap.
  destruct (arrives_pcb_fin_established seg flags lo fo pcb (env w) Hst Hrst
              Hsyn Hfin Hack Hseq Hlen Hackno
              ltac:(rewrite Hwnd; unfold BUF_SIZE; lia) Hnxt Hwrap)
    as (p' & Harr & Hst' & Hn' & Hw' & Hb').
  destruct (tcp_pcb_get_lookup _ _ _ _ Hget) as (Hi & Hfree & Hid & Hiz).
  pose proof (lookup_lt_Some _ _ _ Hi) as Hlt.
  rewrite (tcp_segment_arrives_selected seg flags [] 0 lo fo w i pcb Hsel)
    by (rewrite Hst; discriminate).
  rewrite Harr. eexists. exists p'. split; [reflexivity|].
  unfold put. cbn [pcbs env trace emit tick].
  split; [apply list_lookup_insert_eq; exact Hlt|].
  split; [exact Hst'|]. split; [exact Hn'|]. split.
  - apply in_or_app. left. apply in_or_app. right. left. reflexivity.
  - unfold tcp_receive, tcp_pcb_get. cbn [pcbs env].
    destruct (Z.ltb_spec id 0); [lia|].
    destruct (Z.geb_spec id TCP_PCB_SIZE); [lia|].
    cbn [orb]. rewrite <- Hiz.
    rewrite list_lookup_insert_eq by exact Hlt.
    rewrite Hst'. cbn [is_state state_code Z.eqb].
    unfold tcp_receive_retry. cbn [pcbs env].
    rewrite list_lookup_insert_eq by exact Hlt.
    rewrite Hst', Hw', Hwnd. reflexivity.
Qed.

End ArrivalMore.

Lemma tcp_segment_text_then_receive_witness :
  let o := Sample.calm (Timeval.Tv 1 0) in
  let w := Tcp.World (Sample.table Sample.established) Sample.quiet in
  exists w1 w2 p2,
    Tcp.tcp_segment_arrives o (Tcp.Seg 1000 2000 10 16 0) Tcp.ACK_PSH
      Sample.digits 10 Sample.here Sample.peer w = Some w1
    /\ Tcp.tcp_receive 0 16 w1 = Tcp.Ret 10 Sample.digits w2
    /\ Tcp.pcbs w2 !! 0%nat = Some p2
    /\ Tcp.rcv_wnd p2 = 16 /\ Tcp.rcv_nxt p2 = 1010.
Proof.
  intros o w.
  apply (tcp_segment_text_then_receive o (Tcp.Seg 1000 2000 10 16 0)
           Tcp.ACK_PSH Sample.digits Sample.here Sample.peer w 0 0
           Sample.established 16);
    try reflexivity; simpl; unfold Tcp.BUF_SIZE; lia.
Defined.

Lemma tcp_segment_fin_then_receive_witness :
  let o := Sample.calm (Timeval.Tv 1 0) in
  let w := Tcp.World (Sample.table Sample.established) Sample.quiet in
  exists w1 p1,
    Tcp.tcp_segment_arrives o (Tcp.Seg 1000 2000 1 16 0) Tcp.FIN_ACK
      [] 0 Sample.here Sample.peer w = Some w1
    /\ Tcp.pcbs w1 !! 0%nat = Some p1
    /\ Tcp.state p1 = Tcp.CLOSE_WAIT
    /\ Tcp.rcv_nxt p1 = 1001
    /\ In (Tcp.Segment 2000 1001 Tcp.TCP_FLG_ACK 16 [] Sample.here Sample.peer)
          (Tcp.trace (Tcp.env w1))
    /\ Tcp.tcp_receive 0 16 w1 = Tcp.Ret 0 [] w1.
Proof.
  intros o w.
  apply (tcp_segment_fin_then_receive o (Tcp.Seg 1000 2000 1 16 0)
           Tcp.FIN_ACK Sample.here Sample.peer w 0 0 Sample.established 16);
    try reflexivity; simpl; lia.
Defined.

Lemma arrives_pcb_closing_time_wait_witness :
  let pcb := Tcp.set_state Tcp.CLOSING Sample.established in
  Tcp.arrives_pcb (Sample.calm (Timeval.Tv 1 0)) (Tcp.Seg 1000 2000 0 16 0)
    Tcp.TCP_FLG_ACK [] 0 Sample.here Sample.peer pcb Sample.quiet
  = Some (pcb,
          Tcp.Env [Tcp.Segment 2000 1000 Tcp.TCP_FLG_ACK 16 []
                     Sample.here Sample.peer] 1).
Proof.
  intros pcb.
  rewrite (arrives_pcb_closing_time_wait (Sample.calm (Timeval.Tv 1 0))
             (Tcp.Seg 1000 2000 0 16 0) Tcp.TCP_FLG_ACK [] 0
             Sample.here Sample.peer pcb Sample.quiet (or_introl eq_refl)).
  reflexivity.
Defined.

(** ** tcp.c: the selection after a PCB has changed *)

Section SelectMore.
Import Tcp.

Variables (lo fo : ip_endpoint).

Lemma tcp_pcb_select_lookup ps i pcb :
  tcp_pcb_select ps lo (Some fo) = Some (i, pcb) ->
  ps !! i = Some pcb
  /\ forall j p, (j < i)%nat -> ps !! j = Some p -> full_match lo fo p = false.
Proof.
  unfold tcp_pcb_select. intros H.
  pose proof (pcb_select_loop_spec lo fo ps 0 None) as S. rewrite H in S.
  destruct S as [(j & -> & Hj & Hfull & Hmin)
                | (Hno & [(j & -> & Hj & Hw & Hmax) | (Habs & _)])].
  - split; [exact Hj | exact Hmin].
  - split; [exact Hj|]. intros j' p _ Hp. exact (Hno j' p Hp).
  - discriminate.
Qed.

(** A PCB that matches the pair fully stays the selected one when it is
    written back to its slot. *)
Lemma tcp_pcb_select_update ps i pcb p :
  tcp_pcb_select ps lo (Some fo) = Some (i, pcb) ->
  full_match lo fo p = true ->
  tcp_pcb_select (<[i := p]> ps) lo (Some fo) = Some (i, p).
Proof.
  intros Hsel Hp. destruct (tcp_pcb_select_lookup _ _ _ Hsel) as [Hi Hmin].
  pose proof (lookup_lt_Some _ _ _ Hi) as Hlt.
  unfold tcp_pcb_select.
  pose proof (pcb_select_loop_spec lo fo (<[i := p]> ps) 0 None) as S.
  destruct (pcb_select_loop (<[i := p]> ps) 0 lo (Some fo) None) as [[i' q]|].
  - destruct S as [(j & -> & Hj & Hfull & Hmin') | (Hno & _)].
    + simpl. destruct (lt_eq_lt_dec j i) as [[Hlt'|Heq]|Hgt].
      * rewrite list_lookup_insert_ne in Hj by lia.
        rewrite (Hmin j q Hlt' Hj) in Hfull. discriminate.
      * subst j. rewrite list_lookup_insert_eq in Hj by exact Hlt.
        injection Hj as <-. reflexivity.
      * specialize (Hmin' i p Hgt).
        rewrite list_lookup_insert_eq in Hmin' by exact Hlt.
        rewrite Hmin' in Hp by reflexivity. discriminate.
    + specialize (Hno i p).
      rewrite list_lookup_insert_eq in Hno by exact Hlt.
      rewrite Hno in Hp by reflexivity. discriminate.
  - destruct S as [_ Hnone]. specialize (Hnone i p).
    rewrite list_lookup_insert_eq in Hnone by exact Hlt.
    destruct Hnone as [Hnone _]; [reflexivity|].
    rewrite Hnone in Hp. discriminate.
Qed.

Lemma full_match_fields p q :
  local p = local q -> foreign p = foreign q ->
  full_match lo fo p = full_match lo fo q.
Proof.
  intros Hl Hf. unfold full_match, local_match, foreign_match.
  rewrite Hl, Hf. reflexivity.
Qed.

End SelectMore.

(** ** tcp.c: closing a connection *)

Section CloseFacts.
Import Timeval Tcp.

Variable o : oracle.

Lemma fin_ack_flags :
  TCP_FLG_ISSET FIN_ACK TCP_FLG_SYN = false
  /\ TCP_FLG_ISSET FIN_ACK (Z.lor TCP_FLG_SYN TCP_FLG_FIN) = true.
Proof. split; reflexivity. Qed.

(** tcp_output(pcb, ACK | FIN, NULL, 0): the segment goes out at snd.nxt,
    whatever the retransmission queue and ip_output answer. *)
Lemma tcp_output_fin pcb s :
  exists r q s1 tr,
    tcp_output o pcb FIN_ACK [] s = (r, set_queue q pcb, s1)
    /\ trace s1 = trace s ++ tr
                  ++ [Segment (snd_nxt pcb) (rcv_nxt pcb) FIN_ACK (rcv_wnd pcb)
                              [] (local pcb) (foreign pcb)]
    /\ (o_alloc o (ticks s) = true -> o_alloc o (S (S (ticks s))) = true ->
        q = queue pcb
            ++ [Entry (o_time o (S (ticks s))) (o_time o (S (ticks s)))
                      TCP_DEFAULT_RTO (snd_nxt pcb) FIN_ACK []]).
Proof.
  assert (Heta : pcb = set_queue (queue pcb) pcb) by (destruct pcb; reflexivity).
  unfold tcp_output, tcp_retransmit_queue_add, tcp_output_segment.
  destruct fin_ack_flags as [-> ->]. cbn [orb].
  destruct (o_alloc o (ticks s)) eqn:Ha1; cbn [negb].
  - cbn [tick ticks].
    destruct (o_alloc o (S (S (ticks s)))) eqn:Ha2; cbn [negb].
    + destruct (o_ip_output o _);
        (eexists _, _, _, []; split; [reflexivity|];
         split; [reflexivity | intros _ _; reflexivity]).
    + destruct (o_ip_output o _);
        (eexists _, (queue pcb), _, [Errorf _];
         split; [rewrite <- Heta; reflexivity|];
         split; [cbn [trace emit tick]; rewrite <- app_assoc; reflexivity
                | intros _ H2; discriminate H2]).
  - destruct (o_ip_output o _);
      (eexists _, (queue pcb), _, [Errorf _];
       split; [rewrite <- Heta; reflexivity|];
       split; [cbn [trace emit tick]; rewrite <- app_assoc; reflexivity
              | intros H1 _; discriminate H1]).
Qed.

(** tcp_close returns 0 exactly when the handle names a PCB in ESTABLISHED
    or CLOSE_WAIT.  Then <SEQ=snd.nxt><ACK=rcv.nxt><CTL=FIN,ACK> goes out,
    the PCB enters FIN_WAIT1 (from ESTABLISHED) or LAST_ACK (from
    CLOSE_WAIT), snd.nxt moves past the FIN, the sleepers are woken and
    the FIN waits in the retransmission queue when memory is there; this
    holds even when ip_output fails.  In every other case the result is -1
    and the table is as before. *)
Theorem tcp_close_spec id w :
  let r := fst (tcp_close o id w) in
  let w' := snd (tcp_close o id w) in
  match tcp_pcb_get (pcbs w) id with
  | Some (i, pcb) =>
      if is_state (state pcb) ESTABLISHED || is_state (state pcb) CLOSE_WAIT
      then
        exists q tr,
          r = 0
          /\ pcbs w'
             = <[i := set_snd_nxt (u32 (snd_nxt pcb + 1))
                        (set_state (if is_state (state pcb) ESTABLISHED
                                    then FIN_WAIT1 else LAST_ACK)
                           (set_queue q pcb))]> (pcbs w)
          /\ trace (env w')
             = trace (env w) ++ tr
               ++ [Segment (snd_nxt pcb) (rcv_nxt pcb) FIN_ACK (rcv_wnd pcb)
                           [] (local pcb) (foreign pcb); Wakeup]
          /\ (o_alloc o (ticks (env w)) = true ->
              o_alloc o (S (S (ticks (env w)))) = true ->
              q = queue pcb
                  ++ [Entry (o_time o (S (ticks (env w))))
                            (o_time o (S (ticks (env w))))
                            TCP_DEFAULT_RTO (snd_nxt pcb) FIN_ACK []])
      else r = -1 /\ pcbs w' = pcbs w
  | None => r = -1 /\ pcbs w' = pcbs w
  end.
Proof.
  intros r w'. subst r w'. unfold tcp_close.
  destruct (tcp_pcb_get (pcbs w) id) as [[i pcb]|]; [|split; reflexivity].
  destruct (tcp_output_fin pcb (env w)) as (r & q & s1 & tr & Hout & Htr & Hq).
  destruct (state pcb) eqn:Hst; cbn [is_state state_code Z.eqb orb];
    try (split; reflexivity);
    rewrite Hout; cbn [fst snd put pcbs env trace emit];
    exists q, tr;
    (split; [reflexivity|]);
    (split; [reflexivity|]);
    (split; [rewrite Htr, <- !app_assoc; reflexivity | exact Hq]).
Qed.

End CloseFacts.

Section CloseHandshake.
Import Timeval Tcp.

Variable o : oracle.

Lemma tcp_close_put id w i pcb :
  tcp_pcb_get (pcbs w) id = Some (i, pcb) ->
  state pcb = ESTABLISHED \/ state pcb = CLOSE_WAIT ->
  exists q s1,
    tcp_close o id w
    = (0, put i (set_snd_nxt (u32 (snd_nxt pcb + 1))
                   (set_state (if is_state (state pcb) ESTABLISHED
                               then FIN_WAIT1 else LAST_ACK)
                      (set_queue q pcb))) s1 w).
Proof.
  intros Hget Hst. unfold tcp_close. rewrite Hget.
  destruct (tcp_output_fin o pcb (env w)) as (r & q & s1 & tr & Hout & _).
  destruct Hst as [Hst|Hst]; rewrite Hst, Hout;
    eexists q, _; reflexivity.
Qed.

(** The first check for a segment that starts at rcv.nxt. *)
Lemma seg_acceptable_at_rcv_nxt seg pcb :
  seg_seq seg = rcv_nxt pcb ->
  0 <= rcv_nxt pcb -> rcv_nxt pcb + rcv_wnd pcb < 4294967296 ->
  (seg_len seg = 0 /\ 0 <= rcv_wnd pcb) \/ 0 < rcv_wnd pcb ->
  seg_acceptable seg pcb = true.
Proof.
  intros Hseq Hnxt Hwrap Hcase. unfold seg_acceptable. rewrite Hseq.
  cbv zeta.
  destruct (Z.eqb_spec (rcv_wnd pcb) 0) as [Hz|Hnz].
  - destruct Hcase as [[-> _]|]; [|lia]. cbn [Z.eqb]. apply Z.eqb_refl.
  - assert (0 < rcv_wnd pcb) by lia.
    assert (Hw : u32 (rcv_nxt pcb + rcv_wnd pcb) = rcv_nxt pcb + rcv_wnd pcb)
      by (unfold u32; apply Z.mod_small; lia).
    rewrite !Hw.
    destruct (Z.leb_spec (rcv_nxt pcb) (rcv_nxt pcb)); [|lia].
    destruct (Z.ltb_spec (rcv_nxt pcb) (rcv_nxt pcb + rcv_wnd pcb)); [|lia].
    destruct (seg_len seg =? 0); reflexivity.
Qed.

(** The ACK block for an acknowledgement of new data. *)
Lemma ack_update_new seg pcb s :
  snd_una pcb < seg_ack seg <= snd_nxt pcb ->
  exists wnd wl2,
    ack_update o seg pcb s
    = Continue (set_snd_wl2 wl2 (set_snd_wnd wnd
                  (set_queue (queue_cleanup (seg_ack seg) (queue pcb))
                     (set_snd_una (seg_ack seg) pcb)))) s.
Proof.
  intros [Hlo Hhi]. unfold ack_update.
  destruct (Z.ltb_spec (snd_una pcb) (seg_ack seg)); [|lia].
  destruct (Z.leb_spec (seg_ack seg) (snd_nxt pcb)); [|lia].
  cbn [andb]. cbv zeta.
  destruct ((snd_wl1 (tcp_retransmit_queue_cleanup
                        (set_snd_una (seg_ack seg) pcb)) <? seg_seq seg)
            || _).
  - exists (seg_wnd seg), (seg_ack seg). reflexivity.
  - exists (snd_wnd pcb), (snd_wl2 pcb). reflexivity.
Qed.

(** In FIN_WAIT1 the acknowledgement of the FIN leads to FIN_WAIT2 and
    nothing is sent. *)
Lemma arrives_pcb_fin_wait1_ack seg flags payload len lo fo pcb s :
  state pcb = FIN_WAIT1 ->
  TCP_FLG_ISSET flags TCP_FLG_RST = false ->
  TCP_FLG_ISSET flags TCP_FLG_SYN = false ->
  TCP_FLG_ISSET flags TCP_FLG_FIN = false ->
  TCP_FLG_ISSET flags TCP_FLG_ACK = true ->
  seg_seq seg = rcv_nxt pcb -> seg_len seg = 0 ->
  seg_ack seg = snd_nxt pcb -> snd_una pcb < snd_nxt pcb ->
  0 <= rcv_wnd pcb ->
  0 <= rcv_nxt pcb -> rcv_nxt pcb + rcv_wnd pcb < 4294967296 ->
  exists wnd wl2,
    arrives_pcb o seg flags payload len lo fo pcb s
    = Some (set_state FIN_WAIT2
              (set_snd_wl2 wl2 (set_snd_wnd wnd
                 (set_queue (queue_cleanup (snd_nxt pcb) (queue pcb))
                    (set_snd_una (snd_nxt pcb) pcb)))), s).
Proof.
  intros Hst Hrst Hsyn Hfin Hack Hseq Hlen Hackno Huna Hwnd Hnxt Hwrap.
  assert (Hacc : acceptable_in_state seg pcb = true).
  { unfold acceptable_in_state. rewrite Hst.
    apply seg_acceptable_at_rcv_nxt; auto. }
  destruct (ack_update_new seg pcb s ltac:(lia)) as (wnd & wl2 & Hup).
  rewrite Hackno in Hup.
  unfold arrives_pcb. rewrite Hst, Hacc, Hrst, Hsyn, Hack. cbn [negb].
  unfold arrives_ack. rewrite Hst. unfold ack_synchronized. rewrite Hup.
  cbn [state set_snd_wl2 set_snd_wnd set_queue set_snd_una snd_nxt].
  rewrite Hst, Hackno, Z.eqb_refl.
  unfold arrives_text. cbn [state set_state].
  unfold arrives_fin. rewrite Hfin.
  exists wnd, wl2. reflexivity.
Qed.

(** In FIN_WAIT2, or in FIN_WAIT1 when the segment acknowledges the FIN,
    the peer's FIN is acknowledged and TIME_WAIT begins at the time of the
    clock. *)
Lemma arrives_pcb_fin_wait2_fin seg flags payload len lo fo pcb s :
  state pcb = FIN_WAIT2 ->
  TCP_FLG_ISSET flags TCP_FLG_RST = false ->
  TCP_FLG_ISSET flags TCP_FLG_SYN = false ->
  TCP_FLG_ISSET flags TCP_FLG_FIN = true ->
  TCP_FLG_ISSET flags TCP_FLG_ACK = true ->
  seg_seq seg = rcv_nxt pcb ->
  seg_ack seg <= snd_una pcb ->
  snd_una pcb <= snd_nxt pcb ->
  0 < rcv_wnd pcb ->
  0 <= rcv_nxt pcb -> rcv_nxt pcb + rcv_wnd pcb < 4294967296 ->
  arrives_pcb o seg flags payload len lo fo pcb s
  = Some (set_time_wait (o_time o (S (ticks s)))
            (set_state TIME_WAIT (set_rcv_nxt (rcv_nxt pcb + 1) pcb)),
          tick (tick (emit (Segment (snd_nxt pcb) (rcv_nxt pcb + 1)
                              TCP_FLG_ACK (rcv_wnd pcb) []
                              (local pcb) (foreign pcb)) s))).
Proof.
  intros Hst Hrst Hsyn Hfin Hack Hseq Hackno Huna Hwnd Hnxt Hwrap.
  assert (Hacc : acceptable_in_state seg pcb = true).
  { unfold acceptable_in_state. rewrite Hst.
    apply seg_acceptable_at_rcv_nxt; auto. }
  destruct (ack_update_goes_on o seg pcb s ltac:(lia))
    as (p1 & Hup & _ & _ & _ & _ & _ & _ & _ & _ & _ & Hsame).
  rewrite (Hsame Hackno) in Hup.
  unfold arrives_pcb. rewrite Hst, Hacc, Hrst, Hsyn, Hack. cbn [negb].
  unfold arrives_ack. rewrite Hst. unfold ack_synchronized. rewrite Hup, Hst.
  unfold arrives_text. rewrite Hst.
  unfold arrives_fin. rewrite Hfin, Hst. cbv zeta.
  rewrite tcp_output_bare by reflexivity.
  cbn [state snd_nxt rcv_nxt rcv_wnd local foreign set_rcv_nxt].
  rewrite Hst.
  assert (Hrn : u32 (seg_seq seg + 1) = rcv_nxt pcb + 1)
    by (rewrite Hseq; unfold u32; apply Z.mod_small; lia).
  rewrite Hrn. reflexivity.
Qed.

(** In FIN_WAIT1 a FIN that does not acknowledge the FIN sent leads to
    CLOSING. *)
Lemma arrives_pcb_fin_wait1_fin seg flags payload len lo fo pcb s :
  state pcb = FIN_WAIT1 ->
  TCP_FLG_ISSET flags TCP_FLG_RST = false ->
  TCP_FLG_ISSET flags TCP_FLG_SYN = false ->
  TCP_FLG_ISSET flags TCP_FLG_FIN = true ->
  TCP_FLG_ISSET flags TCP_FLG_ACK = true ->
  seg_seq seg = rcv_nxt pcb ->
  seg_ack seg <= snd_una pcb ->
  snd_una pcb < snd_nxt pcb ->
  0 < rcv_wnd pcb ->
  0 <= rcv_nxt pcb -> rcv_nxt pcb + rcv_wnd pcb < 4294967296 ->
  arrives_pcb o seg flags payload len lo fo pcb s
  = Some (set_state CLOSING (set_rcv_nxt (rcv_nxt pcb + 1) pcb),
          tick (emit (Segment (snd_nxt pcb) (rcv_nxt pcb + 1)
                        TCP_FLG_ACK (rcv_wnd pcb) []
                        (local pcb) (foreign pcb)) s)).
Proof.
  intros Hst Hrst Hsyn Hfin Hack Hseq Hackno Huna Hwnd Hnxt Hwrap.
  assert (Hacc : acceptable_in_state seg pcb = true).
  { unfold acceptable_in_state. rewrite Hst.
    apply seg_acceptable_at_rcv_nxt; auto. }
  destruct (ack_update_goes_on o seg pcb s ltac:(lia))
    as (p1 & Hup & _ & _ & _ & _ & _ & _ & _ & _ & _ & Hsame).
  rewrite (Hsame Hackno) in Hup.
  unfold arrives_pcb. rewrite Hst, Hacc, Hrst, Hsyn, Hack. cbn [negb].
  unfold arrives_ack. rewrite Hst. unfold ack_synchronized. rewrite Hup, Hst.
  destruct (Z.eqb_spec (seg_ack seg) (snd_nxt pcb)) as [E|_]; [lia|].
  unfold arrives_text. rewrite Hst.
  unfold arrives_fin. rewrite Hfin, Hst. cbv zeta.
  rewrite tcp_output_bare by reflexivity.
  cbn [state snd_nxt rcv_nxt rcv_wnd local foreign set_rcv_nxt].
  rewrite Hst.
  destruct (Z.eqb_spec (seg_ack seg) (snd_nxt pcb)) as [E|_]; [lia|].
  assert (Hrn : u32 (seg_seq seg + 1) = rcv_nxt pcb + 1)
    by (rewrite Hseq; unfold u32; apply Z.mod_small; lia).
  rewrite Hrn. reflexivity.
Qed.

(** In LAST_ACK the acknowledgement of the FIN releases the PCB; any
    other acknowledgement in the window changes nothing. *)
Lemma arrives_pcb_last_ack seg flags payload len lo fo pcb s :
  state pcb = LAST_ACK ->
  TCP_FLG_ISSET flags TCP_FLG_RST = false ->
  TCP_FLG_ISSET flags TCP_FLG_SYN = false ->
  TCP_FLG_ISSET flags TCP_FLG_ACK = true ->
  seg_seq seg = rcv_nxt pcb ->
  (seg_len seg = 0 /\ 0 <= rcv_wnd pcb) \/ 0 < rcv_wnd pcb ->
  0 <= rcv_nxt pcb -> rcv_nxt pcb + rcv_wnd pcb < 4294967296 ->
  arrives_pcb o seg flags payload len lo fo pcb s
  = Some (if seg_ack seg =? snd_nxt pcb
          then tcp_pcb_release o (set_state CLOSED pcb) s
          else (pcb, s)).
Proof.
  intros Hst Hrst Hsyn Hack Hseq Hcase Hnxt Hwrap.
  assert (Hacc : acceptable_in_state seg pcb = true).
  { unfold acceptable_in_state. rewrite Hst.
    apply seg_acceptable_at_rcv_nxt; auto. }
  unfold arrives_pcb. rewrite Hst, Hacc, Hrst, Hsyn, Hack. cbn [negb].
  unfold arrives_ack. rewrite Hst.
  destruct (seg_ack seg =? snd_nxt pcb); [|reflexivity].
  unfold release_closed.
  destruct (tcp_pcb_release o (set_state CLOSED pcb) s); reflexivity.
Qed.

End CloseHandshake.

Section CloseSequences.
Import Timeval Tcp.

Variable o : oracle.

Lemma u32_small z : 0 <= z < 4294967296 -> u32 z = z.
Proof. intros H. unfold u32. apply Z.mod_small. exact H. Qed.

(** The active close, step by step on the table.  tcp_close on an
    ESTABLISHED connection sends the FIN and enters FIN_WAIT1; the peer's
    acknowledgement of the FIN leads to FIN_WAIT2 without an answer; the
    peer's FIN is then acknowledged with <SEQ=snd.nxt><ACK=rcv.nxt+1> and
    the PCB enters TIME_WAIT, stamped with the time of the clock. *)
Theorem tcp_close_active_handshake id i pcb lo fo w ack_seg fin_seg fa ff :
  tcp_pcb_select (pcbs w) lo (Some fo) = Some (i, pcb) ->
  tcp_pcb_get (pcbs w) id = Some (i, pcb) ->
  full_match lo fo pcb = true ->
  state pcb = ESTABLISHED ->
  0 <= snd_una pcb <= snd_nxt pcb -> snd_nxt pcb + 1 < 4294967296 ->
  0 < rcv_wnd pcb ->
  0 <= rcv_nxt pcb -> rcv_nxt pcb + rcv_wnd pcb < 4294967296 ->
  TCP_FLG_ISSET fa TCP_FLG_RST = false ->
  TCP_FLG_ISSET fa TCP_FLG_SYN = false ->
  TCP_FLG_ISSET fa TCP_FLG_FIN = false ->
  TCP_FLG_ISSET fa TCP_FLG_ACK = true ->
  seg_seq ack_seg = rcv_nxt pcb -> seg_len ack_seg = 0 ->
  seg_ack ack_seg = snd_nxt pcb + 1 ->
  TCP_FLG_ISSET ff TCP_FLG_RST = false ->
  TCP_FLG_ISSET ff TCP_FLG_SYN = false ->
  TCP_FLG_ISSET ff TCP_FLG_FIN = true ->
  TCP_FLG_ISSET ff TCP_FLG_ACK = true ->
  seg_seq fin_seg = rcv_nxt pcb -> seg_ack fin_seg <= snd_nxt pcb + 1 ->
  exists w1 w2 w3 p1 p2 p3,
    tcp_close o id w = (0, w1)
    /\ pcbs w1 !! i = Some p1 /\ state p1 = FIN_WAIT1
    /\ snd_nxt p1 = snd_nxt pcb + 1
    /\ tcp_segment_arrives o ack_seg fa [] 0 lo fo w1 = Some w2
    /\ pcbs w2 !! i = Some p2 /\ state p2 = FIN_WAIT2
    /\ snd_una p2 = snd_nxt pcb + 1
    /\ env w2 = env w1
    /\ tcp_segment_arrives o fin_seg ff [] 0 lo fo w2 = Some w3
    /\ pcbs w3 !! i = Some p3 /\ state p3 = TIME_WAIT
    /\ rcv_nxt p3 = rcv_nxt pcb + 1
    /\ time_wait p3 = o_time o (S (ticks (env w2)))
    /\ trace (env w3)
       = trace (env w2)
         ++ [Segment (snd_nxt pcb + 1) (rcv_nxt pcb + 1) TCP_FLG_ACK
                     (rcv_wnd pcb) [] (local pcb) (foreign pcb)].
Proof.
  intros Hsel Hget Hfull Hst Huna Hsn Hwnd Hnxt Hwrap
         Harst Hasyn Hafin Haack Haseq Halen Haackno
         Hfrst Hfsyn Hffin Hfack Hfseq Hfackno.
  destruct (tcp_pcb_select_lookup lo fo _ _ _ Hsel) as [Hi _].
  pose proof (lookup_lt_Some _ _ _ Hi) as Hlt.
  destruct (tcp_close_put o id w i pcb Hget (or_introl Hst))
    as (q & s1 & Hclose).
  rewrite Hst in Hclose.
  change (is_state ESTABLISHED ESTABLISHED) with true in Hclose.
  cbv iota in Hclose.
  rewrite (u32_small (snd_nxt pcb + 1)) in Hclose by lia.
  set (p1 := set_snd_nxt (snd_nxt pcb + 1)
               (set_state FIN_WAIT1 (set_queue q pcb))) in *.
  set (w1 := put i p1 s1 w) in *.
  assert (Hsel1 : tcp_pcb_select (pcbs w1) lo (Some fo) = Some (i, p1)).
  { apply (tcp_pcb_select_update lo fo (pcbs w) i pcb p1 Hsel).
    rewrite <- Hfull. apply full_match_fields; reflexivity. }
  destruct (arrives_pcb_fin_wait1_ack o ack_seg fa [] 0 lo fo p1 s1)
    as (wnd & wl2 & Harr1);
    try assumption; try reflexivity;
    try (cbn [p1 snd_una snd_nxt rcv_wnd rcv_nxt set_snd_nxt set_state
              set_queue]; lia).
  cbn [p1 snd_nxt set_snd_nxt] in Harr1. fold p1 in Harr1.
  set (p2 := set_state FIN_WAIT2 _) in Harr1.
  set (w2 := put i p2 s1 w1).
  assert (Hsel2 : tcp_pcb_select (pcbs w2) lo (Some fo) = Some (i, p2)).
  { apply (tcp_pcb_select_update lo fo (pcbs w1) i p1 p2 Hsel1).
    rewrite <- Hfull. apply full_match_fields; reflexivity. }
  pose proof (arrives_pcb_fin_wait2_fin o fin_seg ff [] 0 lo fo p2 s1)
    as Harr2.
  cbn [p2 p1 state snd_una snd_nxt rcv_wnd rcv_nxt local foreign
       set_snd_nxt set_state set_queue set_snd_una set_snd_wnd set_snd_wl2]
    in Harr2.
  fold p1 in Harr2. fold p2 in Harr2.
  specialize (Harr2 eq_refl Hfrst Hfsyn Hffin Hfack Hfseq Hfackno
                ltac:(lia) Hwnd Hnxt Hwrap).
  exists w1, w2.
  eexists. exists p1, p2. eexists.
  split; [exact Hclose|].
  split; [apply list_lookup_insert_eq; exact Hlt|].
  split; [reflexivity|]. split; [reflexivity|].
  split.
  { rewrite (tcp_segment_arrives_selected o ack_seg fa [] 0 lo fo w1 i p1 Hsel1)
      by discriminate.
    change (env w1) with s1. rewrite Harr1. reflexivity. }
  split; [apply list_lookup_insert_eq; cbn [w1 put pcbs];
          rewrite length_insert; exact Hlt|].
  split; [reflexivity|]. split; [reflexivity|]. split; [reflexivity|].
  split.
  { rewrite (tcp_segment_arrives_selected o fin_seg ff [] 0 lo fo w2 i p2 Hsel2)
      by discriminate.
    change (env w2) with s1. rewrite Harr2. reflexivity. }
  cbn [put pcbs env].
  split; [apply list_lookup_insert_eq; cbn [w2 w1 put pcbs];
          rewrite !length_insert; exact Hlt|].
  split; [reflexivity|]. split; [reflexivity|].
  split; reflexivity.
Qed.

(** The simultaneous close does not end.  After tcp_close, a FIN of the
    peer that does not acknowledge the FIN sent leads to CLOSING; the
    acknowledgement of the FIN that follows is then not taken: the table
    stays as it is and the segment is answered with a bare ACK. *)
Theorem tcp_close_simultaneous_stays_closing
    id i pcb lo fo w fin_seg ack_seg ff fa :
  tcp_pcb_select (pcbs w) lo (Some fo) = Some (i, pcb) ->
  tcp_pcb_get (pcbs w) id = Some (i, pcb) ->
  full_match lo fo pcb = true ->
  state pcb = ESTABLISHED ->
  0 <= snd_una pcb <= snd_nxt pcb -> snd_nxt pcb + 1 < 4294967296 ->
  0 < rcv_wnd pcb ->
  0 <= rcv_nxt pcb -> rcv_nxt pcb + rcv_wnd pcb < 4294967296 ->
  TCP_FLG_ISSET ff TCP_FLG_RST = false ->
  TCP_FLG_ISSET ff TCP_FLG_SYN = false ->
  TCP_FLG_ISSET ff TCP_FLG_FIN = true ->
  TCP_FLG_ISSET ff TCP_FLG_ACK = true ->
  seg_seq fin_seg = rcv_nxt pcb -> seg_ack fin_seg <= snd_una pcb ->
  TCP_FLG_ISSET fa TCP_FLG_RST = false ->
  exists w1 w2 p2,
    tcp_close o id w = (0, w1)
    /\ tcp_segment_arrives o fin_seg ff [] 0 lo fo w1 = Some w2
    /\ pcbs w2 !! i = Some p2 /\ state p2 = CLOSING
    /\ tcp_segment_arrives o ack_seg fa [] 0 lo fo w2
       = Some (World (pcbs w2)
                 (tick (emit (Segment (snd_nxt pcb + 1) (rcv_nxt pcb + 1)
                                TCP_FLG_ACK (rcv_wnd pcb) []
                                (local pcb) (foreign pcb)) (env w2)))).
Proof.
  intros Hsel Hget Hfull Hst Huna Hsn Hwnd Hnxt Hwrap
         Hfrst Hfsyn Hffin Hfack Hfseq Hfackno Harst.
  destruct (tcp_pcb_select_lookup lo fo _ _ _ Hsel) as [Hi _].
  pose proof (lookup_lt_Some _ _ _ Hi) as Hlt.
  destruct (tcp_close_put o id w i pcb Hget (or_introl Hst))
    as (q & s1 & Hclose).
  rewrite Hst in Hclose.
  change (is_state ESTABLISHED ESTABLISHED) with true in Hclose.
  cbv iota in Hclose.
  rewrite (u32_small (snd_nxt pcb + 1)) in Hclose by lia.
  set (p1 := set_snd_nxt (snd_nxt pcb + 1)
               (set_state FIN_WAIT1 (set_queue q pcb))) in *.
  set (w1 := put i p1 s1 w) in *.
  assert (Hsel1 : tcp_pcb_select (pcbs w1) lo (Some fo) = Some (i, p1)).
  { apply (tcp_pcb_select_update lo fo (pcbs w) i pcb p1 Hsel).
    rewrite <- Hfull. apply full_match_fields; reflexivity. }
  pose proof (arrives_pcb_fin_wait1_fin o fin_seg ff [] 0 lo fo p1 s1)
    as Harr1.
  cbn [p1 state snd_una snd_nxt rcv_wnd rcv_nxt local foreign
       set_snd_nxt set_state set_queue] in Harr1.
  fold p1 in Harr1.
  specialize (Harr1 eq_refl Hfrst Hfsyn Hffin Hfack Hfseq Hfackno
                ltac:(lia) Hwnd Hnxt Hwrap).
  set (p2 := set_state CLOSING (set_rcv_nxt (rcv_nxt pcb + 1) p1)) in *.
  set (s2 := tick (emit _ s1)) in Harr1.
  set (w2 := put i p2 s2 w1).
  assert (Hsel2 : tcp_pcb_select (pcbs w2) lo (Some fo) = Some (i, p2)).
  { apply (tcp_pcb_select_update lo fo (pcbs w1) i p1 p2 Hsel1).
    rewrite <- Hfull. apply full_match_fields; reflexivity. }
  assert (Hi2 : pcbs w2 !! i = Some p2).
  { apply list_lookup_insert_eq. cbn [w1 put pcbs].
    rewrite length_insert. exact Hlt. }
  exists w1, w2, p2.
  split; [exact Hclose|].
  split.
  { rewrite (tcp_segment_arrives_selected o fin_seg ff [] 0 lo fo w1 i p1 Hsel1)
      by discriminate.
    change (env w1) with s1. rewrite Harr1. reflexivity. }
  split; [exact Hi2|]. split; [reflexivity|].
  rewrite (tcp_segment_arrives_selected o ack_seg fa [] 0 lo fo w2 i p2 Hsel2)
    by discriminate.
  unfold arrives_pcb, acceptable_in_state.
  cbn [p2 state set_state negb]. rewrite Harst. cbn [negb].
  rewrite tcp_output_bare by reflexivity.
  fold p2. unfold put. rewrite (list_insert_id _ _ _ Hi2). reflexivity.
Qed.

(** The passive close.  tcp_close on a connection in CLOSE_WAIT sends the
    FIN and enters LAST_ACK; when the peer acknowledges the FIN the slot
    is released, so that the handle is no longer valid, unless
    pthread_cond_destroy fails, in which case the PCB stays in CLOSED. *)
Theorem tcp_close_passive_releases id i pcb lo fo w ack_seg fa :
  tcp_pcb_select (pcbs w) lo (Some fo) = Some (i, pcb) ->
  tcp_pcb_get (pcbs w) id = Some (i, pcb) ->
  full_match lo fo pcb = true ->
  state pcb = CLOSE_WAIT ->
  snd_nxt pcb + 1 < 4294967296 -> 0 <= snd_nxt pcb ->
  0 <= rcv_wnd pcb ->
  0 <= rcv_nxt pcb -> rcv_nxt pcb + rcv_wnd pcb < 4294967296 ->
  TCP_FLG_ISSET fa TCP_FLG_RST = false ->
  TCP_FLG_ISSET fa TCP_FLG_SYN = false ->
  TCP_FLG_ISSET fa TCP_FLG_ACK = true ->
  seg_seq ack_seg = rcv_nxt pcb -> seg_len ack_seg = 0 ->
  seg_ack ack_seg = snd_nxt pcb + 1 ->
  exists w1 w2 p1 p2,
    tcp_close o id w = (0, w1)
    /\ pcbs w1 !! i = Some p1 /\ state p1 = LAST_ACK
    /\ tcp_segment_arrives o ack_seg fa [] 0 lo fo w1 = Some w2
    /\ pcbs w2 !! i = Some p2
    /\ (if o_cond_destroy o (ticks (env w1)) =? -1
        then p2 = set_state CLOSED p1
        else p2 = pcb_zero /\ tcp_pcb_get (pcbs w2) id = None).
Proof.
  intros Hsel Hget Hfull Hst Hsn Hsn0 Hwnd Hnxt Hwrap
         Harst Hasyn Haack Haseq Halen Haackno.
  destruct (tcp_pcb_select_lookup lo fo _ _ _ Hsel) as [Hi _].
  pose proof (lookup_lt_Some _ _ _ Hi) as Hlt.
  destruct (tcp_pcb_get_lookup _ _ _ _ Hget) as (_ & _ & Hid & Hiz).
  destruct (tcp_close_put o id w i pcb Hget (or_intror Hst))
    as (q & s1 & Hclose).
  rewrite Hst in Hclose.
  change (is_state CLOSE_WAIT ESTABLISHED) with false in Hclose.
  cbv iota in Hclose.
  rewrite (u32_small (snd_nxt pcb + 1)) in Hclose by lia.
  set (p1 := set_snd_nxt (snd_nxt pcb + 1)
               (set_state LAST_ACK (set_queue q pcb))) in *.
  set (w1 := put i p1 s1 w) in *.
  assert (Hsel1 : tcp_pcb_select (pcbs w1) lo (Some fo) = Some (i, p1)).
  { apply (tcp_pcb_select_update lo fo (pcbs w) i pcb p1 Hsel).
    rewrite <- Hfull. apply full_match_fields; reflexivity. }
  pose proof (arrives_pcb_last_ack o ack_seg fa [] 0 lo fo p1 s1) as Harr.
  cbn [p1 state snd_nxt rcv_wnd rcv_nxt set_snd_nxt set_state set_queue]
    in Harr.
  fold p1 in Harr.
  specialize (Harr eq_refl Harst Hasyn Haack Haseq
                (or_introl (conj Halen Hwnd)) Hnxt Hwrap).
  rewrite Haackno, Z.eqb_refl in Harr.
  assert (Hlt1 : (i < length (pcbs w1))%nat)
    by (cbn [w1 put pcbs]; rewrite length_insert; exact Hlt).
  pose proof (tcp_segment_arrives_selected o ack_seg fa [] 0 lo fo w1 i p1
                Hsel1 ltac:(discriminate)) as Hstep.
  change (env w1) with s1 in Hstep. rewrite Harr in Hstep.
  unfold tcp_pcb_release in Hstep.
  destruct (o_cond_destroy o (ticks s1) =? -1) eqn:Hd.
  - exists w1. eexists. exists p1. eexists.
    split; [exact Hclose|].
    split; [apply list_lookup_insert_eq; exact Hlt|].
    split; [reflexivity|]. split; [exact Hstep|].
    split; [apply list_lookup_insert_eq; exact Hlt1|].
    change (env w1) with s1. rewrite Hd. reflexivity.
  - exists w1. eexists. exists p1. eexists.
    split; [exact Hclose|].
    split; [apply list_lookup_insert_eq; exact Hlt|].
    split; [reflexivity|]. split; [exact Hstep|].
    split; [apply list_lookup_insert_eq; exact Hlt1|].
    change (env w1) with s1. rewrite Hd. split; [reflexivity|].
    unfold tcp_pcb_get. cbn [put pcbs].
    destruct ((id <? 0) || (id >=? TCP_PCB_SIZE)); [reflexivity|].
    rewrite <- Hiz, list_lookup_insert_eq by exact Hlt1. reflexivity.
Qed.

End CloseSequences.

Lemma tcp_close_active_handshake_witness :
  let o := Sample.calm (Timeval.Tv 1 0) in
  let w := Tcp.World (Sample.table Sample.established) Sample.quiet in
  exists w1 w2 w3 p1 p2 p3,
    Tcp.tcp_close o 0 w = (0, w1)
    /\ Tcp.pcbs w1 !! 0%nat = Some p1 /\ Tcp.state p1 = Tcp.FIN_WAIT1
    /\ Tcp.snd_nxt p1 = 2001
    /\ Tcp.tcp_segment_arrives o (Tcp.Seg 1000 2001 0 16 0) Tcp.TCP_FLG_ACK
         [] 0 Sample.here Sample.peer w1 = Some w2
    /\ Tcp.pcbs w2 !! 0%nat = Some p2 /\ Tcp.state p2 = Tcp.FIN_WAIT2
    /\ Tcp.snd_una p2 = 2001
    /\ Tcp.env w2 = Tcp.env w1
    /\ Tcp.tcp_segment_arrives o (Tcp.Seg 1000 2001 1 16 0) Tcp.FIN_ACK
         [] 0 Sample.here Sample.peer w2 = Some w3
    /\ Tcp.pcbs w3 !! 0%nat = Some p3 /\ Tcp.state p3 = Tcp.TIME_WAIT
    /\ Tcp.rcv_nxt p3 = 1001
    /\ Tcp.time_wait p3 = Timeval.Tv 1 0
    /\ Tcp.trace (Tcp.env w3)
       = Tcp.trace (Tcp.env w2)
         ++ [Tcp.Segment 2001 1001 Tcp.TCP_FLG_ACK 16 []
               Sample.here Sample.peer].
Proof.
  intros o w.
  apply (tcp_close_active_handshake o 0 0%nat Sample.established
           Sample.here Sample.peer w (Tcp.Seg 1000 2001 0 16 0)
           (Tcp.Seg 1000 2001 1 16 0) Tcp.TCP_FLG_ACK Tcp.FIN_ACK);
    try reflexivity; simpl; lia.
Defined.

Lemma tcp_close_simultaneous_stays_closing_witness :
  let o := Sample.calm (Timeval.Tv 1 0) in
  let w := Tcp.World (Sample.table Sample.established) Sample.quiet in
  exists w1 w2 p2,
    Tcp.tcp_close o 0 w = (0, w1)
    /\ Tcp.tcp_segment_arrives o (Tcp.Seg 1000 2000 1 16 0) Tcp.FIN_ACK
         [] 0 Sample.here Sample.peer w1 = Some w2
    /\ Tcp.pcbs w2 !! 0%nat = Some p2 /\ Tcp.state p2 = Tcp.CLOSING
    /\ Tcp.tcp_segment_arrives o (Tcp.Seg 1001 2001 0 16 0) Tcp.TCP_FLG_ACK
         [] 0 Sample.here Sample.peer w2
       = Some (Tcp.World (Tcp.pcbs w2)
                 (Tcp.tick (Tcp.emit
                    (Tcp.Segment 2001 1001 Tcp.TCP_FLG_ACK 16 []
                       Sample.here Sample.peer) (Tcp.env w2)))).
Proof.
  intros o w.
  apply (tcp_close_simultaneous_stays_closing o 0 0%nat Sample.established
           Sample.here Sample.peer w (Tcp.Seg 1000 2000 1 16 0)
           (Tcp.Seg 1001 2001 0 16 0) Tcp.FIN_ACK Tcp.TCP_FLG_ACK);
    try reflexivity; simpl; lia.
Defined.

Lemma tcp_close_passive_releases_witness :
  let o := Sample.calm (Timeval.Tv 1 0) in
  let pcb := Tcp.set_state Tcp.CLOSE_WAIT Sample.established in
  let w := Tcp.World (Sample.table pcb) Sample.quiet in
  exists w1 w2 p1 p2,
    Tcp.tcp_close o 0 w = (0, w1)
    /\ Tcp.pcbs w1 !! 0%nat = Some p1 /\ Tcp.state p1 = Tcp.LAST_ACK
    /\ Tcp.tcp_segment_arrives o (Tcp.Seg 1000 2001 0 16 0) Tcp.TCP_FLG_ACK
         [] 0 Sample.here Sample.peer w1 = Some w2
    /\ Tcp.pcbs w2 !! 0%nat = Some p2
    /\ (if Tcp.o_cond_destroy o (Tcp.ticks (Tcp.env w1)) =? -1
        then p2 = Tcp.set_state Tcp.CLOSED p1
        else p2 = Tcp.pcb_zero /\ Tcp.tcp_pcb_get (Tcp.pcbs w2) 0 = None).
Proof.
  intros o pcb w.
  apply (tcp_close_passive_releases o 0 0%nat pcb
           Sample.here Sample.peer w (Tcp.Seg 1000 2001 0 16 0)
           Tcp.TCP_FLG_ACK);
    try reflexivity; simpl; lia.
Defined.

(** ** tcp.c: the two timeouts *)

Section TimeoutFacts.
Import Timeval Tcp.

Variable o : oracle.
Hypothesis clock_normal : forall n, normal (o_time o n).

Lemma queue_foreach_emit_pcb q : forall pcb s,
  fst (fst (queue_foreach_emit o pcb q s)) = pcb
  \/ fst (fst (queue_foreach_emit o pcb q s)) = set_state CLOSED pcb.
Proof.
  induction q as [|e rest IH]; intros pcb s; [left; reflexivity|].
  cbn [queue_foreach_emit]. unfold tcp_retransmit_queue_emit.
  destruct (tv_sec _ >=? _).
  - specialize (IH (set_state CLOSED pcb) (emit Wakeup (tick s))).
    destruct (queue_foreach_emit o (set_state CLOSED pcb) rest _)
      as [[pcb2 q2] s2].
    cbn [fst snd] in *. right. destruct IH as [-> | ->]; reflexivity.
  - destruct (timercmp_gt _ _).
    + match goal with
        |- context [queue_foreach_emit o pcb rest ?s'] =>
          specialize (IH pcb s');
          destruct (queue_foreach_emit o pcb rest s') as [[pcb2 q2] s2]
      end.
      exact IH.
    + specialize (IH pcb (tick s)).
      destruct (queue_foreach_emit o pcb rest (tick s)) as [[pcb2 q2] s2].
      exact IH.
Qed.

Lemma tcp_retransmit_queue_emit_all_pcb pcb s :
  let p := fst (tcp_retransmit_queue_emit_all o pcb s) in
  p = set_queue (queue p) pcb \/ p = set_queue (queue p) (set_state CLOSED pcb).
Proof.
  unfold tcp_retransmit_queue_emit_all.
  pose proof (queue_foreach_emit_pcb (queue pcb) pcb s) as H.
  destruct (queue_foreach_emit o pcb (queue pcb) s) as [[pcb1 q1] s1].
  cbn [fst snd] in *. destruct H as [-> | ->]; [left | right]; reflexivity.
Qed.

Lemma queue_foreach_emit_ticks q : forall pcb s,
  (ticks s <= ticks (snd (queue_foreach_emit o pcb q s)))%nat.
Proof.
  induction q as [|e rest IH]; intros pcb s; [reflexivity|].
  cbn [queue_foreach_emit]. unfold tcp_retransmit_queue_emit.
  destruct (tv_sec _ >=? _).
  - specialize (IH (set_state CLOSED pcb) (emit Wakeup (tick s))).
    destruct (queue_foreach_emit o (set_state CLOSED pcb) rest _)
      as [[pcb2 q2] s2].
    cbn [fst snd tick emit ticks] in *. lia.
  - destruct (timercmp_gt _ _).
    + rewrite tcp_output_segment_trace.
      match goal with
        |- context [queue_foreach_emit o pcb rest ?s'] =>
          specialize (IH pcb s');
          destruct (queue_foreach_emit o pcb rest s') as [[pcb2 q2] s2]
      end.
      cbn [fst snd tick emit ticks] in *. lia.
    + specialize (IH pcb (tick s)).
      destruct (queue_foreach_emit o pcb rest (tick s)) as [[pcb2 q2] s2].
      cbn [fst snd tick emit ticks] in *. lia.
Qed.

Lemma tcp_retransmit_queue_emit_all_ticks pcb s :
  (ticks s <= ticks (snd (tcp_retransmit_queue_emit_all o pcb s)))%nat.
Proof.
  unfold tcp_retransmit_queue_emit_all.
  pose proof (queue_foreach_emit_ticks (queue pcb) pcb s) as H.
  destruct (queue_foreach_emit o pcb (queue pcb) s) as [[pcb1 q1] s1].
  exact H.
Qed.

Lemma time_wait_step_mono a b a' b' p p' :
  (a' <= a)%nat -> (b <= b')%nat ->
  time_wait_step o a b p p' -> time_wait_step o a' b' p p'.
Proof.
  intros Ha Hb. unfold time_wait_step.
  destruct (is_state (state p) TIME_WAIT); [|auto].
  intros (n & Hn & H). exists n. split; [lia | exact H].
Qed.

Lemma time_wait_timeout_loop_spec ps :
  Forall (fun p => normal (time_wait p)) ps ->
  forall s,
    let r := time_wait_timeout_loop o ps s in
    (ticks s <= ticks (snd r))%nat
    /\ Forall2 (time_wait_step o (ticks s) (ticks (snd r))) ps (fst r).
Proof.
  induction 1 as [|p rest Hp Hrest IH]; intros s;
    [split; [reflexivity | constructor]|].
  cbn [time_wait_timeout_loop].
  destruct (is_state (state p) TIME_WAIT) eqn:Htw; cbn [negb].
  - cbv zeta.
    destruct (timersub_usec (o_time o (ticks s)) (time_wait p)
                (clock_normal _) Hp) as [Hd Hu].
    rewrite (tv_sec_geb _ _ Hd), Hu.
    destruct (usec_of (o_time o (ticks s)) - usec_of (time_wait p)
              >=? 2 * TCP_MSL * 1000000) eqn:Hc.
    + unfold tcp_pcb_release. cbn [tick ticks].
      destruct (o_cond_destroy o (S (ticks s)) =? -1) eqn:Hcd;
        match goal with
          |- context [time_wait_timeout_loop o rest ?s'] =>
            specialize (IH s');
            destruct (time_wait_timeout_loop o rest s') as [rest2 s2]
        end;
        cbn [fst snd tick emit ticks] in *; destruct IH as [Hle IH];
        (split; [lia|]);
        (constructor;
         [ unfold time_wait_step; rewrite Htw; exists (ticks s);
           split; [lia|]; rewrite Hc, Hcd; reflexivity
         | eapply Forall2_impl; [exact IH|]; intros x y;
           apply time_wait_step_mono; lia ]).
    + specialize (IH (tick s)).
      destruct (time_wait_timeout_loop o rest (tick s)) as [rest2 s2].
      cbn [fst snd tick emit ticks] in *. destruct IH as [Hle IH].
      split; [lia|].
      constructor.
      * unfold time_wait_step. rewrite Htw. exists (ticks s).
        split; [lia|]. rewrite Hc. reflexivity.
      * eapply Forall2_impl; [exact IH|]. intros x y.
        apply time_wait_step_mono; lia.
  - specialize (IH s).
    destruct (time_wait_timeout_loop o rest s) as [rest1 s1].
    cbn [fst snd] in *. destruct IH as [Hle IH]. split; [exact Hle|].
    constructor; [|exact IH]. unfold time_wait_step. rewrite Htw. reflexivity.
Qed.

(** tcp_time_wait_timeout touches nothing but the PCBs in TIME_WAIT.  For
    each of them it reads the clock once: when at least 2 MSL (240 s) have
    passed since the PCB entered TIME_WAIT the slot is cleared to FREE
    (or, when pthread_cond_destroy fails, left in CLOSED); before that the
    PCB is left as it is. *)
Theorem tcp_time_wait_timeout_spec (w : world) :
  Forall (fun p => normal (time_wait p)) (pcbs w) ->
  let w' := tcp_time_wait_timeout o w in
  Forall2 (fun p p' =>
      if is_state (state p) TIME_WAIT then
        exists n,
          (ticks (env w) <= n < ticks (env w'))%nat
          /\ if usec_of (o_time o n) - usec_of (time_wait p) >=? 240000000
             then p' = if o_cond_destroy o (S n) =? -1
                       then set_state CLOSED p else pcb_zero
             else p' = p
      else p' = p)
    (pcbs w) (pcbs w').
Proof.
  intros Hok w'. subst w'. unfold tcp_time_wait_timeout.
  pose proof (time_wait_timeout_loop_spec (pcbs w) Hok (env w)) as H.
  destruct (time_wait_timeout_loop o (pcbs w) (env w)) as [ps s].
  exact (proj2 H).
Qed.

(** What tcp_retransmit_queue_emit does to the PCB and the entry, and
    the number of readings it takes, do not depend on the calls made
    before. *)
Lemma tcp_retransmit_queue_emit_indep pcb e s s' :
  ticks s = ticks s' ->
  fst (tcp_retransmit_queue_emit o pcb e s)
  = fst (tcp_retransmit_queue_emit o pcb e s')
  /\ ticks (snd (tcp_retransmit_queue_emit o pcb e s))
     = ticks (snd (tcp_retransmit_queue_emit o pcb e s')).
Proof.
  intros Hs. unfold tcp_retransmit_queue_emit. rewrite <- Hs.
  destruct (tv_sec _ >=? _);
    [cbn [fst snd emit tick ticks]; split; congruence|].
  destruct (timercmp_gt _ _);
    [rewrite !tcp_output_segment_trace|];
    cbn [fst snd emit tick ticks]; split; congruence.
Qed.

Lemma queue_foreach_emit_indep q : forall pcb s s',
  ticks s = ticks s' ->
  fst (queue_foreach_emit o pcb q s) = fst (queue_foreach_emit o pcb q s')
  /\ ticks (snd (queue_foreach_emit o pcb q s))
     = ticks (snd (queue_foreach_emit o pcb q s')).
Proof.
  induction q as [|e rest IH]; intros pcb s s' Hs;
    [split; [reflexivity | exact Hs]|].
  cbn [queue_foreach_emit].
  destruct (tcp_retransmit_queue_emit_indep pcb e s s' Hs) as [H1 H2].
  destruct (tcp_retransmit_queue_emit o pcb e s) as [[pcb1 e1] s1].
  destruct (tcp_retransmit_queue_emit o pcb e s') as [[pcb1' e1'] s1'].
  cbn [fst snd] in H1, H2. injection H1 as <- <-.
  specialize (IH pcb1 s1 s1' H2).
  destruct (queue_foreach_emit o pcb1 rest s1) as [[pcb2 q2] s2].
  destruct (queue_foreach_emit o pcb1 rest s1') as [[pcb3 q3] s3].
  cbn [fst snd] in *. destruct IH as [IH1 IH2].
  injection IH1 as <- <-. split; [reflexivity | exact IH2].
Qed.

Lemma tcp_retransmit_queue_emit_all_indep pcb s s' :
  ticks s = ticks s' ->
  fst (tcp_retransmit_queue_emit_all o pcb s)
  = fst (tcp_retransmit_queue_emit_all o pcb s')
  /\ ticks (snd (tcp_retransmit_queue_emit_all o pcb s))
     = ticks (snd (tcp_retransmit_queue_emit_all o pcb s')).
Proof.
  intros Hs. unfold tcp_retransmit_queue_emit_all.
  pose proof (queue_foreach_emit_indep (queue pcb) pcb s s' Hs) as H.
  destruct (queue_foreach_emit o pcb (queue pcb) s) as [[pcb1 q1] s1].
  destruct (queue_foreach_emit o pcb (queue pcb) s') as [[pcb2 q2] s2].
  cbn [fst snd] in *. destruct H as [H1 H2]. injection H1 as <- <-.
  split; [reflexivity | exact H2].
Qed.

Lemma user_timeout_step_mono a b a' b' p p' :
  (a' <= a)%nat -> (b <= b')%nat ->
  user_timeout_step o a b p p' -> user_timeout_step o a' b' p p'.
Proof.
  intros Ha Hb. unfold user_timeout_step.
  destruct (is_state (state p) FREE || is_state (state p) TIME_WAIT); [auto|].
  intros (n & Hn & H). exists n. split; [lia|].
  destruct (_ >=? _); [|exact H].
  cbv zeta in *. destruct H as [Hm H]. split; [lia | exact H].
Qed.

Lemma user_timeout_loop_spec ps :
  Forall (fun p => normal (start_time p)) ps ->
  forall s,
    let r := user_timeout_loop o ps s in
    (ticks s <= ticks (snd r))%nat
    /\ Forall2 (user_timeout_step o (ticks s) (ticks (snd r))) ps (fst r).
Proof.
  induction 1 as [|p rest Hp Hrest IH]; intros s;
    [split; [reflexivity | constructor]|].
  cbn [user_timeout_loop].
  destruct (is_state (state p) FREE || is_state (state p) TIME_WAIT) eqn:Hskip.
  - specialize (IH s).
    destruct (user_timeout_loop o rest s) as [rest1 s1].
    cbn [fst snd] in *. destruct IH as [Hle IH]. split; [exact Hle|].
    constructor; [|exact IH].
    unfold user_timeout_step. rewrite Hskip. reflexivity.
  - cbv zeta.
    destruct (timersub_usec (o_time o (ticks s)) (start_time p)
                (clock_normal _) Hp) as [Hd Hu].
    rewrite (tv_sec_geb _ _ Hd), Hu.
    destruct (usec_of (o_time o (ticks s)) - usec_of (start_time p)
              >=? TCP_USER_TIMEOUT_TIME * 1000000) eqn:Hc.
    + pose proof (tcp_retransmit_queue_emit_all_ticks p (tick s)) as Htk.
      destruct (tcp_retransmit_queue_emit_all_indep p (tick s)
                  (Env [] (S (ticks s))) eq_refl) as [Hp1 Hm].
      destruct (tcp_retransmit_queue_emit_all o p (tick s)) as [p1 s1].
      cbn [fst snd] in Htk, Hp1, Hm. unfold tcp_pcb_release.
      cbn [emit ticks].
      destruct (o_cond_destroy o (ticks s1) =? -1) eqn:Hcd;
        match goal with
          |- context [user_timeout_loop o rest ?s'] =>
            specialize (IH s');
            destruct (user_timeout_loop o rest s') as [rest2 s2]
        end;
        cbn [fst snd tick emit ticks] in *; destruct IH as [Hle IH];
        (split; [lia|]);
        (constructor;
         [ unfold user_timeout_step; rewrite Hskip; exists (ticks s);
           split; [lia|]; rewrite Hc; cbv zeta; rewrite <- Hp1, <- Hm, Hcd;
           split; [lia | reflexivity]
         | eapply Forall2_impl; [exact IH|]; intros x y;
           apply user_timeout_step_mono; lia ]).
    + specialize (IH (tick s)).
      destruct (user_timeout_loop o rest (tick s)) as [rest2 s2].
      cbn [fst snd tick emit ticks] in *. destruct IH as [Hle IH].
      split; [lia|].
      constructor.
      * unfold user_timeout_step. rewrite Hskip. exists (ticks s).
        split; [lia|]. rewrite Hc. reflexivity.
      * eapply Forall2_impl; [exact IH|]. intros x y.
        apply user_timeout_step_mono; lia.
Qed.

(** tcp_user_timeout leaves the PCBs in FREE and TIME_WAIT alone.  For
    every other PCB it reads the clock once.  Before 30 s have passed
    since its start_time, the time of the tcp_open_rfc793 call, the PCB
    is left as it is.  After that its retransmission queue is gone
    through once more, which gives the PCB p1, and the PCB is put in
    CLOSED and released: when the call of pthread_cond_destroy that
    follows returns -1 the PCB stays as p1 in CLOSED, and when it returns
    another value the slot is cleared to FREE.  The call returns at once
    when no task sleeps on the context of the PCB; what it does while
    one does is left to the library. *)
Theorem tcp_user_timeout_spec (w : world) :
  Forall (fun p => normal (start_time p)) (pcbs w) ->
  let w' := tcp_user_timeout o w in
  Forall2 (fun p p' =>
      if is_state (state p) FREE || is_state (state p) TIME_WAIT then p' = p
      else
        exists n,
          (ticks (env w) <= n < ticks (env w'))%nat
          /\ if usec_of (o_time o n) - usec_of (start_time p) >=? 30000000
             then
               let p1 :=
                 fst (tcp_retransmit_queue_emit_all o p (Env [] (S n))) in
               let m :=
                 ticks (snd (tcp_retransmit_queue_emit_all o p
                               (Env [] (S n)))) in
               (m < ticks (env w'))%nat
               /\ p' = if o_cond_destroy o m =? -1
                       then set_state CLOSED p1 else pcb_zero
             else p' = p)
    (pcbs w) (pcbs w').
Proof.
  intros Hok w'. subst w'. unfold tcp_user_timeout.
  pose proof (user_timeout_loop_spec (pcbs w) Hok (env w)) as H.
  destruct (user_timeout_loop o (pcbs w) (env w)) as [ps s].
  exact (proj2 H).
Qed.

End TimeoutFacts.

(** A PCB that entered TIME_WAIT at 10 s, looked at when the clock reads
    300 s, and a connection opened at 0 s, looked at when it reads 31 s. *)
Lemma tcp_time_wait_timeout_spec_witness :
  let o := Sample.calm (Timeval.Tv 300 0) in
  let w := Tcp.World
             (Sample.table (Tcp.set_time_wait (Timeval.Tv 10 0)
                              (Tcp.set_state Tcp.TIME_WAIT Sample.established)))
             Sample.quiet in
  let w' := Tcp.tcp_time_wait_timeout o w in
  Forall2 (fun p p' =>
      if Tcp.is_state (Tcp.state p) Tcp.TIME_WAIT then
        exists n,
          (Tcp.ticks (Tcp.env w) <= n < Tcp.ticks (Tcp.env w'))%nat
          /\ if Timeval.usec_of (Tcp.o_time o n)
                - Timeval.usec_of (Tcp.time_wait p) >=? 240000000
             then p' = if Tcp.o_cond_destroy o (S n) =? -1
                       then Tcp.set_state Tcp.CLOSED p else Tcp.pcb_zero
             else p' = p
      else p' = p)
    (Tcp.pcbs w) (Tcp.pcbs w').
Proof.
  intros o w.
  apply (tcp_time_wait_timeout_spec o).
  - intros n. unfold Timeval.normal. simpl. lia.
  - repeat (constructor; [unfold Timeval.normal; simpl; lia|]). constructor.
Defined.

Lemma tcp_user_timeout_spec_witness :
  let o := Sample.calm (Timeval.Tv 31 0) in
  let w := Tcp.World (Sample.table Sample.established) Sample.quiet in
  let w' := Tcp.tcp_user_timeout o w in
  Forall2 (fun p p' =>
      if Tcp.is_state (Tcp.state p) Tcp.FREE
         || Tcp.is_state (Tcp.state p) Tcp.TIME_WAIT then p' = p
      else
        exists n,
          (Tcp.ticks (Tcp.env w) <= n < Tcp.ticks (Tcp.env w'))%nat
          /\ if Timeval.usec_of (Tcp.o_time o n)
                - Timeval.usec_of (Tcp.start_time p) >=? 30000000
             then
               let p1 :=
                 fst (Tcp.tcp_retransmit_queue_emit_all o p
                        (Tcp.Env [] (S n))) in
               let m :=
                 Tcp.ticks (snd (Tcp.tcp_retransmit_queue_emit_all o p
                                   (Tcp.Env [] (S n)))) in
               (m < Tcp.ticks (Tcp.env w'))%nat
               /\ p' = if Tcp.o_cond_destroy o m =? -1
                       then Tcp.set_state Tcp.CLOSED p1 else Tcp.pcb_zero
             else p' = p)
    (Tcp.pcbs w) (Tcp.pcbs w')
  /\ Tcp.pcbs w' = repeat Tcp.pcb_zero 16.
Proof.
  intros o w. split; [|reflexivity].
  apply (tcp_user_timeout_spec o).
  - intros n. unfold Timeval.normal. simpl. lia.
  - repeat (constructor; [unfold Timeval.normal; simpl; lia|]). constructor.
Defined.

(** ** tcp.c: the event handler *)

Section EventFacts.
Import Timeval Tcp.

Variable o : oracle.

Lemma lookup_map_list {A B} (f : A -> B) (l : list A) : forall i,
  map f l !! i = option_map f (l !! i).
Proof.
  induction l as [|x l IH]; intros [|i]; simpl; auto.
Qed.

Lemma event_handler_lookup ps i pcb :
  ps !! i = Some pcb -> state pcb <> FREE ->
  event_handler ps !! i = Some (interrupt_ctx pcb).
Proof.
  intros Hi Hst. unfold event_handler. rewrite lookup_map_list, Hi.
  apply is_state_false in Hst. simpl. rewrite Hst. reflexivity.
Qed.

(** After event_handler has run, the handle of every PCB is still valid
    and nothing of the PCB but the interrupt flag of its context has
    changed, and the blocking calls fail instead of sleeping: tcp_receive
    on an empty receive buffer and tcp_send against a closed window return
    -1 at once and leave everything as it is, the flag included, so that
    the calls after them fail in the same way. *)
Theorem event_handler_blocking_calls_fail id w i pcb :
  tcp_pcb_get (pcbs w) id = Some (i, pcb) ->
  let w' := World (event_handler (pcbs w)) (env w) in
  tcp_pcb_get (pcbs w') id = Some (i, interrupt_ctx pcb)
  /\ (state pcb = ESTABLISHED -> rcv_wnd pcb = BUF_SIZE ->
      forall size, tcp_receive id size w' = Ret (-1) [] w')
  /\ (state pcb = ESTABLISHED \/ state pcb = CLOSE_WAIT ->
      send_cap pcb = 0 -> o_route o (addr (foreign pcb)) <> None ->
      forall fuel payload,
        0 < Z.of_nat (length payload) < 9223372036854775808 ->
        tcp_send o (S fuel) id payload w' = Ret (-1) [] w').
Proof.
  intros Hget w'.
  destruct (tcp_pcb_get_lookup _ _ _ _ Hget) as (Hi & Hfree & Hid & Hiz).
  assert (Hi' : pcbs w' !! i = Some (interrupt_ctx pcb))
    by (apply event_handler_lookup; [exact Hi | apply is_state_false, Hfree]).
  assert (Hget' : tcp_pcb_get (pcbs w') id = Some (i, interrupt_ctx pcb)).
  { unfold tcp_pcb_get in *.
    destruct ((id <? 0) || (id >=? TCP_PCB_SIZE)); [discriminate|].
    rewrite <- Hiz, Hi'. cbn [interrupt_ctx state set_ctx].
    rewrite Hfree. reflexivity. }
  split; [exact Hget'|]. split.
  - intros Hst Hwnd size. unfold tcp_receive. rewrite Hget'.
    unfold tcp_receive_retry. rewrite Hi'.
    cbn [interrupt_ctx state rcv_wnd ctx set_ctx]. rewrite Hst, Hwnd.
    reflexivity.
  - intros Hst Hcap Hroute fuel payload Hlen. unfold tcp_send. rewrite Hget'.
    unfold tcp_send_retry. rewrite Hi'.
    cbn [interrupt_ctx state foreign set_ctx].
    destruct (o_route o (addr (foreign pcb))) as [dev_mtu|]; [|congruence].
    assert (Hloop : send_loop o (S fuel) i payload
                      (u64 (dev_mtu - (IP_HDR_SIZE_MIN + TCP_HDR_SIZE))) 0
                      (interrupt_ctx pcb) w' (env w') = Ret (-1) [] w').
    { cbn [send_loop]. rewrite ssize_small by lia.
      destruct (Z.ltb_spec 0 (Z.of_nat (length payload))); [|lia].
      change (u32 (snd_wnd (interrupt_ctx pcb)
                   - u32 (snd_nxt (interrupt_ctx pcb)
                          - snd_una (interrupt_ctx pcb))))
        with (send_cap pcb).
      rewrite Hcap. cbn [Z.eqb interrupt_ctx ctx set_ctx].
      unfold put. rewrite (list_insert_id _ _ _ Hi'). reflexivity. }
    destruct Hst as [Hst|Hst]; rewrite Hst; exact Hloop.
Qed.

End EventFacts.

Lemma event_handler_blocking_calls_fail_witness :
  let o := Sample.calm (Timeval.Tv 1 0) in
  let w := Tcp.World (Sample.table Sample.established) Sample.quiet in
  let w' := Tcp.World (Tcp.event_handler (Tcp.pcbs w)) (Tcp.env w) in
  Tcp.tcp_receive 0 16 w' = Tcp.Ret (-1) [] w'.
Proof.
  intros o w w'.
  destruct (event_handler_blocking_calls_fail o 0 w 0%nat Sample.established
              eq_refl) as (_ & Hrecv & _).
  apply Hrecv; reflexivity.
Defined.

(** ** tcp.c: what tcp_send hands to the stack *)

Section SendMore.
Import Timeval Tcp.

Variable o : oracle.

Lemma payloads_out_app tr tr' :
  payloads_out (tr ++ tr') = payloads_out tr ++ payloads_out tr'.
Proof.
  induction tr as [|e tr IH]; [reflexivity|].
  destruct e; cbn [payloads_out app]; rewrite ?IH, ?app_assoc; reflexivity.
Qed.

Lemma bytes_out_nonneg tr : 0 <= bytes_out tr.
Proof.
  induction tr as [|e tr IH]; simpl; [lia|]. destruct e; simpl; lia.
Qed.

Lemma payloads_out_silent tr : bytes_out tr = 0 -> payloads_out tr = [].
Proof.
  induction tr as [|e tr IH]; [reflexivity|].
  pose proof (bytes_out_nonneg tr).
  destruct e as [sq ak fl wn payload lo fo| |msg]; cbn [bytes_out payload_bytes payloads_out];
    intros H0; try (apply IH; lia).
  destruct payload; [apply IH; simpl in H0; lia|].
  simpl length in H0. lia.
Qed.

Lemma firstn_plus {A} (l : list A) a b :
  firstn (a + b) l = firstn a l ++ firstn b (skipn a l).
Proof.
  revert l. induction a as [|a IH]; intros l; [reflexivity|].
  destruct l as [|x l]; simpl.
  - destruct b; reflexivity.
  - rewrite IH. reflexivity.
Qed.

Lemma chunk_next (payload : list byte) sent slen rest :
  0 <= sent -> 0 <= slen -> 0 <= rest ->
  firstn (Z.to_nat slen) (skipn (Z.to_nat sent) payload)
  ++ firstn (Z.to_nat rest) (skipn (Z.to_nat (sent + slen)) payload)
  = firstn (Z.to_nat (slen + rest)) (skipn (Z.to_nat sent) payload).
Proof.
  intros Hs Hl Hr.
  rewrite (Z2Nat.inj_add slen rest), firstn_plus by lia.
  rewrite skipn_skipn. do 3 f_equal. lia.
Qed.

(** With memory at hand, tcp_output leaves the payload at the tail of the
    retransmission queue. *)
Lemma tcp_output_queued pcb fl payload s :
  (forall n, o_alloc o n = true) ->
  queued_data (queue (snd (fst (tcp_output o pcb fl payload s))))
  = queued_data (queue pcb) ++ payload.
Proof.
  intros Halloc. unfold tcp_output, tcp_retransmit_queue_add, tcp_output_segment.
  rewrite !Halloc. cbn [negb].
  destruct (TCP_FLG_ISSET fl (Z.lor TCP_FLG_SYN TCP_FLG_FIN)) eqn:Hf; cbn [orb].
  - destruct (o_ip_output o _); cbn [fst snd queue set_queue];
      unfold queued_data; rewrite map_app, concat_app; simpl;
      rewrite app_nil_r; reflexivity.
  - destruct payload as [|b payload].
    + change (negb (Z.of_nat (length (@nil byte)) =? 0)) with false.
      cbv iota. destruct (o_ip_output o _); cbn [fst snd];
        rewrite app_nil_r; reflexivity.
    + assert (Hn : negb (Z.of_nat (length (b :: payload)) =? 0) = true).
      { destruct (Z.eqb_spec (Z.of_nat (length (b :: payload))) 0) as [E|];
          [simpl length in E; lia | reflexivity]. }
      rewrite Hn.
      destruct (o_ip_output o _); cbn [fst snd queue set_queue];
        unfold queued_data; rewrite map_app, concat_app; simpl;
        rewrite app_nil_r; reflexivity.
Qed.

Lemma send_loop_data fuel : forall i payload mss_ sent pcb w s,
  Z.of_nat (length payload) < 9223372036854775808 ->
  0 <= sent <= Z.of_nat (length payload) -> 0 <= mss_ ->
  (i < length (pcbs w))%nat ->
  let part r := firstn (Z.to_nat (r - sent)) (skipn (Z.to_nat sent) payload) in
  let good r w' :=
    payloads_out (trace (env w')) = payloads_out (trace s) ++ part r
    /\ ((forall n, o_alloc o n = true) ->
        exists pcb', pcbs w' !! i = Some pcb'
          /\ queued_data (queue pcb') = queued_data (queue pcb) ++ part r) in
  match send_loop o fuel i payload mss_ sent pcb w s with
  | Ret r _ w' =>
      r = -1 \/ (sent <= r <= Z.of_nat (length payload) /\ good r w')
  | Park sent' w' =>
      sent <= sent' < Z.of_nat (length payload) /\ good sent' w'
  | Fault => False
  | Fuel => True
  end.
Proof.
  induction fuel as [|n IH];
    intros i payload mss_ sent pcb w s Hlen [Hs Hs'] Hmss Hi part good.
  - exact I.
  - assert (Hstay : forall p, queue p = queue pcb ->
              good sent (put i p s w)).
    { intros p Hq. unfold good, part. rewrite Z.sub_diag.
      cbn [firstn Z.to_nat]. rewrite !app_nil_r. split; [reflexivity|].
      intros _. exists p. split; [apply list_lookup_insert_eq; exact Hi|].
      rewrite Hq. reflexivity. }
    destruct (Z.lt_ge_cases sent (Z.of_nat (length payload))) as [Hlt|Hge].
    + destruct (send_loop_turn o n i payload mss_ sent pcb w s Hlen
                  (conj Hs Hlt) Hmss) as [Hpark Hsend].
      destruct (Z.eq_dec (send_cap pcb) 0) as [Hcap|Hcap].
      * rewrite (Hpark Hcap).
        destruct (Sched.sched_sleep_enter (ctx pcb)) as [r|c].
        -- destruct (Z.eqb_spec sent 0); [left; reflexivity|].
           right. split; [lia|]. apply Hstay. reflexivity.
        -- split; [lia|]. apply Hstay. reflexivity.
      * destruct (Hsend Hcap)
          as (Hchunk & r & pcb1 & s1 & evs & Hout & Hpcb1 & Hevs & Htr & Hr
              & Hgo & Hfail).
        destruct (Z.eq_dec r (-1)) as [E|E].
        -- destruct (Hfail E) as [w' ->]. left. reflexivity.
        -- rewrite (Hgo E).
           set (slen := Z.min (Z.min mss_ (Z.of_nat (length payload) - sent))
                              (send_cap pcb)) in *.
           set (chunk := firstn (Z.to_nat slen)
                           (skipn (Z.to_nat sent) payload)) in *.
           assert (Hslen : 0 <= slen).
           { unfold slen, send_cap, u32.
             pose proof (Z.mod_pos_bound
               (snd_wnd pcb - (snd_nxt pcb - snd_una pcb) mod 4294967296)
               4294967296 ltac:(lia)). lia. }
           assert (Hslen' : sent + slen <= Z.of_nat (length payload))
             by (unfold slen; lia).
           assert (Hp1 : payloads_out (trace s1)
                         = payloads_out (trace s) ++ chunk).
           { rewrite Htr, !payloads_out_app, (payloads_out_silent evs Hevs).
             cbn [payloads_out app]. rewrite app_nil_r. reflexivity. }
           assert (Hq1 : (forall k, o_alloc o k = true) ->
                         queued_data (queue pcb1)
                         = queued_data (queue pcb) ++ chunk).
           { intros Halloc.
             pose proof (tcp_output_queued pcb ACK_PSH chunk s Halloc) as Hq.
             rewrite Hout in Hq. exact Hq. }
           specialize (IH i payload mss_ (sent + slen)
                         (set_snd_nxt (u32 (snd_nxt pcb + slen)) pcb1) w s1
                         Hlen ltac:(lia) Hmss Hi).
           cbv zeta in IH.
           assert (Hjoin : forall r',
                     sent + slen <= r' ->
                     chunk ++ firstn (Z.to_nat (r' - (sent + slen)))
                                (skipn (Z.to_nat (sent + slen)) payload)
                     = part r').
           { intros r' Hr'. unfold chunk, part.
             rewrite chunk_next by lia. do 2 f_equal. lia. }
           destruct (send_loop o n i payload mss_ (sent + slen) _ w s1)
             as [r' out w'|sent' w'| |]; try exact IH.
           ++ destruct IH as [IH|(IHr & IHp & IHq)]; [left; exact IH|].
              right. split; [lia|]. split.
              ** rewrite IHp, Hp1, <- app_assoc, Hjoin by lia. reflexivity.
              ** intros Halloc. destruct (IHq Halloc) as (pcb' & Hp' & Hq').
                 exists pcb'. split; [exact Hp'|].
                 rewrite Hq'. cbn [queue set_snd_nxt].
                 rewrite (Hq1 Halloc), <- app_assoc, Hjoin by lia.
                 reflexivity.
           ++ destruct IH as (IHr & IHp & IHq).
              split; [lia|]. split.
              ** rewrite IHp, Hp1, <- app_assoc, Hjoin by lia. reflexivity.
              ** intros Halloc. destruct (IHq Halloc) as (pcb' & Hp' & Hq').
                 exists pcb'. split; [exact Hp'|].
                 rewrite Hq'. cbn [queue set_snd_nxt].
                 rewrite (Hq1 Halloc), <- app_assoc, Hjoin by lia.
                 reflexivity.
    + assert (Hnlt : (sent <? ssize (Z.of_nat (length payload))) = false)
        by (rewrite ssize_small by lia; apply Z.ltb_ge; lia).
      cbn [send_loop]. rewrite Hnlt.
      right. split; [lia|]. apply Hstay. reflexivity.
Qed.

(** tcp_send hands the caller's bytes to the stack in order and each
    once.  When it returns r other than -1, or parks having sent r, the
    payloads of the segments it passed to tcp_output_segment, put end to
    end, are the first r bytes of the caller's buffer; and when memory
    never runs out the same bytes have been appended to the retransmission
    queue. *)
Theorem tcp_send_data_in_order fuel id payload w i pcb dev_mtu :
  Z.of_nat (length payload) < 9223372036854775808 ->
  tcp_pcb_get (pcbs w) id = Some (i, pcb) ->
  state pcb = ESTABLISHED \/ state pcb = CLOSE_WAIT ->
  o_route o (addr (foreign pcb)) = Some dev_mtu ->
  let good r w' :=
    0 <= r <= Z.of_nat (length payload)
    /\ payloads_out (trace (env w'))
       = payloads_out (trace (env w)) ++ firstn (Z.to_nat r) payload
    /\ ((forall n, o_alloc o n = true) ->
        exists pcb', pcbs w' !! i = Some pcb'
          /\ queued_data (queue pcb')
             = queued_data (queue pcb) ++ firstn (Z.to_nat r) payload) in
  match tcp_send o fuel id payload w with
  | Ret r _ w' => r = -1 \/ good r w'
  | Park sent w' => sent < Z.of_nat (length payload) /\ good sent w'
  | Fault => False
  | Fuel => True
  end.
Proof.
  intros Hlen Hget Hst Hroute good.
  destruct (tcp_pcb_get_lookup _ _ _ _ Hget) as (Hi & Hfree & Hid & Hiz).
  pose proof (lookup_lt_Some _ _ _ Hi) as Hlt.
  assert (Hsend : tcp_send o fuel id payload w
                  = send_loop o fuel i payload
                      (u64 (dev_mtu - (IP_HDR_SIZE_MIN + TCP_HDR_SIZE))) 0
                      pcb w (env w)).
  { unfold tcp_send. rewrite Hget. unfold tcp_send_retry. rewrite Hi, Hroute.
    destruct Hst as [-> | ->]; reflexivity. }
  rewrite Hsend.
  pose proof (send_loop_data fuel i payload
                (u64 (dev_mtu - (IP_HDR_SIZE_MIN + TCP_HDR_SIZE))) 0 pcb w
                (env w) Hlen ltac:(lia)
                ltac:(unfold u64; apply Z.mod_pos_bound; lia) Hlt) as H.
  cbv zeta in H.
  destruct (send_loop o fuel i payload _ 0 pcb w (env w))
    as [r out w'|sent w'| |]; try exact H.
  - destruct H as [H|(Hr & Hp & Hq)]; [left; exact H|]. right.
    rewrite Z.sub_0_r in Hp, Hq. cbn [Z.to_nat skipn] in Hp, Hq.
    unfold good. split; [lia|]. split; assumption.
  - destruct H as (Hr & Hp & Hq).
    rewrite Z.sub_0_r in Hp, Hq. cbn [Z.to_nat skipn] in Hp, Hq.
    split; [lia|]. unfold good. split; [lia|]. split; assumption.
Qed.

End SendMore.

Lemma tcp_send_data_in_order_witness :
  let o := Sample.calm (Timeval.Tv 1 0) in
  let w := Tcp.World (Sample.table Sample.established) Sample.quiet in
  let good r w' :=
    0 <= r <= 10
    /\ Tcp.payloads_out (Tcp.trace (Tcp.env w'))
       = firstn (Z.to_nat r) Sample.digits
    /\ ((forall n, Tcp.o_alloc o n = true) ->
        exists pcb', Tcp.pcbs w' !! 0%nat = Some pcb'
          /\ Tcp.queued_data (Tcp.queue pcb')
             = firstn (Z.to_nat r) Sample.digits) in
  match Tcp.tcp_send o 20 0 Sample.digits w with
  | Tcp.Ret r _ w' => r = -1 \/ good r w'
  | Tcp.Park sent w' => sent < 10 /\ good sent w'
  | Tcp.Fault => False
  | Tcp.Fuel => True
  end.
Proof.
  intros o w.
  apply (tcp_send_data_in_order o 20 0 Sample.digits w 0%nat
           Sample.established 1500);
    try reflexivity; try (left; reflexivity); simpl; lia.
Defined.

(** ** tcp.c: from tcp_output_segment to tcp_input *)

Section InputFacts.
Import Timeval Cksum Tcp.

Variable big_endian : bool.
Variable o : oracle.

Lemma bytes16 v :
  0 <= v < 65536 -> (v / 256) mod 256 * 256 + v mod 256 = v.
Proof.
  intros Hv. rewrite (Z.mod_small (v / 256)).
  - pose proof (Z.div_mod v 256 ltac:(lia)). lia.
  - split; [apply Z.div_pos; lia | apply Z.div_lt_upper_bound; lia].
Qed.

Lemma bytes32 v :
  0 <= v < 4294967296 ->
  (v / 16777216) mod 256 * 16777216 + (v / 65536) mod 256 * 65536
  + (v / 256) mod 256 * 256 + v mod 256 = v.
Proof.
  intros Hv.
  assert (H3 : (v / 16777216) mod 256 = v / 16777216).
  { apply Z.mod_small.
    split; [apply Z.div_pos; lia | apply Z.div_lt_upper_bound; lia]. }
  rewrite H3.
  replace (v / 16777216) with (v / 65536 / 256)
    by (rewrite Z.div_div by lia; reflexivity).
  replace (v / 65536) with (v / 256 / 256)
    by (rewrite Z.div_div by lia; reflexivity).
  pose proof (Z.div_mod v 256 ltac:(lia)).
  pose proof (Z.div_mod (v / 256) 256 ltac:(lia)).
  pose proof (Z.div_mod (v / 256 / 256) 256 ltac:(lia)).
  lia.
Qed.

Lemma load16_store16 v b0 b1 :
  0 <= v < 65536 -> store16 big_endian v = [b0; b1] ->
  load16 big_endian b0 b1 = v.
Proof.
  intros Hv. unfold store16, load16. pose proof (bytes16 v Hv).
  destruct big_endian; intros E; injection E as <- <-;
    rewrite !bval_byte_of; lia.
Qed.

Lemma load32_store32 v b0 b1 b2 b3 :
  0 <= v < 4294967296 -> store32 big_endian v = [b0; b1; b2; b3] ->
  load32 big_endian b0 b1 b2 b3 = v.
Proof.
  intros Hv. unfold store32, load32. pose proof (bytes32 v Hv).
  destruct big_endian; intros E; injection E as <- <- <- <-;
    rewrite !bval_byte_of; lia.
Qed.

Lemma hton16_range v : 0 <= hton16 big_endian v < 65536.
Proof.
  unfold hton16. cbv zeta.
  pose proof (Z.mod_pos_bound v 65536 ltac:(lia)) as Hv.
  destruct big_endian; [exact Hv|].
  pose proof (Z.mod_pos_bound (v mod 65536) 256 ltac:(lia)).
  assert (0 <= v mod 65536 / 256 < 256)
    by (split; [apply Z.div_pos; lia | apply Z.div_lt_upper_bound; lia]).
  lia.
Qed.

Lemma hton32_range v : 0 <= hton32 big_endian v < 4294967296.
Proof.
  unfold hton32. cbv zeta.
  pose proof (Z.mod_pos_bound v 4294967296 ltac:(lia)) as Hv.
  destruct big_endian; [exact Hv|].
  set (x := v mod 4294967296) in *.
  pose proof (Z.mod_pos_bound x 256 ltac:(lia)).
  pose proof (Z.mod_pos_bound (x / 256) 256 ltac:(lia)).
  pose proof (Z.mod_pos_bound (x / 65536) 256 ltac:(lia)).
  assert (0 <= x / 16777216 < 256)
    by (split; [apply Z.div_pos; lia | apply Z.div_lt_upper_bound; lia]).
  lia.
Qed.

(** ntoh16 undoes hton16, and ntoh32 undoes hton32. *)
Lemma ntoh16_hton16 v :
  0 <= v < 65536 -> ntoh16 big_endian (hton16 big_endian v) = v.
Proof.
  intros Hv. unfold ntoh16, hton16. cbv zeta.
  rewrite (Z.mod_small v 65536) by lia.
  destruct big_endian; [apply Z.mod_small; lia|].
  pose proof (Z.mod_pos_bound v 256 ltac:(lia)).
  assert (Hq : 0 <= v / 256 < 256)
    by (split; [apply Z.div_pos; lia | apply Z.div_lt_upper_bound; lia]).
  set (w := v mod 256 * 256 + v / 256).
  assert (Hw : w mod 65536 = w) by (apply Z.mod_small; unfold w; lia).
  rewrite Hw.
  assert (Hlo : w mod 256 = v / 256).
  { unfold w. rewrite Z.add_comm, Z.mod_add by lia. apply Z.mod_small; lia. }
  assert (Hhi : w / 256 = v mod 256).
  { unfold w. rewrite Z.add_comm, Z.div_add by lia.
    rewrite Z.div_small by lia. lia. }
  rewrite Hlo, Hhi. pose proof (Z.div_mod v 256 ltac:(lia)). lia.
Qed.

Lemma ntoh32_hton32 v :
  0 <= v < 4294967296 -> ntoh32 big_endian (hton32 big_endian v) = v.
Proof.
  intros Hv. unfold ntoh32, hton32. cbv zeta.
  rewrite (Z.mod_small v 4294967296) by lia.
  destruct big_endian; [apply Z.mod_small; lia|].
  set (a := v mod 256). set (b := (v / 256) mod 256).
  set (c := (v / 65536) mod 256). set (d := v / 16777216).
  assert (Ha : 0 <= a < 256) by (apply Z.mod_pos_bound; lia).
  assert (Hb : 0 <= b < 256) by (apply Z.mod_pos_bound; lia).
  assert (Hc : 0 <= c < 256) by (apply Z.mod_pos_bound; lia).
  assert (Hd : 0 <= d < 256)
    by (split; [apply Z.div_pos; lia | apply Z.div_lt_upper_bound; lia]).
  assert (Hv' : v = d * 16777216 + c * 65536 + b * 256 + a).
  { pose proof (bytes32 v Hv) as H. fold a b c in H.
    rewrite (Z.mod_small (v / 16777216)) in H by (fold d; lia).
    fold d in H. lia. }
  set (w := a * 16777216 + b * 65536 + c * 256 + d).
  assert (Hw : w mod 4294967296 = w) by (apply Z.mod_small; unfold w; lia).
  rewrite Hw.
  assert (H0 : w mod 256 = d).
  { replace w with (d + (a * 65536 + b * 256 + c) * 256) by (unfold w; lia).
    rewrite Z.mod_add by lia. apply Z.mod_small; lia. }
  assert (H1 : (w / 256) mod 256 = c).
  { replace w with (d + (a * 65536 + b * 256 + c) * 256) by (unfold w; lia).
    rewrite Z.div_add, Z.div_small by lia.
    replace (0 + (a * 65536 + b * 256 + c)) with (c + (a * 256 + b) * 256)
      by lia.
    rewrite Z.mod_add by lia. apply Z.mod_small; lia. }
  assert (H2 : (w / 65536) mod 256 = b).
  { replace w with (d + c * 256 + (a * 256 + b) * 65536) by (unfold w; lia).
    rewrite Z.div_add, Z.div_small by lia.
    replace (0 + (a * 256 + b)) with (b + a * 256) by lia.
    rewrite Z.mod_add by lia. apply Z.mod_small; lia. }
  assert (H3 : w / 16777216 = a).
  { replace w with (d + c * 256 + b * 65536 + a * 16777216)
      by (unfold w; lia).
    rewrite Z.div_add, Z.div_small by lia. lia. }
  rewrite H0, H1, H2, H3. lia.
Qed.

(** The members of the header that tcp_output_segment has built, read
    back through the struct. *)
Lemma header_fields sq ak fl wn sum lo fo payload :
  0 <= sq < 4294967296 -> 0 <= ak < 4294967296 -> 0 <= fl < 256 ->
  0 <= wn < 65536 -> 0 <= port lo < 65536 -> 0 <= port fo < 65536 ->
  let bytes := header_image big_endian sq ak fl wn sum lo fo ++ payload in
  field16 big_endian bytes 0 = port lo
  /\ field16 big_endian bytes 2 = port fo
  /\ ntoh32 big_endian (field32 big_endian bytes 4) = sq
  /\ ntoh32 big_endian (field32 big_endian bytes 8) = ak
  /\ field8 bytes 12 = 80
  /\ field8 bytes 13 = fl
  /\ ntoh16 big_endian (field16 big_endian bytes 14) = wn
  /\ ntoh16 big_endian (field16 big_endian bytes 18) = 0.
Proof.
  intros Hsq Hak Hfl Hwn Hlo Hfo bytes. subst bytes.
  pose proof (hton32_range sq) as Hsq'. pose proof (hton32_range ak) as Hak'.
  pose proof (hton16_range wn) as Hwn'.
  assert (E16 : forall v, exists b0 b1, store16 big_endian v = [b0; b1])
    by (intros v; unfold store16; destruct big_endian; eexists _, _; reflexivity).
  assert (E32 : forall v, exists b0 b1 b2 b3,
                  store32 big_endian v = [b0; b1; b2; b3])
    by (intros v; unfold store32; destruct big_endian;
        eexists _, _, _, _; reflexivity).
  unfold header_image.
  destruct (E16 (port lo)) as (l0 & l1 & El).
  destruct (E16 (port fo)) as (f0 & f1 & Ef).
  destruct (E32 (hton32 big_endian sq)) as (s0 & s1 & s2 & s3 & Es).
  destruct (E32 (hton32 big_endian ak)) as (a0 & a1 & a2 & a3 & Ea).
  destruct (E16 (hton16 big_endian wn)) as (w0 & w1 & Ew).
  destruct (E16 sum) as (c0 & c1 & Ec).
  destruct (E16 0) as (u0 & u1 & Eu).
  rewrite El, Ef, Es, Ea, Ew, Ec, Eu.
  unfold field16, field32, field8, byte_at. cbn [app nth Nat.add].
  rewrite (load16_store16 _ _ _ Hlo El), (load16_store16 _ _ _ Hfo Ef).
  rewrite (load32_store32 _ _ _ _ _ Hsq' Es), (load32_store32 _ _ _ _ _ Hak' Ea).
  rewrite (load16_store16 _ _ _ Hwn' Ew).
  rewrite (load16_store16 0 _ _ ltac:(lia) Eu).
  rewrite (ntoh32_hton32 _ Hsq), (ntoh32_hton32 _ Hak), (ntoh16_hton16 _ Hwn).
  rewrite !bval_byte_of.
  repeat split; try reflexivity.
  - apply Z.mod_small. exact Hfl.
  - unfold ntoh16, hton16. destruct big_endian; reflexivity.
Qed.

(** What tcp_output_segment sends, tcp_input receives.  The bytes built
    for <SEQ=sq><ACK=ak><CTL=fl><WND=wn> with a payload, from [lo] to [fo],
    given to tcp_input with these source and destination addresses on a
    host of the same byte order, pass every check and reach
    tcp_segment_arrives with the same sequence and acknowledgement
    numbers, flags, window and payload, an urgent pointer of 0, a segment
    length that counts the payload and one more for each of SYN and FIN,
    and the two endpoints exchanged. *)
Theorem tcp_input_of_output sq ak fl wn payload lo fo w :
  TCP_HDR_SIZE + Z.of_nat (length payload) <= IP_PAYLOAD_SIZE_MAX ->
  0 <= sq < 4294967296 -> 0 <= ak < 4294967296 -> 0 <= fl < 256 ->
  0 <= wn < 65536 -> 0 <= port lo < 65536 -> 0 <= port fo < 65536 ->
  addr lo <> IP_ADDR_BROADCAST -> addr fo <> IP_ADDR_BROADCAST ->
  tcp_input o big_endian (segment_image big_endian sq ak fl wn payload lo fo)
    (addr lo) (addr fo) w
  = tcp_segment_arrives o
      (Seg sq ak
           (Z.of_nat (length payload)
            + (if TCP_FLG_ISSET fl TCP_FLG_SYN then 1 else 0)
            + (if TCP_FLG_ISSET fl TCP_FLG_FIN then 1 else 0))
           wn 0)
      fl payload (Z.of_nat (length payload)) fo lo w.
Proof.
  intros Hlen Hsq Hak Hfl Hwn Hlo Hfo Hsrc Hdst.
  pose proof (segment_image_verifies big_endian sq ak fl wn payload lo fo Hlen)
    as Hver.
  unfold TCP_HDR_SIZE, IP_PAYLOAD_SIZE_MAX, IP_HDR_SIZE_MIN in Hlen.
  unfold tcp_input. rewrite Hver.
  unfold segment_image in *. cbv zeta.
  set (sum := cksum16 big_endian _ _ _).
  destruct (header_fields sq ak fl wn sum lo fo payload Hsq Hak Hfl Hwn Hlo Hfo)
    as (F0 & F2 & F4 & F8 & F12 & F13 & F14 & F18).
  rewrite F0, F2, F4, F8, F12, F13, F14, F18.
  rewrite length_app, header_image_length.
  replace (Z.of_nat (20 + length payload))
    with (20 + Z.of_nat (length payload)) by lia.
  unfold TCP_HDR_SIZE.
  destruct (Z.ltb_spec (20 + Z.of_nat (length payload)) 20); [lia|].
  cbn [Z.eqb negb].
  destruct (Z.eqb_spec (addr lo) IP_ADDR_BROADCAST); [contradiction|].
  destruct (Z.eqb_spec (addr fo) IP_ADDR_BROADCAST); [contradiction|].
  change (u16 (Z.shiftl (Z.shiftr 80 4) 2)) with 20.
  replace (20 + Z.of_nat (length payload) - 20)
    with (Z.of_nat (length payload)) by lia.
  assert (Hu16 : forall k, 0 <= k <= 2 ->
            u16 (Z.of_nat (length payload) + k) = Z.of_nat (length payload) + k)
    by (intros k Hk; unfold u16; apply Z.mod_small; lia).
  assert (Hl0 : u16 (Z.of_nat (length payload)) = Z.of_nat (length payload))
    by (rewrite <- (Z.add_0_r (Z.of_nat (length payload))) at 1;
        rewrite Hu16 by lia; lia).
  assert (Hu64 : u64 (Z.of_nat (length payload)) = Z.of_nat (length payload))
    by (unfold u64; apply Z.mod_small; lia).
  rewrite Hl0, Hu64.
  assert (Hskip : skipn (Z.to_nat 20)
                    (header_image big_endian sq ak fl wn sum lo fo ++ payload)
                  = payload).
  { rewrite skipn_app, header_image_length.
    change (Z.to_nat 20 - 20)%nat with 0%nat. cbn [skipn].
    rewrite skipn_all2 by (rewrite header_image_length; simpl; lia).
    reflexivity. }
  rewrite Hskip.
  assert (Hseg : (if TCP_FLG_ISSET fl TCP_FLG_FIN
                  then u16 ((if TCP_FLG_ISSET fl TCP_FLG_SYN
                             then u16 (Z.of_nat (length payload) + 1)
                             else Z.of_nat (length payload)) + 1)
                  else if TCP_FLG_ISSET fl TCP_FLG_SYN
                       then u16 (Z.of_nat (length payload) + 1)
                       else Z.of_nat (length payload))
                 = Z.of_nat (length payload)
                   + (if TCP_FLG_ISSET fl TCP_FLG_SYN then 1 else 0)
                   + (if TCP_FLG_ISSET fl TCP_FLG_FIN then 1 else 0)).
  { destruct (TCP_FLG_ISSET fl TCP_FLG_SYN), (TCP_FLG_ISSET fl TCP_FLG_FIN);
      rewrite ?(Hu16 1) by lia; try lia.
    replace (Z.of_nat (length payload) + 1 + 1)
      with (Z.of_nat (length payload) + 2) by lia.
    rewrite (Hu16 2) by lia. lia. }
  rewrite Hseg. destruct lo, fo. reflexivity.
Qed.

(** tcp_input does not compare the data offset of the header with the
    length of the segment.  When the offset points past the end of a
    segment that passes the checksum test and is in sequence for an
    ESTABLISHED connection, the length handed on is len - hlen taken as a
    size_t, and the copy into the receive buffer leaves both the segment
    and the buffer. *)
Theorem tcp_input_data_offset_unchecked bytes src dst w i pcb :
  let len := Z.of_nat (length bytes) in
  let hlen := 4 * (field8 bytes 12 / 16) in
  let flags := field8 bytes 13 in
  TCP_HDR_SIZE <= len ->
  tcp_input_verify big_endian bytes src dst = 0 ->
  src <> IP_ADDR_BROADCAST -> dst <> IP_ADDR_BROADCAST ->
  len < hlen ->
  TCP_FLG_ISSET flags TCP_FLG_RST = false ->
  TCP_FLG_ISSET flags TCP_FLG_SYN = false ->
  TCP_FLG_ISSET flags TCP_FLG_ACK = true ->
  tcp_pcb_select (pcbs w) (Ep dst (field16 big_endian bytes 2))
    (Some (Ep src (field16 big_endian bytes 0))) = Some (i, pcb) ->
  state pcb = ESTABLISHED ->
  ntoh32 big_endian (field32 big_endian bytes 4) = rcv_nxt pcb ->
  ntoh32 big_endian (field32 big_endian bytes 8) <= snd_nxt pcb ->
  0 < rcv_wnd pcb ->
  0 <= rcv_nxt pcb -> rcv_nxt pcb + rcv_wnd pcb < 4294967296 ->
  tcp_input o big_endian bytes src dst w = None.
Proof.
  intros len hlen flags Hlen Hver Hsrc Hdst Hoff Hrst Hsyn Hack Hsel Hst
         Hseq Hackno Hwnd Hnxt Hwrap.
  unfold TCP_HDR_SIZE in Hlen.
  pose proof (bval_range (byte_at bytes 12)) as Hb. fold (field8 bytes 12) in Hb.
  assert (Hq : 0 <= field8 bytes 12 / 16 < 16)
    by (split; [apply Z.div_pos; lia | apply Z.div_lt_upper_bound; lia]).
  assert (Hh : u16 (Z.shiftl (Z.shiftr (field8 bytes 12) 4) 2) = hlen).
  { rewrite Z.shiftr_div_pow2, Z.shiftl_mul_pow2 by lia.
    change (2 ^ 4) with 16. change (2 ^ 2) with 4.
    unfold u16, hlen. rewrite Z.mod_small by lia. lia. }
  unfold tcp_input. fold len. rewrite Hver, Hh.
  unfold TCP_HDR_SIZE.
  destruct (Z.ltb_spec len 20); [lia|]. cbn [Z.eqb negb].
  destruct (Z.eqb_spec src IP_ADDR_BROADCAST); [contradiction|].
  destruct (Z.eqb_spec dst IP_ADDR_BROADCAST); [contradiction|].
  fold flags.
  set (seg := Seg _ _ _ _ _).
  rewrite (tcp_segment_arrives_selected o seg flags _ _ _ _ w i pcb Hsel)
    by (rewrite Hst; discriminate).
  assert (Hacc : acceptable_in_state seg pcb = true).
  { unfold acceptable_in_state. rewrite Hst.
    apply seg_acceptable_at_rcv_nxt; auto. }
  destruct (ack_update_goes_on o seg pcb (env w) Hackno)
    as (p1 & Hup & Hst1 & _).
  unfold arrives_pcb. rewrite Hst, Hacc, Hrst, Hsyn, Hack. cbn [negb].
  unfold arrives_ack. rewrite Hst. unfold ack_synchronized. rewrite Hup.
  rewrite Hst1, Hst. unfold arrives_text. rewrite Hst1, Hst.
  assert (Hu : u64 (len - hlen) = 18446744073709551616 + (len - hlen)).
  { unfold u64. symmetry. apply Z.mod_unique with (q := -1); lia. }
  rewrite Hu.
  destruct (Z.eqb_spec (18446744073709551616 + (len - hlen)) 0); [lia|].
  unfold buf_write.
  assert (Hshort : Z.of_nat (length (skipn (Z.to_nat hlen) bytes)) = 0).
  { rewrite length_skipn. unfold len in *. lia. }
  rewrite Hshort.
  destruct (Z.leb_spec (18446744073709551616 + (len - hlen)) 0); [lia|].
  reflexivity.
Qed.

End InputFacts.

Lemma tcp_input_of_output_witness :
  let o := Sample.calm (Timeval.Tv 1 0) in
  let w := Tcp.World (Sample.table Sample.established) Sample.quiet in
  Tcp.tcp_input o false
    (Tcp.segment_image false 1000 2000 Tcp.ACK_PSH 16 Sample.digits
       Sample.peer Sample.here)
    (Tcp.addr Sample.peer) (Tcp.addr Sample.here) w
  = Tcp.tcp_segment_arrives o (Tcp.Seg 1000 2000 10 16 0) Tcp.ACK_PSH
      Sample.digits 10 Sample.here Sample.peer w.
Proof.
  intros o w.
  apply (tcp_input_of_output false o 1000 2000 Tcp.ACK_PSH 16 Sample.digits
           Sample.peer Sample.here w);
    vm_compute; intuition congruence.
Defined.

Lemma tcp_input_data_offset_unchecked_witness :
  let o := Sample.calm (Timeval.Tv 1 0) in
  let w := Tcp.World (Sample.table Sample.established) Sample.quiet in
  Tcp.tcp_input o false Sample.long_offset
    (Tcp.addr Sample.peer) (Tcp.addr Sample.here) w = None.
Proof.
  intros o w.
  apply (tcp_input_data_offset_unchecked false o Sample.long_offset
           (Tcp.addr Sample.peer) (Tcp.addr Sample.here) w 0%nat
           Sample.established);
    try reflexivity; vm_compute; intuition congruence.
Defined.

(** ** tcp.c: opening a connection *)

Section OpenFacts.
Import Timeval Tcp.

Variable o : oracle.

Lemma tcp_output_form pcb fl payload s :
  exists r q s1 evs,
    tcp_output o pcb fl payload s = (r, set_queue q pcb, s1)
    /\ (r = -1 \/ r = Z.of_nat (length payload))
    /\ trace s1
       = trace s ++ evs
         ++ [Segment (if TCP_FLG_ISSET fl TCP_FLG_SYN then iss pcb
                      else snd_nxt pcb)
                     (rcv_nxt pcb) fl (rcv_wnd pcb) payload
                     (local pcb) (foreign pcb)].
Proof.
  destruct (tcp_output_spec o pcb fl payload s)
    as (r & pcb1 & s1 & evs & Hout & Hr & Hpcb1 & _ & Htr).
  exists r, (queue pcb1), s1, evs. rewrite <- Hpcb1. auto.
Qed.

(** LISTEN: a SYN turns the listening PCB itself into the connection. *)
Lemma arrives_pcb_listen_syn seg flags payload len lo fo pcb s :
  state pcb = LISTEN ->
  TCP_FLG_ISSET flags TCP_FLG_RST = false ->
  TCP_FLG_ISSET flags TCP_FLG_ACK = false ->
  TCP_FLG_ISSET flags TCP_FLG_SYN = true ->
  let iss_ := u32 (o_random o (ticks s)) in
  exists q s1 evs,
    arrives_pcb o seg flags payload len lo fo pcb s
    = Some (set_state SYN_RECEIVED
              (set_snd_una iss_
                 (set_snd_nxt (u32 (iss_ + 1))
                    (set_queue q
                       (set_iss iss_
                          (set_irs (seg_seq seg)
                             (set_rcv_nxt (u32 (seg_seq seg + 1))
                                (set_rcv_wnd BUF_SIZE
                                   (set_foreign fo (set_local lo pcb))))))))),
            s1)
    /\ trace s1
       = trace s ++ evs
         ++ [Segment iss_ (u32 (seg_seq seg + 1)) SYN_ACK BUF_SIZE [] lo fo].
Proof.
  intros Hst Hrst Hack Hsyn iss_.
  unfold arrives_pcb. rewrite Hst. unfold arrives_listen.
  rewrite Hrst, Hack, Hsyn. cbv zeta. fold iss_.
  set (p0 := set_iss iss_ _).
  destruct (tcp_output_form p0 SYN_ACK [] (tick s))
    as (r & q & s1 & evs & Hout & _ & Htr).
  rewrite Hout. exists q, s1, evs. split; [reflexivity|].
  rewrite Htr. reflexivity.
Qed.

(** SYN_RECEIVED: the acknowledgement of the SYN establishes the
    connection and wakes the task that waits in tcp_open_rfc793. *)
Lemma arrives_pcb_syn_received_ack seg flags payload lo fo pcb s :
  state pcb = SYN_RECEIVED ->
  TCP_FLG_ISSET flags TCP_FLG_RST = false ->
  TCP_FLG_ISSET flags TCP_FLG_SYN = false ->
  TCP_FLG_ISSET flags TCP_FLG_FIN = false ->
  TCP_FLG_ISSET flags TCP_FLG_ACK = true ->
  seg_seq seg = rcv_nxt pcb -> seg_len seg = 0 ->
  snd_una pcb < seg_ack seg <= snd_nxt pcb ->
  0 <= rcv_wnd pcb ->
  0 <= rcv_nxt pcb -> rcv_nxt pcb + rcv_wnd pcb < 4294967296 ->
  exists wnd wl2,
    arrives_pcb o seg flags payload 0 lo fo pcb s
    = Some (set_snd_wl2 wl2 (set_snd_wnd wnd
              (set_queue (queue_cleanup (seg_ack seg) (queue pcb))
                 (set_snd_una (seg_ack seg) (set_state ESTABLISHED pcb)))),
            emit Wakeup s).
Proof.
  intros Hst Hrst Hsyn Hfin Hack Hseq Hlen Hackno Hwnd Hnxt Hwrap.
  assert (Hacc : acceptable_in_state seg pcb = true).
  { unfold acceptable_in_state. rewrite Hst.
    apply seg_acceptable_at_rcv_nxt; auto. }
  destruct (ack_update_new o seg (set_state ESTABLISHED pcb) (emit Wakeup s)
              Hackno) as (wnd & wl2 & Hup).
  unfold arrives_pcb. rewrite Hst, Hacc, Hrst, Hsyn, Hack. cbn [negb].
  unfold arrives_ack. rewrite Hst.
  destruct (Z.leb_spec (snd_una pcb) (seg_ack seg)); [|lia].
  destruct (Z.leb_spec (seg_ack seg) (snd_nxt pcb)); [|lia].
  cbn [andb]. unfold ack_synchronized. rewrite Hup.
  cbn [state set_snd_wl2 set_snd_wnd set_queue set_snd_una set_state].
  unfold arrives_text.
  cbn [state set_snd_wl2 set_snd_wnd set_queue set_snd_una set_state Z.eqb].
  unfold arrives_fin. rewrite Hfin.
  exists wnd, wl2. reflexivity.
Qed.

(** SYN_SENT: the SYN,ACK that acknowledges the SYN establishes the
    connection; the ACK goes out and the opener is woken. *)
Lemma arrives_pcb_syn_sent_syn_ack seg flags payload len lo fo pcb s :
  state pcb = SYN_SENT ->
  TCP_FLG_ISSET flags TCP_FLG_RST = false ->
  TCP_FLG_ISSET flags TCP_FLG_SYN = true ->
  TCP_FLG_ISSET flags TCP_FLG_ACK = true ->
  iss pcb < seg_ack seg <= snd_nxt pcb ->
  snd_una pcb <= seg_ack seg ->
  arrives_pcb o seg flags payload len lo fo pcb s
  = Some (set_snd_wl2 (seg_ack seg)
            (set_snd_wl1 (seg_seq seg)
               (set_snd_wnd (seg_wnd seg)
                  (set_state ESTABLISHED
                     (set_queue (queue_cleanup (seg_ack seg) (queue pcb))
                        (set_snd_una (seg_ack seg)
                           (set_irs (seg_seq seg)
                              (set_rcv_nxt (u32 (seg_seq seg + 1)) pcb))))))),
          emit Wakeup
            (tick (emit (Segment (snd_nxt pcb) (u32 (seg_seq seg + 1))
                           TCP_FLG_ACK (rcv_wnd pcb) []
                           (local pcb) (foreign pcb)) s))).
Proof.
  intros Hst Hrst Hsyn Hack [Hlo Hhi] Huna.
  unfold arrives_pcb. rewrite Hst. unfold arrives_syn_sent.
  rewrite Hack, Hrst, Hsyn. cbn [andb].
  destruct (Z.leb_spec (seg_ack seg) (iss pcb)); [lia|].
  destruct (Z.gtb_spec (seg_ack seg) (snd_nxt pcb)); [lia|].
  cbn [orb]. cbv zeta.
  destruct (Z.leb_spec (snd_una pcb) (seg_ack seg)); [|lia].
  destruct (Z.leb_spec (seg_ack seg) (snd_nxt pcb)); [|lia].
  cbn [andb].
  unfold tcp_retransmit_queue_cleanup.
  cbn [snd_una iss set_queue set_snd_una set_irs set_rcv_nxt queue].
  destruct (Z.gtb_spec (seg_ack seg) (iss pcb)); [|lia].
  rewrite tcp_output_bare by reflexivity.
  reflexivity.
Qed.

Lemma tcp_pcb_alloc_fresh ps i p ps' :
  tcp_pcb_alloc ps = Some (i, p, ps') ->
  exists q,
    ps !! i = Some q /\ state q = FREE
    /\ (forall j r, (j < i)%nat -> ps !! j = Some r -> state r <> FREE)
    /\ p = set_ctx (Sched.Ctx 0 0) (set_state CLOSED q)
    /\ ps' = <[i := p]> ps.
Proof.
  unfold tcp_pcb_alloc. intros H.
  pose proof (pcb_alloc_loop_spec ps 0) as S. rewrite H in S.
  destruct S as (j & q & -> & Hj & Hq & Hmin & Hp & Hps).
  exists q. simpl. auto.
Qed.

Lemma tcp_open_wait_sleeps i st w pcb :
  pcbs w !! i = Some pcb -> state pcb = st ->
  Sched.interrupted (ctx pcb) = 0 ->
  tcp_open_wait o i st w
  = OpenPark i st
      (World (<[i := set_ctx (Sched.Ctx 0 (Sched.wc (ctx pcb) + 1)) pcb]>
                (pcbs w)) (env w)).
Proof.
  intros Hi Hst Hint. unfold tcp_open_wait. rewrite Hi.
  assert (His : is_state (state pcb) st = true)
    by (apply is_state_true; exact Hst).
  rewrite His. unfold open_sleep, Sched.sched_sleep_enter.
  rewrite Hint. reflexivity.
Qed.

(** The two ways in which tcp_open_rfc793 goes to sleep: after a passive
    open with the first FREE slot in LISTEN, and after an active open
    with that slot in SYN_SENT and the SYN sent. *)
Lemma tcp_open_rfc793_parks lo fo act w i st w0 :
  tcp_open_rfc793 o lo fo act w = OpenPark i st w0 ->
  exists q,
    pcbs w !! i = Some q /\ state q = FREE
    /\ (forall j r, (j < i)%nat -> pcbs w !! j = Some r -> state r <> FREE)
    /\ let base := set_start_time (o_time o (ticks (env w)))
                     (set_active act
                        (set_ctx (Sched.Ctx 0 0) (set_state CLOSED q))) in
       if act =? 0 then
         st = LISTEN
         /\ w0 = World
                   (<[i := set_ctx (Sched.Ctx 0 1)
                             (set_state LISTEN
                                (match fo with
                                 | Some f => set_foreign f (set_local lo base)
                                 | None => set_local lo base
                                 end))]> (pcbs w))
                   (tick (env w))
       else
         exists f qu evs s0,
           let iss_ := u32 (o_random o (S (ticks (env w)))) in
           fo = Some f /\ st = SYN_SENT
           /\ w0 = World
                     (<[i := set_ctx (Sched.Ctx 0 1)
                               (set_state SYN_SENT
                                  (set_snd_nxt (u32 (iss_ + 1))
                                     (set_snd_una iss_
                                        (set_queue qu
                                           (set_iss iss_
                                              (set_rcv_wnd BUF_SIZE
                                                 (set_foreign f
                                                    (set_local lo base))))))))]>
                        (pcbs w))
                     s0
           /\ trace s0
              = trace (env w) ++ evs
                ++ [Segment iss_ (rcv_nxt q) TCP_FLG_SYN BUF_SIZE [] lo f].
Proof.
  unfold tcp_open_rfc793.
  destruct (tcp_pcb_alloc (pcbs w)) as [[[j p] ps]|] eqn:Ha; [|discriminate].
  destruct (tcp_pcb_alloc_fresh _ _ _ _ Ha) as (q & Hq & Hfree & Hmin & Hp & Hps).
  pose proof (lookup_lt_Some _ _ _ Hq) as Hlt.
  subst p ps. cbv zeta.
  destruct (Z.eqb_spec act 0) as [Hact|Hact]; cbn [negb].
  - set (P := set_state LISTEN _).
    rewrite (tcp_open_wait_sleeps j LISTEN _ P);
      [ | cbn [pcbs]; apply list_lookup_insert_eq; rewrite length_insert;
          exact Hlt
        | destruct fo; reflexivity | destruct fo; reflexivity ].
    intros E. injection E as <- <- <-.
    exists q. split; [exact Hq|]. split; [exact Hfree|]. split; [exact Hmin|].
    split; [reflexivity|].
    cbn [pcbs env]. rewrite !list_insert_insert_eq.
    f_equal. f_equal. subst P. destruct fo; reflexivity.
  - destruct fo as [f|]; [|discriminate].
    set (p0 := set_iss _ _).
    destruct (tcp_output_form p0 TCP_FLG_SYN [] (tick (tick (env w))))
      as (r & qu & s0 & evs & Hout & Hr & Htr).
    rewrite Hout.
    destruct (Z.eqb_spec r (-1)).
    + unfold open_abort. destruct (tcp_pcb_release o _ _). discriminate.
    + set (P := set_state SYN_SENT _).
      rewrite (tcp_open_wait_sleeps j SYN_SENT _ P);
        [ | cbn [pcbs]; apply list_lookup_insert_eq; rewrite length_insert;
            exact Hlt
          | reflexivity | reflexivity ].
      intros E. injection E as <- <- <-.
      exists q. split; [exact Hq|]. split; [exact Hfree|].
      split; [exact Hmin|].
      exists f, qu, evs, s0. split; [reflexivity|]. split; [reflexivity|].
      split.
      * cbn [pcbs env]. rewrite !list_insert_insert_eq. reflexivity.
      * rewrite Htr. reflexivity.
Qed.

(** What a task finds when it comes back from the wait in
    tcp_open_rfc793, which gave [ret], on the PCB [pcb] of its slot,
    [woken] being that PCB with the task taken off the wait count.
    - When the context is interrupted or the wait has failed, the call
      returns -1 after the PCB has been put in CLOSED and released: the
      PCB stays in CLOSED when pthread_cond_destroy returns -1, and the
      slot is cleared to FREE when it returns another value.
    - Otherwise, when the state is still the one the task waits on, or
      has become SYN_RECEIVED, the task goes back to sleep; when it has
      become ESTABLISHED, the call returns the index of the slot, which
      is a valid handle; in every other state the call returns -1 after
      an error message, the PCB released in the same way. *)
Theorem tcp_open_wake_spec i st ret w pcb :
  Z.of_nat (length (pcbs w)) = TCP_PCB_SIZE ->
  pcbs w !! i = Some pcb ->
  let woken := set_ctx (snd (Sched.sched_sleep_resume ret (ctx pcb))) pcb in
  let aborted (s : sys) :=
    OpenRet (-1)
      (if o_cond_destroy o (ticks s) =? -1
       then World (<[i := set_state CLOSED woken]> (pcbs w))
                  (emit Wakeup (tick s))
       else World (<[i := pcb_zero]> (pcbs w)) (tick s)) in
  let asleep (st' : tcp_state) :=
    OpenPark i st'
      (World (<[i := set_ctx (Sched.Ctx 0 (Sched.wc (ctx pcb))) pcb]> (pcbs w))
             (env w)) in
  (Sched.interrupted (ctx pcb) <> 0 \/ ret = -1 ->
   tcp_open_wake o i st ret w = aborted (env w))
  /\ (Sched.interrupted (ctx pcb) = 0 -> ret <> -1 ->
      woken = set_ctx (Sched.Ctx 0 (Sched.wc (ctx pcb) - 1)) pcb
      /\ (state pcb = st -> tcp_open_wake o i st ret w = asleep st)
      /\ (state pcb <> st -> state pcb = SYN_RECEIVED ->
          tcp_open_wake o i st ret w = asleep SYN_RECEIVED)
      /\ (state pcb <> st -> state pcb = ESTABLISHED ->
          tcp_open_wake o i st ret w
          = OpenRet (Z.of_nat i) (World (<[i := woken]> (pcbs w)) (env w))
          /\ tcp_pcb_get (<[i := woken]> (pcbs w)) (Z.of_nat i)
             = Some (i, woken))
      /\ (state pcb <> st -> state pcb <> SYN_RECEIVED ->
          state pcb <> ESTABLISHED ->
          tcp_open_wake o i st ret w
          = aborted (emit (Errorf "open error: %d") (env w)))).
Proof.
  intros Hlen Hi woken aborted asleep.
  pose proof (lookup_lt_Some _ _ _ Hi) as Hlt.
  assert (Habort : forall s,
            open_abort o i woken s (put i woken (env w) w) = aborted s).
  { intros s. unfold open_abort, tcp_pcb_release, aborted.
    destruct (o_cond_destroy o (ticks s) =? -1);
      unfold put; cbn [pcbs]; rewrite list_insert_insert_eq; reflexivity. }
  assert (Hwake : tcp_open_wake o i st ret w
                  = if negb (Sched.interrupted (ctx pcb) =? 0) || (ret =? -1)
                    then aborted (env w)
                    else tcp_open_wait o i st (put i woken (env w) w)).
  { unfold tcp_open_wake. rewrite Hi. rewrite <- Habort.
    unfold woken, Sched.sched_sleep_resume.
    cbn [Sched.interrupted Sched.wc].
    destruct (Z.eqb_spec (Sched.interrupted (ctx pcb)) 0) as [Hint|Hint];
      cbn [negb orb fst snd Z.eqb]; [|reflexivity].
    destruct (ret =? -1); reflexivity. }
  split.
  - intros Hor. rewrite Hwake.
    destruct (Z.eqb_spec (Sched.interrupted (ctx pcb)) 0) as [Hint|Hint];
      cbn [negb orb]; [|reflexivity].
    destruct Hor as [Hor|Hor]; [contradiction|].
    rewrite Hor. reflexivity.
  - intros Hint Hret.
    assert (Hw : woken = set_ctx (Sched.Ctx 0 (Sched.wc (ctx pcb) - 1)) pcb).
    { unfold woken, Sched.sched_sleep_resume.
      cbn [Sched.interrupted Sched.wc]. rewrite Hint. reflexivity. }
    split; [exact Hw|].
    assert (Hgo : tcp_open_wake o i st ret w
                  = tcp_open_wait o i st (put i woken (env w) w)).
    { rewrite Hwake, Hint. cbn [Z.eqb negb orb].
      destruct (Z.eqb_spec ret (-1)); [contradiction | reflexivity]. }
    assert (Hi1 : pcbs (put i woken (env w) w) !! i = Some woken)
      by (apply list_lookup_insert_eq; exact Hlt).
    assert (Hst : state woken = state pcb) by reflexivity.
    assert (Hsleep : forall st',
              open_sleep o i st' woken (put i woken (env w) w) = asleep st').
    { intros st'. unfold open_sleep, Sched.sched_sleep_enter, asleep.
      rewrite Hw. cbn [ctx set_ctx Sched.interrupted Sched.wc Z.eqb negb].
      unfold put. cbn [pcbs env]. rewrite list_insert_insert_eq.
      do 3 f_equal. unfold set_ctx. cbn. do 2 f_equal. lia. }
    rewrite Hgo. unfold tcp_open_wait. rewrite Hi1, Hst.
    split; [|split; [|split]].
    + intros Hs. rewrite (proj2 (is_state_true _ _) Hs). apply Hsleep.
    + intros Hs Hr. rewrite (proj2 (is_state_false _ _) Hs), Hr.
      cbn [is_state state_code Z.eqb negb]. apply Hsleep.
    + intros Hs He. rewrite (proj2 (is_state_false _ _) Hs).
      rewrite (proj2 (is_state_true _ _) He). cbn [negb].
      split; [reflexivity|].
      unfold tcp_pcb_get, TCP_PCB_SIZE in *.
      destruct (Z.ltb_spec (Z.of_nat i) 0); [lia|].
      destruct (Z.geb_spec (Z.of_nat i) 16); [lia|].
      cbn [orb]. rewrite Nat2Z.id.
      change (pcbs (put i woken (env w) w)) with (<[i := woken]> (pcbs w))
        in Hi1.
      rewrite Hi1, Hst.
      assert (Hf : is_state (state pcb) FREE = false)
        by (rewrite He; reflexivity).
      rewrite Hf. reflexivity.
    + intros Hs Hr He. rewrite (proj2 (is_state_false _ _) Hs).
      rewrite (proj2 (is_state_false _ _) He). cbn [negb].
      rewrite (proj2 (is_state_false _ _) Hr). apply Habort.
Qed.

Lemma full_match_self lo fo p :
  local p = lo -> foreign p = fo -> full_match lo fo p = true.
Proof.
  intros <- <-. unfold full_match, local_match, foreign_match.
  rewrite !Z.eqb_refl, orb_true_r. reflexivity.
Qed.

(** The task that slept in tcp_open_rfc793 on slot [i] with wait count 1
    finds the connection ESTABLISHED and gets the handle. *)
Lemma tcp_open_wake_established i st w pcb :
  Z.of_nat (length (pcbs w)) = TCP_PCB_SIZE ->
  pcbs w !! i = Some pcb ->
  state pcb = ESTABLISHED -> st <> ESTABLISHED ->
  ctx pcb = Sched.Ctx 0 1 ->
  tcp_open_wake o i st 0 w
  = OpenRet (Z.of_nat i) (put i (set_ctx (Sched.Ctx 0 0) pcb) (env w) w)
  /\ tcp_pcb_get (<[i := set_ctx (Sched.Ctx 0 0) pcb]> (pcbs w)) (Z.of_nat i)
     = Some (i, set_ctx (Sched.Ctx 0 0) pcb).
Proof.
  intros Hlen Hi Hst Hne Hctx.
  pose proof (lookup_lt_Some _ _ _ Hi) as Hlt.
  assert (Hi1 : <[i := set_ctx (Sched.Ctx 0 0) pcb]> (pcbs w) !! i
                = Some (set_ctx (Sched.Ctx 0 0) pcb))
    by (apply list_lookup_insert_eq; exact Hlt).
  split.
  - unfold tcp_open_wake. rewrite Hi, Hctx.
    unfold Sched.sched_sleep_resume. cbn [Sched.interrupted Sched.wc Z.eqb negb].
    cbv beta iota zeta. change (1 - 1) with 0. cbn [Z.eqb].
    unfold tcp_open_wait. cbn [put pcbs]. rewrite Hi1.
    change (state (set_ctx (Sched.Ctx 0 0) pcb)) with (state pcb).
    rewrite Hst.
    assert (Hs : is_state ESTABLISHED st = false)
      by (apply is_state_false; congruence).
    rewrite Hs. reflexivity.
  - unfold tcp_pcb_get, TCP_PCB_SIZE in *.
    destruct (Z.ltb_spec (Z.of_nat i) 0); [lia|].
    destruct (Z.geb_spec (Z.of_nat i) 16); [lia|].
    cbn [orb]. rewrite Nat2Z.id, Hi1.
    change (state (set_ctx (Sched.Ctx 0 0) pcb)) with (state pcb).
    rewrite Hst. reflexivity.
Qed.

(** A passive open, from the call to the handle.  tcp_open_rfc793 puts
    the first FREE slot in LISTEN and sleeps.  A SYN for that PCB turns
    it into the connection: it is bound to the two endpoints of the
    segment, answers <SEQ=iss><ACK=seq+1><CTL=SYN,ACK> with a random iss
    and enters SYN_RECEIVED.  The acknowledgement of iss + 1 makes it
    ESTABLISHED, and the sleeper, once woken, returns the index of the
    slot, which is a valid handle. *)
Theorem tcp_open_passive_connects lo ofo w i st w0 slo fo p0
    syn_seg fs payload len ack_seg fa :
  Z.of_nat (length (pcbs w)) = TCP_PCB_SIZE ->
  tcp_open_rfc793 o lo ofo 0 w = OpenPark i st w0 ->
  tcp_pcb_select (pcbs w0) slo (Some fo) = Some (i, p0) ->
  TCP_FLG_ISSET fs TCP_FLG_RST = false ->
  TCP_FLG_ISSET fs TCP_FLG_ACK = false ->
  TCP_FLG_ISSET fs TCP_FLG_SYN = true ->
  0 <= seg_seq syn_seg -> seg_seq syn_seg + 1 + BUF_SIZE < 4294967296 ->
  let iss_ := u32 (o_random o (ticks (env w0))) in
  iss_ + 1 < 4294967296 ->
  TCP_FLG_ISSET fa TCP_FLG_RST = false ->
  TCP_FLG_ISSET fa TCP_FLG_SYN = false ->
  TCP_FLG_ISSET fa TCP_FLG_FIN = false ->
  TCP_FLG_ISSET fa TCP_FLG_ACK = true ->
  seg_seq ack_seg = seg_seq syn_seg + 1 -> seg_len ack_seg = 0 ->
  seg_ack ack_seg = iss_ + 1 ->
  exists w1 w2 w3 p3,
    st = LISTEN
    /\ tcp_segment_arrives o syn_seg fs payload len slo fo w0 = Some w1
    /\ (exists tr, trace (env w1)
                   = trace (env w0) ++ tr
                     ++ [Segment iss_ (seg_seq syn_seg + 1) SYN_ACK BUF_SIZE
                                 [] slo fo])
    /\ tcp_segment_arrives o ack_seg fa [] 0 slo fo w1 = Some w2
    /\ tcp_open_wake o i st 0 w2 = OpenRet (Z.of_nat i) w3
    /\ tcp_pcb_get (pcbs w3) (Z.of_nat i) = Some (i, p3)
    /\ state p3 = ESTABLISHED /\ local p3 = slo /\ foreign p3 = fo
    /\ irs p3 = seg_seq syn_seg /\ rcv_nxt p3 = seg_seq syn_seg + 1
    /\ rcv_wnd p3 = BUF_SIZE
    /\ iss p3 = iss_ /\ snd_una p3 = iss_ + 1 /\ snd_nxt p3 = iss_ + 1
    /\ ctx p3 = Sched.Ctx 0 0.
Proof.
  intros Hlen Hopen Hsel Hsrst Hsack Hssyn Hseq0 Hseq1 iss_ Hiss
         Harst Hasyn Hafin Haack Haseq Halen Haackno.
  unfold BUF_SIZE in Hseq1.
  destruct (tcp_open_rfc793_parks _ _ _ _ _ _ _ Hopen)
    as (q & Hq & Hfree & _ & Hcase).
  cbv zeta in Hcase. cbn [Z.eqb] in Hcase. destruct Hcase as [-> Hw0].
  pose proof (lookup_lt_Some _ _ _ Hq) as Hlt.
  destruct (tcp_pcb_select_lookup slo fo _ _ _ Hsel) as [Hi0 _].
  assert (Hp0 : state p0 = LISTEN /\ ctx p0 = Sched.Ctx 0 1).
  { rewrite Hw0 in Hi0. cbn [pcbs] in Hi0.
    rewrite list_lookup_insert_eq in Hi0 by exact Hlt.
    injection Hi0 as <-. destruct ofo; split; reflexivity. }
  destruct Hp0 as [Hst0 Hctx0].
  assert (Hlen0 : length (pcbs w0) = length (pcbs w))
    by (rewrite Hw0; cbn [pcbs]; apply length_insert).
  (* the SYN *)
  destruct (arrives_pcb_listen_syn syn_seg fs payload len slo fo p0 (env w0)
              Hst0 Hsrst Hsack Hssyn) as (qu & s1 & evs & Harr1 & Htr1).
  fold iss_ in Harr1, Htr1.
  rewrite (u32_small (seg_seq syn_seg + 1)) in Harr1, Htr1 by lia.
  rewrite (u32_small (iss_ + 1)) in Harr1 by (unfold iss_, u32 in *;
    pose proof (Z.mod_pos_bound (o_random o (ticks (env w0))) 4294967296
                  ltac:(lia)); lia).
  set (p1 := set_state SYN_RECEIVED _) in Harr1.
  set (w1 := put i p1 s1 w0).
  assert (Hstep1 : tcp_segment_arrives o syn_seg fs payload len slo fo w0
                   = Some w1).
  { rewrite (tcp_segment_arrives_selected o _ _ _ _ _ _ w0 i p0 Hsel)
      by (rewrite Hst0; discriminate).
    rewrite Harr1. reflexivity. }
  assert (Hsel1 : tcp_pcb_select (pcbs w1) slo (Some fo) = Some (i, p1)).
  { apply (tcp_pcb_select_update slo fo (pcbs w0) i p0 p1 Hsel).
    apply full_match_self; reflexivity. }
  (* the ACK *)
  destruct (arrives_pcb_syn_received_ack ack_seg fa [] slo fo p1 s1)
    as (wnd & wl2 & Harr2);
    try assumption; try reflexivity;
    try (cbn [p1 snd_una snd_nxt rcv_wnd rcv_nxt set_state set_snd_una
              set_snd_nxt set_queue set_iss set_irs set_rcv_nxt set_rcv_wnd
              set_foreign set_local]; unfold BUF_SIZE; lia).
  set (p2 := set_snd_wl2 wl2 _) in Harr2.
  set (w2 := put i p2 (emit Wakeup s1) w1).
  assert (Hstep2 : tcp_segment_arrives o ack_seg fa [] 0 slo fo w1 = Some w2).
  { rewrite (tcp_segment_arrives_selected o _ _ _ _ _ _ w1 i p1 Hsel1)
      by discriminate.
    change (env w1) with s1. rewrite Harr2. reflexivity. }
  (* the sleeper *)
  assert (Hi2 : pcbs w2 !! i = Some p2).
  { apply list_lookup_insert_eq. cbn [w1 put pcbs].
    rewrite length_insert, Hlen0. exact Hlt. }
  assert (Hlen2 : Z.of_nat (length (pcbs w2)) = TCP_PCB_SIZE).
  { cbn [w2 w1 put pcbs]. rewrite !length_insert, Hlen0. exact Hlen. }
  destruct (tcp_open_wake_established i LISTEN w2 p2 Hlen2 Hi2 eq_refl
              ltac:(discriminate) Hctx0) as [Hwake Hget].
  exists w1, w2. eexists. exists (set_ctx (Sched.Ctx 0 0) p2).
  split; [reflexivity|]. split; [exact Hstep1|].
  split; [exists evs; exact Htr1|]. split; [exact Hstep2|].
  split; [exact Hwake|]. split; [exact Hget|].
  cbn [p2 p1 state local foreign irs rcv_nxt rcv_wnd iss snd_una snd_nxt ctx
       set_ctx set_snd_wl2 set_snd_wnd set_queue set_snd_una set_state
       set_snd_nxt set_iss set_irs set_rcv_nxt set_rcv_wnd set_foreign
       set_local].
  rewrite Haackno. repeat split; reflexivity.
Qed.

(** An active open, from the call to the handle.  tcp_open_rfc793 sends
    <SEQ=iss><CTL=SYN> from the first FREE slot, puts it in SYN_SENT with
    snd.una = iss and snd.nxt = iss + 1, and sleeps.  The SYN,ACK that
    acknowledges iss + 1 makes the PCB ESTABLISHED with rcv.nxt = seq + 1
    and the send window of the segment, is answered with
    <SEQ=iss+1><ACK=seq+1><CTL=ACK>, and wakes the sleeper, which returns
    the index of the slot, a valid handle. *)
Theorem tcp_open_active_connects lo fo act w i st w0 p0 seg flags payload len :
  Z.of_nat (length (pcbs w)) = TCP_PCB_SIZE ->
  act <> 0 ->
  tcp_open_rfc793 o lo (Some fo) act w = OpenPark i st w0 ->
  tcp_pcb_select (pcbs w0) lo (Some fo) = Some (i, p0) ->
  TCP_FLG_ISSET flags TCP_FLG_RST = false ->
  TCP_FLG_ISSET flags TCP_FLG_SYN = true ->
  TCP_FLG_ISSET flags TCP_FLG_ACK = true ->
  let iss_ := u32 (o_random o (S (ticks (env w)))) in
  iss_ + 1 < 4294967296 ->
  seg_ack seg = iss_ + 1 ->
  exists w1 w2 p2,
    st = SYN_SENT
    /\ (exists tr rn, trace (env w0)
                      = trace (env w) ++ tr
                        ++ [Segment iss_ rn TCP_FLG_SYN BUF_SIZE [] lo fo])
    /\ tcp_segment_arrives o seg flags payload len lo fo w0 = Some w1
    /\ trace (env w1)
       = trace (env w0)
         ++ [Segment (iss_ + 1) (u32 (seg_seq seg + 1)) TCP_FLG_ACK BUF_SIZE
                     [] lo fo; Wakeup]
    /\ tcp_open_wake o i st 0 w1 = OpenRet (Z.of_nat i) w2
    /\ tcp_pcb_get (pcbs w2) (Z.of_nat i) = Some (i, p2)
    /\ state p2 = ESTABLISHED /\ local p2 = lo /\ foreign p2 = fo
    /\ iss p2 = iss_ /\ snd_una p2 = iss_ + 1 /\ snd_nxt p2 = iss_ + 1
    /\ irs p2 = seg_seq seg /\ rcv_nxt p2 = u32 (seg_seq seg + 1)
    /\ snd_wnd p2 = seg_wnd seg
    /\ snd_wl1 p2 = seg_seq seg /\ snd_wl2 p2 = seg_ack seg
    /\ ctx p2 = Sched.Ctx 0 0.
Proof.
  intros Hlen Hact Hopen Hsel Hrst Hsyn Hack iss_ Hiss Hackno.
  destruct (tcp_open_rfc793_parks _ _ _ _ _ _ _ Hopen)
    as (q & Hq & Hfree & _ & Hcase).
  cbv zeta in Hcase.
  destruct (Z.eqb_spec act 0) as [|_]; [contradiction|].
  destruct Hcase as (f & qu & evs & s0 & Hf & -> & Hw0 & Htr0).
  injection Hf as <-. fold iss_ in Hw0, Htr0.
  assert (Hiss0 : 0 <= iss_)
    by (unfold iss_, u32; apply Z.mod_pos_bound; lia).
  rewrite (u32_small (iss_ + 1)) in Hw0 by lia.
  pose proof (lookup_lt_Some _ _ _ Hq) as Hlt.
  destruct (tcp_pcb_select_lookup lo fo _ _ _ Hsel) as [Hi0 _].
  set (P0 := set_ctx (Sched.Ctx 0 1) _) in Hw0.
  assert (Hp0 : p0 = P0).
  { rewrite Hw0 in Hi0. cbn [pcbs] in Hi0.
    rewrite list_lookup_insert_eq in Hi0 by exact Hlt.
    injection Hi0 as <-. reflexivity. }
  subst p0.
  assert (Hlen0 : length (pcbs w0) = length (pcbs w))
    by (rewrite Hw0; cbn [pcbs]; apply length_insert).
  pose proof (arrives_pcb_syn_sent_syn_ack seg flags payload len lo fo P0
                (env w0) eq_refl Hrst Hsyn Hack) as Harr.
  cbn [P0 iss snd_una snd_nxt rcv_wnd local foreign queue
       set_ctx set_state set_snd_nxt set_snd_una set_queue set_iss
       set_rcv_wnd set_foreign set_local set_start_time set_active] in Harr.
  fold P0 in Harr.
  specialize (Harr ltac:(lia) ltac:(lia)).
  set (p1 := set_snd_wl2 _ _) in Harr.
  set (s1 := emit Wakeup _) in Harr.
  set (w1 := put i p1 s1 w0).
  assert (Hstep : tcp_segment_arrives o seg flags payload len lo fo w0
                  = Some w1).
  { rewrite (tcp_segment_arrives_selected o _ _ _ _ _ _ w0 i P0 Hsel)
      by discriminate.
    rewrite Harr. reflexivity. }
  assert (Hi1 : pcbs w1 !! i = Some p1).
  { apply list_lookup_insert_eq. rewrite Hlen0. exact Hlt. }
  assert (Hlen1 : Z.of_nat (length (pcbs w1)) = TCP_PCB_SIZE).
  { cbn [w1 put pcbs]. rewrite length_insert, Hlen0. exact Hlen. }
  destruct (tcp_open_wake_established i SYN_SENT w1 p1 Hlen1 Hi1 eq_refl
              ltac:(discriminate) eq_refl) as [Hwake Hget].
  exists w1. eexists. exists (set_ctx (Sched.Ctx 0 0) p1).
  split; [reflexivity|].
  split; [exists evs, (rcv_nxt q); rewrite Hw0; exact Htr0|].
  split; [exact Hstep|].
  split.
  { cbn [w1 put env s1 emit tick trace]. rewrite <- app_assoc. reflexivity. }
  split; [exact Hwake|]. split; [exact Hget|].
  cbn [p1 P0 state local foreign irs rcv_nxt iss snd_una snd_nxt snd_wnd
       snd_wl1 snd_wl2 ctx
       set_ctx set_snd_wl2 set_snd_wl1 set_snd_wnd set_queue set_snd_una
       set_state set_snd_nxt set_iss set_irs set_rcv_nxt set_rcv_wnd
       set_foreign set_local set_start_time set_active].
  rewrite Hackno. repeat split; reflexivity.
Qed.

(** The readings a SYN takes in tcp_output, and its result. *)
Lemma tcp_output_syn pcb s :
  let out := tcp_output o pcb TCP_FLG_SYN [] s in
  let m := (ticks s + (if o_alloc o (ticks s) then 3 else 1))%nat in
  ticks (snd out) = S m
  /\ fst (fst out) = (if o_ip_output o m then 0 else -1).
Proof.
  unfold tcp_output, tcp_retransmit_queue_add, tcp_output_segment.
  change (TCP_FLG_ISSET TCP_FLG_SYN (Z.lor TCP_FLG_SYN TCP_FLG_FIN)
          || negb (Z.of_nat (length (@nil byte)) =? 0)) with true.
  cbv iota.
  destruct (o_alloc o (ticks s)); cbn [negb].
  - destruct (o_alloc o (ticks (tick (tick s)))); cbn [negb];
      cbn [tick emit ticks fst snd];
      replace (ticks s + 3)%nat with (S (S (S (ticks s)))) by lia;
      destruct (o_ip_output o _); cbn [tick emit ticks fst snd length];
      split; reflexivity.
  - cbn [tick emit ticks fst snd].
    replace (ticks s + 1)%nat with (S (ticks s)) by lia.
    destruct (o_ip_output o _); cbn [tick emit ticks fst snd length];
      split; reflexivity.
Qed.

(** The ways in which tcp_open_rfc793 ends, or not, before it sleeps.
    Without a FREE slot it returns -1 and the table is as before.  With
    one, a passive open always goes to sleep; an active open without a
    foreign endpoint reads through the null pointer; an active open
    whose SYN ip_output accepts goes to sleep in SYN_SENT; and an active
    open whose SYN ip_output refuses returns -1 after the PCB has been
    put in CLOSED and released: the PCB stays in CLOSED, bound to the two
    endpoints, when pthread_cond_destroy returns -1, and the slot is
    cleared to FREE when it returns another value.  [m] is the reading
    at which ip_output is asked: the fifth after the call when the first
    allocation for the retransmission queue succeeds, the third when it
    fails. *)
Theorem tcp_open_rfc793_failures lo fo act w :
  match tcp_pcb_alloc (pcbs w) with
  | None =>
      tcp_open_rfc793 o lo fo act w
      = OpenRet (-1)
          (World (pcbs w) (emit (Errorf "tcp_pcb_alloc() failure") (env w)))
  | Some (i, _, _) =>
      if act =? 0 then
        exists w0, tcp_open_rfc793 o lo fo act w = OpenPark i LISTEN w0
      else
        match fo with
        | None => tcp_open_rfc793 o lo fo act w = OpenFault
        | Some f =>
            let m := (ticks (env w)
                      + (if o_alloc o (ticks (env w) + 2) then 5 else 3))%nat in
            if o_ip_output o m then
              exists w0,
                tcp_open_rfc793 o lo fo act w = OpenPark i SYN_SENT w0
            else
              exists w' p',
                tcp_open_rfc793 o lo fo act w = OpenRet (-1) w'
                /\ pcbs w' = <[i := p']> (pcbs w)
                /\ if o_cond_destroy o (S m) =? -1
                   then state p' = CLOSED /\ local p' = lo /\ foreign p' = f
                   else p' = pcb_zero
        end
  end.
Proof.
  unfold tcp_open_rfc793.
  destruct (tcp_pcb_alloc (pcbs w)) as [[[i p] ps]|] eqn:Ha; [|reflexivity].
  destruct (tcp_pcb_alloc_fresh _ _ _ _ Ha) as (q & Hq & Hfree & Hmin & Hp & Hps).
  pose proof (lookup_lt_Some _ _ _ Hq) as Hlt.
  subst p ps. cbv zeta.
  destruct (Z.eqb_spec act 0) as [Hact|Hact]; cbn [negb].
  - set (P := set_state LISTEN _).
    rewrite (tcp_open_wait_sleeps i LISTEN _ P);
      [ | cbn [pcbs]; apply list_lookup_insert_eq; rewrite length_insert;
          exact Hlt
        | destruct fo; reflexivity | destruct fo; reflexivity ].
    eexists. reflexivity.
  - destruct fo as [f|]; [|reflexivity].
    set (p0 := set_iss _ _).
    destruct (tcp_output_form p0 TCP_FLG_SYN [] (tick (tick (env w))))
      as (r & qu & s0 & evs & Hout & Hr & Htr).
    pose proof (tcp_output_syn p0 (tick (tick (env w)))) as Hsyn.
    cbv zeta in Hsyn. rewrite Hout in Hsyn. cbn [fst snd tick ticks] in Hsyn.
    destruct Hsyn as [Htk Hres].
    replace (ticks (env w) + 2)%nat with (S (S (ticks (env w)))) by lia.
    replace (ticks (env w)
             + (if o_alloc o (S (S (ticks (env w)))) then 5 else 3))%nat
      with (S (S (ticks (env w)))
            + (if o_alloc o (S (S (ticks (env w)))) then 3 else 1))%nat
      by (destruct (o_alloc o _); lia).
    set (m := (S (S (ticks (env w)))
               + (if o_alloc o (S (S (ticks (env w)))) then 3 else 1))%nat)
      in *.
    rewrite Hout.
    destruct (o_ip_output o m).
    + subst r. cbn [Z.eqb].
      set (P := set_state SYN_SENT _).
      rewrite (tcp_open_wait_sleeps i SYN_SENT _ P);
        [ | cbn [pcbs]; apply list_lookup_insert_eq; rewrite length_insert;
            exact Hlt
          | reflexivity | reflexivity ].
      eexists. reflexivity.
    + subst r. cbn [Z.eqb].
      unfold open_abort, tcp_pcb_release. cbn [emit ticks]. rewrite Htk.
      destruct (o_cond_destroy o (S m) =? -1);
        eexists _, _; (split; [reflexivity|]);
        unfold put; cbn [pcbs]; rewrite list_insert_insert_eq;
        (split; [reflexivity|]); [repeat split | reflexivity].
Qed.

End OpenFacts.

(** A task woken on an ESTABLISHED connection on which it was the only
    sleeper. *)
Lemma tcp_open_wake_spec_witness :
  let o := Sample.calm (Timeval.Tv 1 0) in
  let pcb := Tcp.set_ctx (Sched.Ctx 0 1) Sample.established in
  let w := Tcp.World (Sample.table pcb) Sample.quiet in
  Tcp.tcp_open_wake o 0 Tcp.LISTEN 0 w
  = Tcp.OpenRet 0 (Tcp.World (Sample.table Sample.established) Sample.quiet)
  /\ Tcp.tcp_pcb_get (Sample.table Sample.established) 0
     = Some (0%nat, Sample.established).
Proof.
  intros o pcb w.
  destruct (tcp_open_wake_spec o 0 Tcp.LISTEN 0 w pcb eq_refl eq_refl)
    as [_ H].
  destruct (H eq_refl ltac:(lia)) as (_ & _ & _ & He & _).
  exact (He ltac:(discriminate) eq_refl).
Defined.

(** A passive open on port 80 of an empty table; the peer's SYN has
    sequence number 999 and the oracle gives iss = 1000. *)
Lemma tcp_open_passive_connects_witness :
  let o := Sample.calm (Timeval.Tv 1 0) in
  let w := Tcp.World (repeat Tcp.pcb_zero 16) Sample.quiet in
  let w0 := match Tcp.tcp_open_rfc793 o (Tcp.Ep 0 80) None 0 w with
            | Tcp.OpenPark _ _ w0 => w0
            | _ => w
            end in
  exists w1 w2 w3 p3,
    Tcp.LISTEN = Tcp.LISTEN
    /\ Tcp.tcp_segment_arrives o (Tcp.Seg 999 0 1 16 0) Tcp.TCP_FLG_SYN [] 0
         Sample.here Sample.peer w0 = Some w1
    /\ (exists tr, Tcp.trace (Tcp.env w1)
                   = Tcp.trace (Tcp.env w0) ++ tr
                     ++ [Tcp.Segment 1000 1000 Tcp.SYN_ACK 16 []
                           Sample.here Sample.peer])
    /\ Tcp.tcp_segment_arrives o (Tcp.Seg 1000 1001 0 16 0) Tcp.TCP_FLG_ACK
         [] 0 Sample.here Sample.peer w1 = Some w2
    /\ Tcp.tcp_open_wake o 0 Tcp.LISTEN 0 w2 = Tcp.OpenRet 0 w3
    /\ Tcp.tcp_pcb_get (Tcp.pcbs w3) 0 = Some (0%nat, p3)
    /\ Tcp.state p3 = Tcp.ESTABLISHED
    /\ Tcp.local p3 = Sample.here /\ Tcp.foreign p3 = Sample.peer
    /\ Tcp.irs p3 = 999 /\ Tcp.rcv_nxt p3 = 1000 /\ Tcp.rcv_wnd p3 = 16
    /\ Tcp.iss p3 = 1000 /\ Tcp.snd_una p3 = 1001 /\ Tcp.snd_nxt p3 = 1001
    /\ Tcp.ctx p3 = Sched.Ctx 0 0.
Proof.
  intros o w w0.
  pose proof (tcp_open_passive_connects o (Tcp.Ep 0 80) None w 0%nat
                Tcp.LISTEN w0 Sample.here Sample.peer
                (nth 0 (Tcp.pcbs w0) Tcp.pcb_zero)
                (Tcp.Seg 999 0 1 16 0) Tcp.TCP_FLG_SYN [] 0
                (Tcp.Seg 1000 1001 0 16 0) Tcp.TCP_FLG_ACK) as H.
  specialize (H eq_refl ltac:(vm_compute; reflexivity)
                ltac:(vm_compute; reflexivity) eq_refl eq_refl eq_refl
                ltac:(vm_compute; congruence) ltac:(vm_compute; reflexivity)).
  cbv zeta in H.
  specialize (H ltac:(vm_compute; reflexivity) eq_refl eq_refl eq_refl eq_refl
                ltac:(vm_compute; reflexivity) eq_refl
                ltac:(vm_compute; reflexivity)).
  exact H.
Defined.

(** An active open from [here] to [peer] on an empty table; the oracle
    gives iss = 1000 and the peer answers <SEQ=5000><ACK=1001>
    <CTL=SYN,ACK><WND=8>. *)
Lemma tcp_open_active_connects_witness :
  let o := Sample.calm (Timeval.Tv 1 0) in
  let w := Tcp.World (repeat Tcp.pcb_zero 16) Sample.quiet in
  let w0 := match Tcp.tcp_open_rfc793 o Sample.here (Some Sample.peer) 1 w with
            | Tcp.OpenPark _ _ w0 => w0
            | _ => w
            end in
  exists w1 w2 p2,
    Tcp.SYN_SENT = Tcp.SYN_SENT
    /\ (exists tr rn, Tcp.trace (Tcp.env w0)
                      = Tcp.trace (Tcp.env w) ++ tr
                        ++ [Tcp.Segment 1000 rn Tcp.TCP_FLG_SYN 16 []
                              Sample.here Sample.peer])
    /\ Tcp.tcp_segment_arrives o (Tcp.Seg 5000 1001 1 8 0) Tcp.SYN_ACK [] 0
         Sample.here Sample.peer w0 = Some w1
    /\ Tcp.trace (Tcp.env w1)
       = Tcp.trace (Tcp.env w0)
         ++ [Tcp.Segment 1001 5001 Tcp.TCP_FLG_ACK 16 []
               Sample.here Sample.peer; Tcp.Wakeup]
    /\ Tcp.tcp_open_wake o 0 Tcp.SYN_SENT 0 w1 = Tcp.OpenRet 0 w2
    /\ Tcp.tcp_pcb_get (Tcp.pcbs w2) 0 = Some (0%nat, p2)
    /\ Tcp.state p2 = Tcp.ESTABLISHED
    /\ Tcp.local p2 = Sample.here /\ Tcp.foreign p2 = Sample.peer
    /\ Tcp.iss p2 = 1000 /\ Tcp.snd_una p2 = 1001 /\ Tcp.snd_nxt p2 = 1001
    /\ Tcp.irs p2 = 5000 /\ Tcp.rcv_nxt p2 = 5001
    /\ Tcp.snd_wnd p2 = 8
    /\ Tcp.snd_wl1 p2 = 5000 /\ Tcp.snd_wl2 p2 = 1001
    /\ Tcp.ctx p2 = Sched.Ctx 0 0.
Proof.
  intros o w w0.
  pose proof (tcp_open_active_connects o Sample.here Sample.peer 1 w 0%nat
                Tcp.SYN_SENT w0 (nth 0 (Tcp.pcbs w0) Tcp.pcb_zero)
                (Tcp.Seg 5000 1001 1 8 0) Tcp.SYN_ACK [] 0) as H.
  specialize (H eq_refl ltac:(vm_compute; congruence)
                ltac:(vm_compute; reflexivity) ltac:(vm_compute; reflexivity)
                eq_refl eq_refl eq_refl).
  cbv zeta in H.
  specialize (H ltac:(vm_compute; reflexivity) ltac:(vm_compute; reflexivity)).
  exact H.
Defined.

(** ** net.c: the protocol registry and its queues *)

Section NetProtocolFacts.
Import Net.

Lemma registered_type type protocols :
  existsb (fun proto => type =? proto_type proto) protocols = true
  <-> In type (map proto_type protocols).
Proof.
  rewrite existsb_exists, in_map_iff. split.
  - intros (p & Hin & E). apply Z.eqb_eq in E. exists p. auto.
  - intros (p & E & Hin). exists p. split; [exact Hin|].
    apply Z.eqb_eq. auto.
Qed.

(** net_protocol_register keeps the types of the registry distinct.  It
    returns 0 exactly when memory is there and the type is not yet
    registered; the new protocol is then at the head of the list with an
    empty queue.  Otherwise it returns -1 and the list is as before. *)
Theorem net_protocol_register_spec alloc type h protocols :
  List.NoDup (map proto_type protocols) ->
  let r := fst (net_protocol_register alloc type h protocols) in
  let protocols' := snd (net_protocol_register alloc type h protocols) in
  List.NoDup (map proto_type protocols')
  /\ (r = 0 <-> alloc = true /\ ~ In type (map proto_type protocols))
  /\ (r = 0 -> protocols' = Proto type [] h :: protocols)
  /\ (r <> 0 -> r = -1 /\ protocols' = protocols).
Proof.
  intros Hnd r protocols'. subst r protocols'. unfold net_protocol_register.
  pose proof (registered_type type protocols) as Hreg.
  destruct (existsb _ protocols).
  - cbn [fst snd]. split; [exact Hnd|]. split.
    + split; [discriminate|]. intros [_ Hnot]. exfalso. apply Hnot.
      apply Hreg. reflexivity.
    + split; [discriminate | auto].
  - assert (Hnot : ~ In type (map proto_type protocols))
      by (intros Hin; apply Hreg in Hin; discriminate).
    destruct alloc; cbn [negb fst snd].
    + split; [simpl; apply List.NoDup_cons; [exact Hnot | exact Hnd]|].
      split; [split; auto|]. split; [reflexivity | congruence].
    + split; [exact Hnd|]. split.
      * split; [discriminate | intros [E _]; discriminate].
      * split; [discriminate | auto].
Qed.

(** What one frame adds to the queue of the protocol [p]. *)
Lemma net_input_handler_queues type data dev protocols :
  List.NoDup (map proto_type protocols) ->
  Forall2 (fun p p' =>
      proto_type p' = proto_type p /\ proto_handler p' = proto_handler p
      /\ proto_queue p'
         = proto_queue p
           ++ (if proto_type p =? type then [QEntry dev data] else []))
    protocols
    (snd (fst (net_input_handler true true type data dev protocols))).
Proof.
  induction protocols as [|p rest IH]; intros Hnd; [constructor|].
  cbn [net_input_handler].
  assert (Hnd' : List.NoDup (map proto_type rest))
    by (cbn [map] in Hnd; apply List.NoDup_cons_iff in Hnd; tauto).
  destruct (Z.eqb_spec (proto_type p) type) as [E|E]; cbn [negb fst snd].
  - constructor;
      [rewrite (proj2 (Z.eqb_eq _ _) E); repeat split; reflexivity|].
    assert (Hnone : Forall (fun q => (proto_type q =? type) = false) rest).
    { apply List.Forall_forall. intros q Hq. apply Z.eqb_neq. intros Eq.
      cbn [map] in Hnd. apply List.NoDup_cons_iff in Hnd. destruct Hnd as [Hnot _].
      apply Hnot. rewrite E, <- Eq. apply in_map. exact Hq. }
    clear - Hnone.
    induction Hnone as [|q rest Hq _ IH]; constructor; [|exact IH].
    rewrite Hq, app_nil_r. repeat split; reflexivity.
  - specialize (IH Hnd').
    destruct (net_input_handler true true type data dev rest)
      as [[r rest'] raised].
    cbn [fst snd] in *. constructor; [|exact IH].
    rewrite (proj2 (Z.eqb_neq _ _) E), app_nil_r. repeat split; reflexivity.
Qed.

Lemma net_input_handler_types type data dev protocols :
  List.NoDup (map proto_type protocols) ->
  map proto_type
    (snd (fst (net_input_handler true true type data dev protocols)))
  = map proto_type protocols.
Proof.
  intros Hnd.
  pose proof (net_input_handler_queues type data dev protocols Hnd) as H.
  induction H as [|p p' l l' (Ht & _) _ IH]; [reflexivity|].
  cbn [map]. rewrite Ht. f_equal. apply IH.
  cbn [map] in Hnd. apply List.NoDup_cons_iff in Hnd. tauto.
Qed.

Lemma net_input_all_queues frames : forall protocols,
  List.NoDup (map proto_type protocols) ->
  Forall2 (fun p p' =>
      proto_type p' = proto_type p /\ proto_handler p' = proto_handler p
      /\ proto_queue p'
         = proto_queue p
           ++ map (fun f : frame => QEntry (snd f) (snd (fst f)))
                (List.filter (fun f : frame => proto_type p =? fst (fst f))
                   frames))
    protocols (net_input_all frames protocols).
Proof.
  induction frames as [|[[type data] dev] rest IH]; intros protocols Hnd.
  - cbn [net_input_all List.filter map].
    clear Hnd. induction protocols as [|p rest IH]; constructor; [|exact IH].
    rewrite app_nil_r. repeat split; reflexivity.
  - cbn [net_input_all].
    pose proof (net_input_handler_queues type data dev protocols Hnd) as H1.
    pose proof (net_input_handler_types type data dev protocols Hnd) as Ht.
    set (ps1 := snd (fst (net_input_handler true true type data dev protocols)))
      in *.
    assert (Hnd1 : List.NoDup (map proto_type ps1)) by (rewrite Ht; exact Hnd).
    specialize (IH ps1 Hnd1).
    clear Ht Hnd Hnd1.
    revert IH. generalize (net_input_all rest ps1). intros ps2 H2.
    revert ps2 H2.
    induction H1 as [|p p1 l l1 (Ht1 & Hh1 & Hq1) _ IH1]; intros ps2 H2.
    + inversion H2. constructor.
    + inversion H2 as [|? p2 ? l2 (Ht2 & Hh2 & Hq2) Hrest]; subst.
      constructor; [|apply IH1; exact Hrest].
      split; [congruence|]. split; [congruence|].
      rewrite Hq2, Hq1, Ht1. cbn [List.filter fst snd].
      destruct (proto_type p =? type); cbn [map app];
        rewrite <- ?app_assoc; reflexivity.
Qed.

Lemma softirq_drain_map h q :
  softirq_drain h q = map (fun e => (h, entry_data e, entry_dev e)) q.
Proof.
  induction q as [|e q IH]; [reflexivity|].
  cbn [softirq_drain map]. rewrite IH. reflexivity.
Qed.

Lemma net_softirq_handler_filled
    (added : net_protocol -> list net_protocol_queue_entry) protocols :
  Forall (fun p => proto_queue p = []) protocols ->
  forall protocols',
    Forall2 (fun p p' =>
        proto_type p' = proto_type p /\ proto_handler p' = proto_handler p
        /\ proto_queue p' = proto_queue p ++ added p)
      protocols protocols' ->
    net_softirq_handler protocols'
    = (protocols,
       flat_map (fun p =>
          map (fun e => (proto_handler p, entry_data e, entry_dev e)) (added p))
         protocols).
Proof.
  intros Hempty ps' H.
  induction H as [|p p' l l' (Ht & Hh & Hq) _ IH]; [reflexivity|].
  apply Forall_cons in Hempty. destruct Hempty as [Hp Hl].
  cbn [net_softirq_handler flat_map].
  rewrite (IH Hl). rewrite softirq_drain_map, Hq, Hp, Ht, Hh.
  cbn [app]. f_equal. destruct p as [t q h]. cbn in Hp. subst q. reflexivity.
Qed.

(** Frames are delivered per protocol in the order of their arrival.
    After any run of net_input_handler calls on a registry of distinct
    types with empty queues, net_softirq_handler calls, for each protocol
    in the order of the list, its handler once for each frame of its
    type, in the order in which the frames came in, with the bytes and the
    device of the frame; frames of a type that is not registered are
    dropped; and all queues are empty again. *)
Theorem net_input_then_softirq frames protocols :
  List.NoDup (map proto_type protocols) ->
  Forall (fun p => proto_queue p = []) protocols ->
  net_softirq_handler (net_input_all frames protocols)
  = (protocols,
     flat_map (fun p =>
        map (fun f : frame => (proto_handler p, snd (fst f), snd f))
          (List.filter (fun f : frame => proto_type p =? fst (fst f)) frames))
       protocols).
Proof.
  intros Hnd Hempty.
  rewrite (net_softirq_handler_filled _ protocols Hempty _
             (net_input_all_queues frames protocols Hnd)).
  f_equal. apply flat_map_ext. intros p. rewrite map_map. reflexivity.
Qed.

End NetProtocolFacts.

(** ** net.c: devices and their interfaces *)

Section NetDeviceFacts.
Import Net.

Variable up : Z.

Lemma land_lor_same f : Z.land (Z.lor f up) up = up.
Proof.
  apply Z.bits_inj'. intros n Hn. rewrite Z.land_spec, Z.lor_spec.
  destruct (Z.testbit f n), (Z.testbit up n); reflexivity.
Qed.

Lemma land_lnot_same f : Z.land (Z.land f (Z.lnot up)) up = 0.
Proof.
  apply Z.bits_inj'. intros n Hn.
  rewrite !Z.land_spec, Z.lnot_spec, Z.bits_0 by exact Hn.
  destruct (Z.testbit f n), (Z.testbit up n); reflexivity.
Qed.

Lemma lor_then_clear f : Z.land f up = 0 -> Z.land (Z.lor f up) (Z.lnot up) = f.
Proof.
  intros H. apply Z.bits_inj'. intros n Hn.
  rewrite Z.land_spec, Z.lor_spec, Z.lnot_spec by exact Hn.
  assert (Hb : Z.testbit (Z.land f up) n = false) by (rewrite H; apply Z.bits_0).
  rewrite Z.land_spec in Hb.
  destruct (Z.testbit f n), (Z.testbit up n); try reflexivity; discriminate.
Qed.

(** The UP flag through net_device_open and net_device_close.  On a
    device that is down, an open that the driver does not refuse brings
    it up; a second open is then refused without calling the driver; a
    close that the driver does not refuse restores the flags exactly; and
    a close of the device that is down is refused without calling the
    driver. *)
Theorem net_device_open_close ro rc dev :
  up <> 0 ->
  NET_DEVICE_IS_UP up dev = false ->
  ro <> Some (-1) -> rc <> Some (-1) ->
  exists dev1 called1 called2,
    net_device_open up ro dev = (0, dev1, called1)
    /\ NET_DEVICE_IS_UP up dev1 = true
    /\ (forall ro', net_device_open up ro' dev1 = (-1, dev1, false))
    /\ net_device_close up rc dev1 = (0, dev, called2)
    /\ (forall rc', net_device_close up rc' dev = (-1, dev, false)).
Proof.
  intros Hup Hdown Hro Hrc.
  assert (Hzero : Z.land (flags dev) up = 0).
  { unfold NET_DEVICE_IS_UP in Hdown.
    destruct (Z.eqb_spec (Z.land (flags dev) up) 0); [assumption|discriminate]. }
  set (dev1 := Device (index dev) (Z.lor (flags dev) up) (mtu dev) (ifaces dev)).
  assert (Hup1 : NET_DEVICE_IS_UP up dev1 = true).
  { unfold NET_DEVICE_IS_UP. cbn [dev1 flags]. rewrite land_lor_same.
    destruct (Z.eqb_spec up 0); [contradiction | reflexivity]. }
  assert (Hback : Device (index dev1) (Z.land (flags dev1) (Z.lnot up))
                    (mtu dev1) (ifaces dev1) = dev).
  { cbn [dev1 index flags mtu ifaces]. rewrite (lor_then_clear _ Hzero).
    destruct dev; reflexivity. }
  assert (Hopen : exists called1, net_device_open up ro dev = (0, dev1, called1)).
  { unfold net_device_open. rewrite Hdown.
    destruct ro as [r|]; [|eexists; reflexivity].
    destruct (Z.eqb_spec r (-1)); [congruence | eexists; reflexivity]. }
  assert (Hclose : exists called2, net_device_close up rc dev1 = (0, dev, called2)).
  { unfold net_device_close. rewrite Hup1. cbn [negb]. rewrite Hback.
    destruct rc as [r|]; [|eexists; reflexivity].
    destruct (Z.eqb_spec r (-1)); [congruence | eexists; reflexivity]. }
  destruct Hopen as [c1 Hopen]. destruct Hclose as [c2 Hclose].
  exists dev1, c1, c2. split; [exact Hopen|]. split; [exact Hup1|].
  split; [intros ro'; unfold net_device_open; rewrite Hup1; reflexivity|].
  split; [exact Hclose|].
  intros rc'. unfold net_device_close. rewrite Hdown. reflexivity.
Qed.

End NetDeviceFacts.

Section NetIfaceFacts.
Import Net.

Lemma iface_search_none l fam :
  iface_search l fam = None <-> ~ In fam (map family l).
Proof.
  induction l as [|i l IH]; cbn [iface_search map In]; [tauto|].
  destruct (Z.eqb_spec (family i) fam); [split; [discriminate | tauto]|].
  rewrite IH. tauto.
Qed.

Lemma has_family l fam :
  existsb (fun entry => family entry =? fam) l = true
  <-> In fam (map family l).
Proof.
  rewrite existsb_exists, in_map_iff. split.
  - intros (p & Hin & E). apply Z.eqb_eq in E. exists p. auto.
  - intros (p & E & Hin). exists p. split; [exact Hin|].
    apply Z.eqb_eq. auto.
Qed.

(** net_device_add_iface and net_device_get_iface.  A device holds at
    most one interface per family: the add returns 0 exactly when the
    device has no interface of the family yet; net_device_get_iface then
    gives that interface, now bound to the device, for its family and what
    it gave before for every other family.  Otherwise the add returns -1
    and the device is as before. *)
Theorem net_device_add_iface_spec dev iface :
  List.NoDup (map family (ifaces dev)) ->
  let r := fst (net_device_add_iface dev iface) in
  let dev' := snd (net_device_add_iface dev iface) in
  List.NoDup (map family (ifaces dev'))
  /\ (r = 0 <-> net_device_get_iface dev (family iface) = None)
  /\ (r = 0 ->
      net_device_get_iface dev' (family iface)
      = Some (Iface (family iface) (Some (index dev)) (iface_id iface))
      /\ (forall fam, fam <> family iface ->
            net_device_get_iface dev' fam = net_device_get_iface dev fam)
      /\ index dev' = index dev /\ flags dev' = flags dev
      /\ mtu dev' = mtu dev)
  /\ (r <> 0 -> r = -1 /\ dev' = dev).
Proof.
  intros Hnd r dev'. subst r dev'.
  unfold net_device_add_iface, net_device_get_iface.
  pose proof (has_family (ifaces dev) (family iface)) as Hhas.
  pose proof (iface_search_none (ifaces dev) (family iface)) as Hnone.
  destruct (existsb _ (ifaces dev)); cbn [fst snd].
  - split; [exact Hnd|]. split.
    + split; [discriminate|]. intros E. apply Hnone in E. exfalso.
      apply E, Hhas. reflexivity.
    + split; [discriminate | auto].
  - assert (Hnot : ~ In (family iface) (map family (ifaces dev)))
      by (intros Hin; apply Hhas in Hin; discriminate).
    split; [cbn [ifaces map family]; apply List.NoDup_cons; assumption|].
    split; [split; [intros _; apply Hnone; exact Hnot | reflexivity]|].
    split; [|congruence].
    intros _. cbn [ifaces iface_search family index flags mtu].
    rewrite Z.eqb_refl. split; [reflexivity|]. split; [|auto].
    intros fam Hfam.
    destruct (Z.eqb_spec (family iface) fam); [congruence | reflexivity].
Qed.

End NetIfaceFacts.

(** ** driver/loopback.c: from net_device_output to the protocol handler *)

Section LoopbackFacts.
Import Net Loopback.

Variable up : Z.
Variable alloc : nat -> bool.
Hypothesis memory : forall n, alloc n = true.

Lemma loopback_isr_input_all dev q : forall k protocols,
  loopback_isr alloc k dev q protocols
  = net_input_all (map (fun e => (l_type e, l_data e, dev)) q) protocols.
Proof.
  induction q as [|e q IH]; intros k protocols; [reflexivity|].
  cbn [loopback_isr map net_input_all]. rewrite !memory.
  destruct (net_input_handler true true (l_type e) (l_data e) dev protocols)
    as [[r ps] b].
  cbn [fst snd]. apply IH.
Qed.

Lemma net_device_output_loopback dev type data lo k :
  NET_DEVICE_IS_UP up dev = true ->
  Z.of_nat (length data) <= mtu dev ->
  net_device_output up (loopback_transmit (alloc k) (alloc (S k))) dev type
    data lo
  = if Z.of_nat (length (queue lo)) >=? LOOPBACK_QUEUE_LIMIT then (-1, lo)
    else (0, Lo (queue lo ++ [LEntry type data]) (S (irqs lo))).
Proof.
  intros Hup Hmtu. unfold net_device_output, loopback_transmit.
  rewrite Hup, !memory. cbn [negb].
  destruct (Z.gtb_spec (Z.of_nat (length data)) (mtu dev)); [lia|].
  destruct (_ >=? _); reflexivity.
Qed.

(** The loopback device takes frames until 16 are queued and refuses the
    rest.  For a device that is up, with memory at hand and frames within
    the MTU, a run of net_device_output calls returns 0 for the frames
    for which there is room and -1 for the others, queues the former in
    order, and raises one interrupt for each. *)
Theorem loopback_output_all dev frames : forall k lo,
  NET_DEVICE_IS_UP up dev = true ->
  Forall (fun f => Z.of_nat (length (snd f)) <= mtu dev) frames ->
  let room := (16 - length (queue lo))%nat in
  output_all up alloc k dev frames lo
  = (repeat 0 (Nat.min (length frames) room)
     ++ repeat (-1) (length frames - room),
     Lo (queue lo ++ map (fun f => LEntry (fst f) (snd f)) (firstn room frames))
        (irqs lo + Nat.min (length frames) room)).
Proof.
  induction frames as [|[type data] rest IH]; intros k lo Hup Hmtu room.
  - cbn [output_all length Nat.min repeat app firstn map].
    rewrite firstn_nil, app_nil_r, Nat.add_0_r. destruct lo; reflexivity.
  - apply Forall_cons in Hmtu. destruct Hmtu as [Hm Hrest].
    cbn [output_all]. rewrite net_device_output_loopback by assumption.
    unfold LOOPBACK_QUEUE_LIMIT.
    destruct (Z.geb_spec (Z.of_nat (length (queue lo))) 16) as [Hfull|Hroom].
    + assert (Hr : room = 0%nat) by (unfold room; lia).
      rewrite (IH (S (S k)) lo Hup Hrest).
      fold room. rewrite Hr. cbn [length].
      rewrite !Nat.min_0_r, !Nat.sub_0_r. cbn [repeat app firstn map].
      reflexivity.
    + assert (Hr : room = S (16 - length (queue lo ++ [LEntry type data])))
        by (unfold room; rewrite length_app; simpl; lia).
      rewrite (IH (S (S k)) _ Hup Hrest).
      cbn [queue irqs]. rewrite Hr. cbn [length Nat.min Nat.sub repeat app
                                         firstn map fst snd].
      rewrite <- app_assoc. cbn [app].
      f_equal. f_equal. lia.
Qed.

(** What goes out through the loopback device comes in again.  For a
    device that is up, at most 16 frames within the MTU, memory at hand
    and a registry of distinct types with empty queues: after the frames
    have been given to net_device_output, loopback_isr and
    net_softirq_handler hand to each protocol, in the order of the
    registry, the frames of its type with their bytes, in the order in
    which they were sent. *)
Theorem loopback_round_trip dev devid frames protocols k k' n :
  NET_DEVICE_IS_UP up dev = true ->
  Forall (fun f => Z.of_nat (length (snd f)) <= mtu dev) frames ->
  (length frames <= 16)%nat ->
  List.NoDup (map proto_type protocols) ->
  Forall (fun p => proto_queue p = []) protocols ->
  let lo' := snd (output_all up alloc k dev frames (Lo [] n)) in
  fst (output_all up alloc k dev frames (Lo [] n))
  = repeat 0 (length frames)
  /\ net_softirq_handler (loopback_isr alloc k' devid (queue lo') protocols)
     = (protocols,
        flat_map (fun p =>
           map (fun f => (proto_handler p, snd f, devid))
             (List.filter (fun f => proto_type p =? fst f) frames))
          protocols).
Proof.
  intros Hup Hmtu Hlen Hnd Hempty lo'. subst lo'.
  rewrite (loopback_output_all dev frames k (Lo [] n) Hup Hmtu).
  cbn [queue irqs length fst snd app].
  change (16 - 0)%nat with 16%nat.
  rewrite Nat.min_l by exact Hlen.
  replace (length frames - 16)%nat with 0%nat by lia.
  rewrite firstn_all2 by exact Hlen.
  split; [cbn [repeat]; apply app_nil_r|].
  rewrite loopback_isr_input_all, map_map. cbn [l_type l_data].
  rewrite (net_softirq_handler_filled _ protocols Hempty _
             (net_input_all_queues _ protocols Hnd)).
  f_equal. apply flat_map_ext. intros p.
  rewrite map_map. cbn [entry_data entry_dev fst snd].
  induction frames as [|[t d] rest IH]; [reflexivity|].
  cbn [map List.filter fst snd].
  apply Forall_cons in Hmtu. destruct Hmtu as [_ Hrest].
  destruct (proto_type p =? t); cbn [map fst snd];
    rewrite IH by (try assumption; simpl in Hlen; lia); reflexivity.
Qed.

End LoopbackFacts.

Lemma net_protocol_register_spec_witness :
  let r := fst (Net.net_protocol_register true 2048 3 Sample.registry) in
  let protocols' :=
    snd (Net.net_protocol_register true 2048 3 Sample.registry) in
  List.NoDup (map Net.proto_type protocols')
  /\ (r = 0 <-> true = true
                /\ ~ In 2048 (map Net.proto_type Sample.registry))
  /\ (r = 0 -> protocols' = Net.Proto 2048 [] 3 :: Sample.registry)
  /\ (r <> 0 -> r = -1 /\ protocols' = Sample.registry).
Proof.
  apply (net_protocol_register_spec true 2048 3 Sample.registry).
  repeat (apply List.NoDup_cons; [simpl; intuition congruence|]).
  apply List.NoDup_nil.
Defined.

Lemma net_input_then_softirq_witness :
  Net.net_softirq_handler (Net.net_input_all Sample.traffic Sample.registry)
  = (Sample.registry,
     [(2%nat, [Byte.x00; Byte.x01], 0%nat);
      (1%nat, [Byte.x45], 0%nat); (1%nat, [Byte.x46], 0%nat)]).
Proof.
  rewrite (net_input_then_softirq Sample.traffic Sample.registry).
  - reflexivity.
  - repeat (apply List.NoDup_cons; [simpl; intuition congruence|]).
    apply List.NoDup_nil.
  - repeat constructor.
Defined.

Lemma net_device_open_close_witness :
  exists dev1 called1 called2,
    Net.net_device_open 1 None Sample.lo_down = (0, dev1, called1)
    /\ Net.NET_DEVICE_IS_UP 1 dev1 = true
    /\ (forall ro', Net.net_device_open 1 ro' dev1 = (-1, dev1, false))
    /\ Net.net_device_close 1 None dev1 = (0, Sample.lo_down, called2)
    /\ (forall rc', Net.net_device_close 1 rc' Sample.lo_down
                    = (-1, Sample.lo_down, false)).
Proof.
  apply (net_device_open_close 1 None None Sample.lo_down);
    [lia | reflexivity | discriminate | discriminate].
Defined.

Lemma net_device_add_iface_spec_witness :
  let iface := Net.Iface 1 None 7 in
  let r := fst (Net.net_device_add_iface Sample.lo_up iface) in
  let dev' := snd (Net.net_device_add_iface Sample.lo_up iface) in
  List.NoDup (map Net.family (Net.ifaces dev'))
  /\ (r = 0 <-> Net.net_device_get_iface Sample.lo_up (Net.family iface) = None)
  /\ (r = 0 ->
      Net.net_device_get_iface dev' (Net.family iface)
      = Some (Net.Iface (Net.family iface) (Some (Net.index Sample.lo_up))
                (Net.iface_id iface))
      /\ (forall fam, fam <> Net.family iface ->
            Net.net_device_get_iface dev' fam
            = Net.net_device_get_iface Sample.lo_up fam)
      /\ Net.index dev' = Net.index Sample.lo_up
      /\ Net.flags dev' = Net.flags Sample.lo_up
      /\ Net.mtu dev' = Net.mtu Sample.lo_up)
  /\ (r <> 0 -> r = -1 /\ dev' = Sample.lo_up).
Proof.
  intros iface.
  apply (net_device_add_iface_spec Sample.lo_up iface).
  apply List.NoDup_nil.
Defined.

Lemma loopback_output_all_witness :
  Loopback.output_all 1 (fun _ => true) 0 Sample.lo_up
    [(2048, [Byte.x45]); (2054, [Byte.x00; Byte.x01])]
    (Loopback.Lo (repeat (Loopback.LEntry 2048 []) 15) 15)
  = ([0; -1],
     Loopback.Lo (repeat (Loopback.LEntry 2048 []) 15
                  ++ [Loopback.LEntry 2048 [Byte.x45]]) 16).
Proof.
  rewrite (loopback_output_all 1 (fun _ => true) (fun _ => eq_refl)
             Sample.lo_up).
  - reflexivity.
  - reflexivity.
  - repeat constructor; simpl; lia.
Defined.

Lemma loopback_round_trip_witness :
  let frames := [(2048, [Byte.x45]); (2054, [Byte.x00; Byte.x01]);
                 (34525, [Byte.x60]); (2048, [Byte.x46])] in
  let lo' := snd (Loopback.output_all 1 (fun _ => true) 0 Sample.lo_up frames
                    (Loopback.Lo [] 0)) in
  fst (Loopback.output_all 1 (fun _ => true) 0 Sample.lo_up frames
         (Loopback.Lo [] 0))
  = repeat 0 (length frames)
  /\ Net.net_softirq_handler
       (Loopback.loopback_isr (fun _ => true) 0 0 (Loopback.queue lo')
          Sample.registry)
     = (Sample.registry,
        flat_map (fun p =>
           map (fun f => (Net.proto_handler p, snd f, 0%nat))
             (List.filter (fun f => Net.proto_type p =? fst f) frames))
          Sample.registry).
Proof.
  intros frames.
  apply (loopback_round_trip 1 (fun _ => true) (fun _ => eq_refl)
           Sample.lo_up 0%nat frames Sample.registry 0%nat 0%nat 0%nat).
  - reflexivity.
  - repeat constructor; simpl; lia.
  - simpl; lia.
  - repeat (apply List.NoDup_cons; [simpl; intuition congruence|]).
    apply List.NoDup_nil.
  - repeat constructor.
Defined.

(** ** ip.c *)

Section IpRouteFacts.
Import Cksum Ip.

Variable big_endian : bool.

Lemma route_loop_longest dst rest : forall seen candidate,
  longest_match big_endian dst seen candidate ->
  longest_match big_endian dst (seen ++ rest)
    (route_loop big_endian rest dst candidate).
Proof.
  induction rest as [|route rest IH]; intros seen candidate Hinv.
  - rewrite app_nil_r. exact Hinv.
  - replace (seen ++ route :: rest) with ((seen ++ [route]) ++ rest)
      by (rewrite <- app_assoc; reflexivity).
    cbn [route_loop]. fold (route_match dst route).
    destruct (route_match dst route) eqn:Hm.
    + destruct candidate as [c|].
      * fold (prefix big_endian c). fold (prefix big_endian route).
        destruct (Z.ltb_spec (prefix big_endian c) (prefix big_endian route))
          as [Hlt|Hge]; apply IH.
        -- destruct Hinv as (before & after & -> & Hc & Hb & Ha).
           exists (before ++ c :: after), []. 
           split; [reflexivity|]. split; [exact Hm|].
           split; [|intros r []].
           intros r Hr Hrm. apply in_app_or in Hr.
           destruct Hr as [Hr|[<-|Hr]].
           ++ specialize (Hb r Hr Hrm). lia.
           ++ exact Hlt.
           ++ specialize (Ha r Hr Hrm). lia.
        -- destruct Hinv as (before & after & -> & Hc & Hb & Ha).
           exists before, (after ++ [route]).
           split; [rewrite <- app_assoc; reflexivity|].
           split; [exact Hc|]. split; [exact Hb|].
           intros r Hr Hrm. apply in_app_or in Hr.
           destruct Hr as [Hr|[<-|[]]]; [exact (Ha r Hr Hrm)|exact Hge].
      * apply IH. exists seen, []. split; [reflexivity|].
        split; [exact Hm|]. split; [|intros r []].
        intros r Hr Hrm. rewrite (Hinv r Hr) in Hrm. discriminate.
    + apply IH. destruct candidate as [c|].
      * destruct Hinv as (before & after & -> & Hc & Hb & Ha).
        exists before, (after ++ [route]).
        split; [rewrite <- app_assoc; reflexivity|].
        split; [exact Hc|]. split; [exact Hb|].
        intros r Hr Hrm. apply in_app_or in Hr.
        destruct Hr as [Hr|[<-|[]]]; [exact (Ha r Hr Hrm)|].
        rewrite Hm in Hrm. discriminate.
      * intros r Hr. apply in_app_or in Hr.
        destruct Hr as [Hr|[<-|[]]]; [exact (Hinv r Hr)|exact Hm].
Qed.

(** ip_route_lookup, longest match: the loop of ip_route_lookup leaves no
    candidate exactly when no route of the table contains dst; otherwise
    its candidate is a route of the table that contains dst, whose
    netmask, read in host order, is greater than that of every matching
    route before it in the table and not less than that of every matching
    route after it. *)
Theorem ip_route_lookup_longest_match routes dst :
  longest_match big_endian dst routes (ip_route_lookup big_endian routes dst).
Proof.
  unfold ip_route_lookup.
  apply (route_loop_longest dst routes [] None).
  intros r [].
Qed.

End IpRouteFacts.

Section IpDatagramFacts.
Import Cksum Ip.

Variable big_endian : bool.

Lemma ip_header_length total id offset protocol sum src dst :
  length (ip_header big_endian total id offset protocol sum src dst) = 20%nat.
Proof.
  unfold ip_header, store16, store32. destruct big_endian; reflexivity.
Qed.

(** The checksum member enters the sum of the header as it stands. *)
Lemma ip_header_wsum total id offset protocol sum src dst :
  0 <= sum < 65536 ->
  wsum big_endian (ip_header big_endian total id offset protocol sum src dst)
  = wsum big_endian (ip_header big_endian total id offset protocol 0 src dst)
    + sum.
Proof.
  intros Hsum. unfold ip_header.
  assert (Hpair : forall a b : byte, Nat.Even (length [a; b]))
    by (intros; exists 1%nat; reflexivity).
  repeat first
    [ rewrite (wsum_app big_endian (store16 big_endian _))
        by apply even_length_store16
    | rewrite (wsum_app big_endian (store32 big_endian _))
        by apply even_length_store32
    | rewrite (wsum_app big_endian [_; _]) by apply Hpair ].
  rewrite (wsum_store16 big_endian sum Hsum).
  rewrite (wsum_store16 big_endian 0) by lia. lia.
Qed.

(** cksum16 over the header alone, whatever follows it in the buffer. *)
Lemma ip_header_cksum16 total id offset protocol sum src dst rest :
  0 <= sum < 65536 ->
  cksum16 big_endian
    (ip_header big_endian total id offset protocol sum src dst ++ rest)
    IP_HDR_SIZE_MIN 0
  = 65535 - ones_complement
      (wsum big_endian
         (ip_header big_endian total id offset protocol 0 src dst) + sum).
Proof.
  intros Hsum.
  set (hdr := ip_header big_endian total id offset protocol sum src dst).
  assert (Hl : length hdr = 20%nat) by apply ip_header_length.
  assert (Hcut : cksum16 big_endian (hdr ++ rest) IP_HDR_SIZE_MIN 0
                 = cksum16 big_endian hdr (Z.of_nat (length hdr)) 0).
  { assert (Hf : firstn 20 (hdr ++ rest) = hdr).
    { rewrite <- Hl. rewrite firstn_app, Nat.sub_diag, firstn_all.
      cbn [firstn]. apply app_nil_r. }
    assert (Hg : firstn 20 hdr = hdr) by (rewrite <- Hl; apply firstn_all).
    unfold cksum16. rewrite Hl.
    change (Z.to_nat (IP_HDR_SIZE_MIN mod 65536)) with 20%nat.
    change (Z.to_nat (Z.of_nat 20 mod 65536)) with 20%nat.
    rewrite Hf, Hg. reflexivity. }
  rewrite Hcut.
  pose proof (wsum_range big_endian hdr) as Hw. rewrite Hl in Hw.
  change ((Z.of_nat 20 + 1) / 2) with 10 in Hw.
  rewrite cksum16_whole by (rewrite ?Hl; lia).
  unfold hdr. rewrite (ip_header_wsum _ _ _ _ sum _ _ Hsum). reflexivity.
Qed.

(** The header ip_output_core has built passes the test of ip_input. *)
Lemma ip_header_verifies total id offset protocol src dst rest :
  cksum16 big_endian
    (ip_header big_endian total id offset protocol
       (cksum16 big_endian
          (ip_header big_endian total id offset protocol 0 src dst)
          IP_HDR_SIZE_MIN 0)
       src dst ++ rest)
    IP_HDR_SIZE_MIN 0
  = 0.
Proof.
  pose proof (cksum16_range big_endian
                (ip_header big_endian total id offset protocol 0 src dst)
                IP_HDR_SIZE_MIN 0) as Hr.
  rewrite ip_header_cksum16 by lia.
  pose proof (ip_header_cksum16 total id offset protocol 0 src dst []
                ltac:(lia)) as H0.
  rewrite app_nil_r in H0. rewrite H0.
  pose proof (wsum_range big_endian
                (ip_header big_endian total id offset protocol 0 src dst))
    as Hw.
  rewrite Z.add_0_r.
  pose proof (verify_arith 0
                (wsum big_endian
                   (ip_header big_endian total id offset protocol 0 src dst))
                ltac:(lia) ltac:(lia)) as Hv.
  rewrite !Z.add_0_l in Hv. exact Hv.
Qed.

(** The members of the header that ip_output_core has built, read back
    through the struct. *)
Lemma ip_header_fields total id offset protocol sum src dst rest :
  0 <= total < 65536 -> 0 <= offset < 65536 -> 0 <= protocol < 256 ->
  0 <= src < 4294967296 -> 0 <= dst < 4294967296 ->
  let bytes :=
    ip_header big_endian total id offset protocol sum src dst ++ rest in
  field8 bytes 0 = 69
  /\ ntoh16 big_endian (field16 big_endian bytes 2) = total
  /\ ntoh16 big_endian (field16 big_endian bytes 6) = offset
  /\ field8 bytes 9 = protocol
  /\ field32 big_endian bytes 12 = src
  /\ field32 big_endian bytes 16 = dst.
Proof.
  intros Ht Ho Hp Hs Hd bytes. subst bytes.
  pose proof (hton16_range big_endian total) as Ht'.
  pose proof (hton16_range big_endian offset) as Ho'.
  assert (E16 : forall v, exists b0 b1, store16 big_endian v = [b0; b1])
    by (intros v; unfold store16; destruct big_endian; eexists _, _; reflexivity).
  assert (E32 : forall v, exists b0 b1 b2 b3,
                  store32 big_endian v = [b0; b1; b2; b3])
    by (intros v; unfold store32; destruct big_endian;
        eexists _, _, _, _; reflexivity).
  unfold ip_header.
  destruct (E16 (hton16 big_endian total)) as (t0 & t1 & Et).
  destruct (E16 (hton16 big_endian id)) as (i0 & i1 & Ei).
  destruct (E16 (hton16 big_endian offset)) as (o0 & o1 & Eo).
  destruct (E16 sum) as (c0 & c1 & Ec).
  destruct (E32 src) as (s0 & s1 & s2 & s3 & Es).
  destruct (E32 dst) as (d0 & d1 & d2 & d3 & Ed).
  rewrite Et, Ei, Eo, Ec, Es, Ed.
  unfold field16, field32, field8, byte_at. cbn [app nth Nat.add].
  rewrite (load16_store16 _ _ _ _ Ht' Et), (load16_store16 _ _ _ _ Ho' Eo).
  rewrite (load32_store32 _ _ _ _ _ _ Hs Es), (load32_store32 _ _ _ _ _ _ Hd Ed).
  rewrite (ntoh16_hton16 _ _ Ht), (ntoh16_hton16 _ _ Ho).
  rewrite !bval_byte_of.
  repeat split; try reflexivity.
  apply Z.mod_small. exact Hp.
Qed.

(** ip_input on the datagram of ip_output_core. *)
Lemma ip_input_datagram protocol data src dst id chain protocols :
  IP_HDR_SIZE_MIN + Z.of_nat (length data) <= IP_TOTAL_SIZE_MAX ->
  0 <= protocol < 256 ->
  0 <= src < 4294967296 -> 0 <= dst < 4294967296 ->
  exists datagram,
    ip_datagram big_endian protocol data src dst id 0 = Some datagram
    /\ ip_input big_endian datagram chain protocols
       = match chain with
         | [] => Drop None
         | first :: _ =>
             match (if negb (dst =? IP_ADDR_BROADCAST)
                    then iface_filter chain dst else Some first) with
             | None => Drop None
             | Some ifc =>
                 match protocol_search protocols protocol with
                 | Some h =>
                     Deliver h data (Z.of_nat (length data)) src dst ifc
                 | None => Drop None
                 end
             end
         end.
Proof.
  intros Hlen Hp Hs Hd.
  unfold IP_HDR_SIZE_MIN, Tcp.IP_HDR_SIZE_MIN, IP_TOTAL_SIZE_MAX in Hlen.
  unfold ip_datagram. cbv zeta.
  destruct (Z.gtb_spec (IP_HDR_SIZE_MIN + Z.of_nat (length data))
              IP_TOTAL_SIZE_MAX) as [Hgt|_];
    [unfold IP_HDR_SIZE_MIN, Tcp.IP_HDR_SIZE_MIN, IP_TOTAL_SIZE_MAX in Hgt; lia|].
  assert (Htot : Tcp.u16 (IP_HDR_SIZE_MIN + Z.of_nat (length data))
                 = 20 + Z.of_nat (length data)).
  { unfold Tcp.u16, IP_HDR_SIZE_MIN, Tcp.IP_HDR_SIZE_MIN.
    apply Z.mod_small. lia. }
  rewrite Htot.
  set (sum := cksum16 big_endian
                (ip_header big_endian (20 + Z.of_nat (length data)) id 0
                   protocol 0 src dst) IP_HDR_SIZE_MIN 0).
  set (hdr := ip_header big_endian (20 + Z.of_nat (length data)) id 0
                protocol sum src dst).
  assert (Hl : length hdr = 20%nat) by apply ip_header_length.
  assert (Hall : firstn (Z.to_nat (20 + Z.of_nat (length data))) (hdr ++ data)
                 = hdr ++ data).
  { apply firstn_all2. rewrite length_app, Hl. lia. }
  rewrite Hall. eexists. split; [reflexivity|].
  destruct (ip_header_fields (20 + Z.of_nat (length data)) id 0 protocol sum
              src dst data ltac:(lia) ltac:(lia) Hp Hs Hd)
    as (Hvhl & Htotal & Hoff & Hproto & Hsrc & Hdst).
  fold hdr in Hvhl, Htotal, Hoff, Hproto, Hsrc, Hdst.
  pose proof (ip_header_verifies (20 + Z.of_nat (length data)) id 0 protocol
                src dst data) as Hver.
  fold sum in Hver. fold hdr in Hver.
  unfold ip_input. cbv zeta.
  rewrite Hvhl, Htotal, Hoff, Hproto, Hsrc, Hdst.
  assert (Hdl : Z.of_nat (length (hdr ++ data)) = 20 + Z.of_nat (length data))
    by (rewrite length_app, Hl; lia).
  rewrite Hdl.
  change (Z.shiftr (Z.land 69 240) 4) with 4.
  change (Tcp.u16 (Z.shiftl (Z.land 69 15) 2)) with 20.
  change IP_VERSION_IPV4 with 4. change IP_HDR_SIZE_MIN with 20 in *.
  destruct (Z.ltb_spec (20 + Z.of_nat (length data)) 20); [lia|].
  change (negb (4 =? 4)) with false. cbv iota.
  destruct (Z.gtb_spec 20 (20 + Z.of_nat (length data))); [lia|].
  destruct (Z.gtb_spec (20 + Z.of_nat (length data))
              (20 + Z.of_nat (length data))); [lia|].
  rewrite Hver.
  change (negb (0 =? 0)) with false.
  change (negb (Z.land 0 8192 =? 0) || negb (Z.land 0 8191 =? 0)) with false.
  cbv iota.
  change (Z.to_nat 20) with 20%nat.
  assert (Hskip : skipn 20 (hdr ++ data) = data).
  { rewrite <- Hl. rewrite skipn_app, Nat.sub_diag, skipn_all. reflexivity. }
  rewrite Hskip.
  assert (Hu : Tcp.u64 (20 + Z.of_nat (length data) - 20)
               = Z.of_nat (length data)).
  { replace (20 + Z.of_nat (length data) - 20) with (Z.of_nat (length data))
      by lia.
    unfold Tcp.u64. apply Z.mod_small. lia. }
  rewrite Hu. reflexivity.
Qed.

End IpDatagramFacts.

Section IpOutputFacts.
Import Cksum Ip.

Variable big_endian : bool.

(** What ip_output sends, ip_input receives.  When the route found for
    dst allows the source address and the data fits the MTU of its
    device, ip_output hands one datagram to ip_output_device for the
    interface of the route and for the next hop of the route (dst when
    the route has none), and returns the length of the data unless the
    device fails.  That datagram, given to ip_input on a host of the same
    byte order, passes every check and reaches the handler registered for
    its protocol with the same data and length, the unicast address of
    the interface as source and dst as destination, on the interface
    that the filter of ip_input selects. *)
Theorem ip_output_then_input routes id device protocol data src dst route :
  ip_route_lookup big_endian routes dst = Some route ->
  (src = Tcp.IP_ADDR_ANY -> dst <> IP_ADDR_BROADCAST) ->
  src = Tcp.IP_ADDR_ANY \/ src = unicast (iface route) ->
  IP_HDR_SIZE_MIN + Z.of_nat (length data) <= Net.mtu (ip_dev (iface route)) ->
  Net.mtu (ip_dev (iface route)) < 65536 ->
  0 <= protocol < 256 ->
  0 <= unicast (iface route) < 4294967296 -> 0 <= dst < 4294967296 ->
  let hop := if nexthop route =? Tcp.IP_ADDR_ANY then dst else nexthop route in
  exists datagram,
    ip_output big_endian routes id device protocol data src dst
    = (if device (iface route) (Some datagram) hop =? -1
       then Refused "ip_output_core() failure"
       else Sent (iface route) (Some datagram) hop (Z.of_nat (length data)))
    /\ forall chain protocols,
         ip_input big_endian datagram chain protocols
         = match chain with
           | [] => Drop None
           | first :: _ =>
               match (if negb (dst =? IP_ADDR_BROADCAST)
                      then iface_filter chain dst else Some first) with
               | None => Drop None
               | Some ifc =>
                   match protocol_search protocols protocol with
                   | Some h =>
                       Deliver h data (Z.of_nat (length data))
                         (unicast (iface route)) dst ifc
                   | None => Drop None
                   end
               end
           end.
Proof.
  intros Hroute Hany Hsrc Hmtu Hmax Hp Hu Hd hop.
  assert (Hlen : IP_HDR_SIZE_MIN + Z.of_nat (length data) <= IP_TOTAL_SIZE_MAX)
    by (unfold IP_TOTAL_SIZE_MAX; lia).
  destruct (ip_input_datagram big_endian protocol data
              (unicast (iface route)) dst id [] [] Hlen Hp Hu Hd)
    as (datagram & Hdg & _).
  exists datagram. split.
  - unfold ip_output. cbv zeta. rewrite Hroute, Hdg.
    assert (H1 : (src =? Tcp.IP_ADDR_ANY) && (dst =? IP_ADDR_BROADCAST) = false).
    { destruct (Z.eqb_spec src Tcp.IP_ADDR_ANY) as [E|E]; [|reflexivity].
      destruct (Z.eqb_spec dst IP_ADDR_BROADCAST) as [E'|E']; [|reflexivity].
      destruct (Hany E E'). }
    rewrite H1.
    assert (H2 : negb (src =? Tcp.IP_ADDR_ANY)
                 && negb (src =? unicast (iface route)) = false).
    { destruct Hsrc as [E|E]; rewrite E, ?Z.eqb_refl; cbn [negb andb];
        [reflexivity|apply andb_false_r]. }
    rewrite H2.
    unfold IP_HDR_SIZE_MIN, Tcp.IP_HDR_SIZE_MIN in Hmtu.
    assert (H3 : Tcp.u64 (IP_HDR_SIZE_MIN + Z.of_nat (length data))
                 = 20 + Z.of_nat (length data)).
    { unfold Tcp.u64, IP_HDR_SIZE_MIN, Tcp.IP_HDR_SIZE_MIN.
      apply Z.mod_small. lia. }
    rewrite H3.
    destruct (Z.ltb_spec (Net.mtu (ip_dev (iface route)))
                (20 + Z.of_nat (length data))); [lia|].
    assert (H4 : Tcp.ssize (Z.of_nat (length data)) = Z.of_nat (length data)).
    { apply ssize_small. lia. }
    rewrite H4. subst hop.
    destruct (Z.eqb_spec (nexthop route) Tcp.IP_ADDR_ANY); reflexivity.
  - intros chain protocols.
    destruct (ip_input_datagram big_endian protocol data
                (unicast (iface route)) dst id chain protocols Hlen Hp Hu Hd)
      as (datagram' & Hdg' & Hin).
    rewrite Hdg in Hdg'. injection Hdg' as <-. exact Hin.
Qed.

End IpOutputFacts.

Lemma ip_output_then_input_witness :
  exists datagram,
    Ip.ip_output false Sample.routing 128 (fun _ _ _ => 0) 6
      [x01; x02; x03] 0 16777343
    = Ip.Sent Sample.lo_iface (Some datagram) 16777343 3
    /\ Ip.ip_input false datagram [Sample.lo_iface] [Ip.IpProto 17 2; Ip.IpProto 6 1]
       = Ip.Deliver 1 [x01; x02; x03] 3 16777343 16777343 Sample.lo_iface.
Proof.
  pose proof (ip_output_then_input false Sample.routing 128 (fun _ _ _ => 0) 6
                [x01; x02; x03] 0 16777343 (Ip.Route 127 255 0 Sample.lo_iface))
    as H.
  specialize (H ltac:(vm_compute; reflexivity)
                ltac:(intros _; vm_compute; discriminate)
                ltac:(left; reflexivity)
                ltac:(vm_compute; discriminate)
                ltac:(vm_compute; reflexivity)
                ltac:(lia) ltac:(vm_compute; intuition congruence)
                ltac:(lia)).
  cbv zeta in H. destruct H as (datagram & Ho & Hi).
  exists datagram. split.
  - exact Ho.
  - exact (Hi [Sample.lo_iface] [Ip.IpProto 17 2; Ip.IpProto 6 1]).
Defined.
